(** * CNN_ASL: the preprocessing, model declaration, training driver and
      inference pipeline of the three notebooks

    The notebooks [Asl_a_cnn.ipynb] (Part A) and [Asl_b_c_augment_pred.ipynb]
    (Parts B and C) are sequences of calls into numpy and Keras.  This file
    embeds the notebook cells as Rocq functions over a model of the values
    they manipulate:

    - numbers are IEEE-754 floats ([spec_float] of the Standard Library) in
      the two formats the notebooks meet, float64 (numpy's result of
      [int_array / 255]) and float32 (Keras' [floatx], the dtype of
      [img_to_array], [to_categorical] and of the model's output);
    - an [ndarray] is a shape together with its row-major data;
    - Python exceptions are values of [exn]; a cell that raises keeps the
      assignments it made before raising.

    The library routines the cells call ([ndarray.reshape], [np.argmax],
    [keras.utils.to_categorical], the index loop of the batch iterator and
    the step loop of [Model.fit]) are written out after their library
    sources, which are quoted next to each definition. *)

From Stdlib Require Import ZArith QArith Qround Lia Bool Ascii String.
From Stdlib Require Import Floats.SpecFloat.
From stdpp Require Import base list strings.

Local Open Scope Z_scope.

(** ** Results of fallible calls *)

(** The Python exceptions the cells can meet. *)
Inductive exn : Type :=
  | ValueError
  | IndexError
  | OverflowError
  | ZeroDivisionError
  | FileNotFoundError
  | UnidentifiedImageError.

(** The specification names its error kinds abstractly; these are the Python
    exceptions that realise them in the notebooks. *)
Definition ShapeMismatch : exn := ValueError.
Definition LabelOutOfRange : exn := IndexError.
Definition ImageNotFound : exn := FileNotFoundError.
Definition UnsupportedImageFormat : exn := UnidentifiedImageError.

Inductive result (A : Type) : Type :=
  | Ok (a : A)
  | Raise (e : exn).
Arguments Ok {A} a.
Arguments Raise {A} e.

Definition rbind {A B} (r : result A) (k : A → result B) : result B :=
  match r with
  | Ok a => k a
  | Raise e => Raise e
  end.

Definition rmap {A B} (f : A → B) (r : result A) : result B :=
  rbind r (λ a, Ok (f a)).

Definition is_ok {A} (r : result A) : bool :=
  match r with Ok _ => true | Raise _ => false end.

(** [traverse f l] runs [f] on the elements from left to right and stops at
    the first exception. *)
Fixpoint traverse {A B} (f : A → result B) (l : list A) : result (list B) :=
  match l with
  | [] => Ok []
  | a :: l' => rbind (f a) (λ b, rmap (cons b) (traverse f l'))
  end.

#[export] Instance result_ret : MRet result := λ A, @Ok A.
#[export] Instance result_bind : MBind result := λ A B k r, rbind r k.
#[export] Instance result_fmap : FMap result := λ A B f r, rmap f r.

(** ** Notebook cells

    A cell runs against the state of the kernel (the variables and the
    output area it touches).  When a statement raises, the cell stops and
    the assignments made so far stay. *)

Definition cell (S A : Type) : Type := S → result A * S.

Definition cell_ret {S A} (a : A) : cell S A := λ s, (Ok a, s).

Definition cell_bind {S A B} (c : cell S A) (k : A → cell S B) : cell S B :=
  λ s, match c s with
       | (Ok a, s') => k a s'
       | (Raise e, s') => (Raise e, s')
       end.

#[export] Instance cell_mret {S} : MRet (cell S) := λ A, @cell_ret S A.
#[export] Instance cell_mbind {S} : MBind (cell S) :=
  λ A B k c, cell_bind c k.

(** Running a cell [k] times in a row; a run that raised does not prevent
    the next. *)
Definition rerun {S A} (c : cell S A) (k : nat) (s : S) : S :=
  Nat.iter k (λ s, (c s).2) s.

(** A call that returns or raises without touching the state. *)
Definition call {S A} (r : result A) : cell S A := λ s, (r, s).

(** An assignment to the state. *)
Definition assign {S} (f : S → S) : cell S unit := λ s, (Ok (), f s).

(** A call on the values of variables of the state. *)
Definition eval {S A} (f : S → result A) : cell S A := λ s, (f s, s).

(** ** Floating-point numbers *)

Module Float.

Record format := { prec : Z; emax : Z }.
Definition binary32 : format := {| prec := 24; emax := 128 |}.
Definition binary64 : format := {| prec := 53; emax := 1024 |}.

(** Conversion of an integer, rounding to nearest even. *)
Definition of_Z (f : format) (z : Z) : spec_float :=
  binary_normalize (prec f) (emax f) z 0 false.

Definition div (f : format) (x y : spec_float) : spec_float :=
  SFdiv (prec f) (emax f) x y.

(** Conversion of a float to the format [f] ([astype], or the cast Keras
    applies to the arrays it is fed). *)
Definition cast (f : format) (x : spec_float) : spec_float :=
  match x with
  | S754_finite s m e =>
      binary_normalize (prec f) (emax f) (cond_Zopp s (Zpos m)) e s
  | _ => x
  end.

Definition is_nan (x : spec_float) : bool :=
  match x with S754_nan => true | _ => false end.

Definition zero : spec_float := S754_zero false.
Definition one (f : format) : spec_float := of_Z f 1.

Definition leb : spec_float → spec_float → bool := SFleb.
Definition ltb : spec_float → spec_float → bool := SFltb.
Definition eqb : spec_float → spec_float → bool := SFeqb.

(** [x] lies in the closed interval [[0,1]]. *)
Definition in_unit (f : format) (x : spec_float) : bool :=
  leb zero x && leb x (one f).

(** Truncation towards zero of a finite float; [None] for the values that
    have no integer part (infinities and NaN). *)
Definition trunc (x : spec_float) : option Z :=
  match x with
  | S754_zero _ => Some 0
  | S754_finite s m e =>
      Some (cond_Zopp s (if 0 <=? e then Zpos m * 2 ^ e
                         else Zpos m / 2 ^ (- e)))
  | _ => None
  end.

(** Conversion to int64 ([np.array(a, dtype='int')]): the integer part when
    it fits, and otherwise the "integer indefinite" value the x86-64
    conversion delivers. *)
Definition to_int64 (x : spec_float) : Z :=
  match trunc x with
  | Some z => if (- 2 ^ 63 <=? z) && (z <? 2 ^ 63) then z else - 2 ^ 63
  | None => - 2 ^ 63
  end.

End Float.

(** ** numpy arrays *)

Module Numpy.

(** An array is its shape and its elements in row-major (C) order. *)
Record ndarray (A : Type) : Type := mk_ndarray {
  shape : list nat;
  data : list A
}.
Arguments mk_ndarray {A} shape data.
Arguments shape {A} n.
Arguments data {A} n.

(** Number of elements a shape holds. *)
Definition size_of (sh : list nat) : nat := foldr Nat.mul 1%nat sh.

Definition wf {A} (a : ndarray A) : Prop :=
  length (data a) = size_of (shape a).

(** [a.size] *)
Definition size {A} (a : ndarray A) : nat := size_of (shape a).

(** A one-dimensional array. *)
Definition vector {A} (l : list A) : ndarray A := mk_ndarray [length l] l.

(** A two-dimensional array of [length rows] rows and [ncols] columns, as
    [DataFrame.values] builds it. *)
Definition matrix {A} (ncols : nat) (rows : list (list A)) : ndarray A :=
  mk_ndarray [length rows; ncols] (concat rows).

Definition map_array {A B} (f : A → B) (a : ndarray A) : ndarray B :=
  mk_ndarray (shape a) (map f (data a)).

(** Row-major offset of a multi-index, [None] when out of bounds. *)
Fixpoint offset (sh idx : list nat) : option nat :=
  match sh, idx with
  | [], [] => Some 0%nat
  | d :: sh', i :: idx' =>
      if (i <? d)%nat
      then option_map (λ o, (i * size_of sh' + o)%nat) (offset sh' idx')
      else None
  | _, _ => None
  end.

(** [a[i0, i1, ...]] for non-negative indices. *)
Definition item {A} (a : ndarray A) (idx : list nat) : option A :=
  match offset (shape a) idx with
  | Some o => data a !! o
  | None => None
  end.

(** *** [ndarray.reshape]

    numpy resolves the requested shape in [_fix_unknown_dimension]:
<<
    s_original = PyArray_SIZE(arr); s_known = 1; i_unknown = -1;
    for (i = 0; i < n; i++) {
        if (dimensions[i] < 0) {
            if (i_unknown == -1) i_unknown = i;
            else  /* ValueError: can only specify one unknown dimension */
        }
        else  s_known *= dimensions[i];
    }
    if (i_unknown >= 0) {
        if (s_known == 0 || s_original % s_known != 0)  /* ValueError */
        dimensions[i_unknown] = s_original / s_known;
    }
    else if (s_original != s_known)  /* ValueError */
>>
    and the reshaped array views the same elements in the same order. *)

Definition s_known (dims : list Z) : Z :=
  foldr Z.mul 1 (filter (λ d, 0 <= d) dims).

Definition n_unknown (dims : list Z) : nat :=
  length (filter (λ d, d < 0) dims).

Definition fix_unknown_dimension (dims : list Z) (s_original : Z)
  : result (list nat) :=
  match n_unknown dims with
  | O =>
      if s_original =? s_known dims then Ok (map Z.to_nat dims)
      else Raise ValueError
  | S O =>
      if (s_known dims =? 0) || negb (s_original mod s_known dims =? 0)
      then Raise ValueError
      else Ok (map (λ d, if d <? 0
                         then Z.to_nat (s_original / s_known dims)
                         else Z.to_nat d) dims)
  | _ => Raise ValueError
  end.

Definition reshape {A} (a : ndarray A) (newshape : list Z)
  : result (ndarray A) :=
  rmap (λ sh, mk_ndarray sh (data a))
       (fix_unknown_dimension newshape (Z.of_nat (size a))).

(** *** Division

    [a / d] for an integer array and a Python int is numpy's
    [true_divide]: both operands are converted to float64. *)
Definition true_divide_int (a : ndarray Z) (d : Z) : ndarray spec_float :=
  map_array (λ x, Float.div Float.binary64
                    (Float.of_Z Float.binary64 x)
                    (Float.of_Z Float.binary64 d)) a.

(** [a / d] for a float32 array and a Python int stays in float32. *)
Definition true_divide_f32 (a : ndarray spec_float) (d : Z)
  : ndarray spec_float :=
  map_array (λ x, Float.div Float.binary32 x
                    (Float.of_Z Float.binary32 d)) a.

(** [a.astype('float32')] *)
Definition astype_f32 (a : ndarray spec_float) : ndarray spec_float :=
  map_array (Float.cast Float.binary32) a.

(** *** [np.argmax]

    Without an axis the array is ravelled; the float loop of numpy is
<<
    mp = ip[0]; max_ind = 0;
    if (npy_isnan(mp)) return 0;          /* nan encountered; it's maximal */
    for (i = 1; i < n; i++) {
        if (!(ip[i] <= mp)) {             /* negated, for nan handling */
            mp = ip[i]; max_ind = i;
            if (npy_isnan(mp)) break;
        }
    }
>>
    and an empty array raises [ValueError]. *)
Fixpoint argmax_loop (mp : spec_float) (max_ind i : nat)
  (ip : list spec_float) : nat :=
  match ip with
  | [] => max_ind
  | x :: ip' =>
      if negb (Float.leb x mp)
      then if Float.is_nan x then i else argmax_loop x i (S i) ip'
      else argmax_loop mp max_ind (S i) ip'
  end.

Definition argmax (a : ndarray spec_float) : result nat :=
  match data a with
  | [] => Raise ValueError
  | mp :: ip =>
      Ok (if Float.is_nan mp then 0%nat else argmax_loop mp 0 1 ip)
  end.

(** [a / d] for a float64 array and a Python int stays in float64. *)
Definition true_divide_f64 (a : ndarray spec_float) (d : Z)
  : ndarray spec_float :=
  map_array (λ x, Float.div Float.binary64 x
                    (Float.of_Z Float.binary64 d)) a.

(** [a[i]] for a non-negative [i]: the sub-array at position [i] of the
    first axis; [IndexError] when [i] is out of bounds or the array has no
    axis. *)
Definition getitem {A} (a : ndarray A) (i : nat) : result (ndarray A) :=
  match shape a with
  | [] => Raise IndexError
  | n :: sh =>
      if (i <? n)%nat
      then Ok (mk_ndarray sh (take (size_of sh) (drop (i * size_of sh) (data a))))
      else Raise IndexError
  end.

(** [np.squeeze(a)]: the axes of length one are dropped. *)
Definition squeeze {A} (a : ndarray A) : ndarray A :=
  mk_ndarray (filter (λ n, n ≠ 1%nat) (shape a)) (data a).

End Numpy.

(** ** Keras *)

Module Keras.
Import Numpy.

(** Keras' [floatx()], the dtype of [to_categorical], of [img_to_array]
    and of every tensor the model sees. *)
Definition floatx : Float.format := Float.binary32.

(** *** [keras.utils.to_categorical]
<<
    y = np.array(y, dtype='int')
    input_shape = y.shape
    if input_shape and input_shape[-1] == 1 and len(input_shape) > 1:
        input_shape = tuple(input_shape[:-1])
    y = y.ravel()
    if not num_classes:
        num_classes = np.max(y) + 1
    n = y.shape[0]
    categorical = np.zeros((n, num_classes), dtype=dtype)
    categorical[np.arange(n), y] = 1
    output_shape = input_shape + (num_classes,)
    categorical = np.reshape(categorical, output_shape)
    return categorical
>>  *)

(** What a label variable of the notebooks holds, and [to_categorical] is
    called on: the pandas Series taken from the table, or the float array
    [to_categorical] returned. *)
Inductive labels :=
  | Series (l : list Z)
  | Categorical (a : ndarray spec_float).

Definition labels_shape (v : labels) : list nat :=
  match v with
  | Series l => [length l]
  | Categorical a => shape a
  end.

(** [v.shape[-1]] *)
Definition last_dim (v : labels) : result nat :=
  match last (labels_shape v) with
  | Some d => Ok d
  | None => Raise IndexError
  end.

(** The dtype [pd.read_csv] gives a column of integers: int64 when every
    value fits; uint64 when none is negative and every value fits; and
    otherwise the column is left as the text of the file (object). *)
Inductive dtype := Int64 | UInt64 | Object.

Definition column_dtype (l : list Z) : dtype :=
  if forallb (λ v, (- 2 ^ 63 <=? v) && (v <? 2 ^ 63)) l then Int64
  else if forallb (λ v, (0 <=? v) && (v <? 2 ^ 64)) l then UInt64
  else Object.

(** The cast of a 64-bit integer to int64: the value with the same 64
    bits, so an integer from [2^63] on wraps to a negative one. *)
Definition wrap_int64 (v : Z) : Z := (v + 2 ^ 63) mod 2 ^ 64 - 2 ^ 63.

(** [np.array(y, dtype='int')], the first statement of [to_categorical].
    An int64 column is taken as it is; a uint64 column is cast, which
    wraps; in a text column the numbers are parsed one by one, and the one
    that does not fit int64 (there is one, or the column would be int64)
    raises [OverflowError]; a float array is truncated. *)
Definition as_int_array (v : labels) : result (ndarray Z) :=
  match v with
  | Series l =>
      match column_dtype l with
      | Int64 => Ok (vector l)
      | UInt64 => Ok (vector (map wrap_int64 l))
      | Object => Raise OverflowError
      end
  | Categorical a => Ok (map_array Float.to_int64 a)
  end.

(** Index check of numpy's integer indexing along an axis of length [n]:
    an index in [[-n, n)] is accepted, a negative one counting from the
    end; anything else raises [IndexError]. *)
Definition check_index (n : nat) (i : Z) : result nat :=
  if (- Z.of_nat n <=? i) && (i <? Z.of_nat n)
  then Ok (Z.to_nat (if i <? 0 then i + Z.of_nat n else i))
  else Raise IndexError.

(** One row of [categorical] after the assignment: zeros, and a one at
    column [y[i]]. *)
Definition one_hot (num_classes k : nat) : list spec_float :=
  <[k := Float.one floatx]> (replicate num_classes Float.zero).

Definition categorical_row (num_classes : nat) (label : Z)
  : result (list spec_float) :=
  one_hot num_classes <$> check_index num_classes label.

Definition input_shape (sh : list nat) : list nat :=
  if bool_decide (last sh = Some 1%nat) && (1 <? length sh)%nat
  then removelast sh else sh.

(** [num_classes] as the caller passed it, or [np.max(y) + 1] when it is
    falsy. *)
Definition resolve_num_classes (y : list Z) (num_classes : nat)
  : result nat :=
  match num_classes, y with
  | S _, _ => Ok num_classes
  | O, [] => Raise ValueError
  | O, l :: y' =>
      let m := foldr Z.max l y' + 1 in
      if m <? 0 then Raise ValueError else Ok (Z.to_nat m)
  end.

Definition to_categorical (y : labels) (num_classes : nat)
  : result (ndarray spec_float) :=
  y ← as_int_array y;
  nc ← resolve_num_classes (data y) num_classes;
  categorical ← traverse (categorical_row nc) (data y);
  reshape (matrix nc categorical)
          (map Z.of_nat (input_shape (shape y) ++ [nc])).

(** *** Images ([keras.preprocessing.image]) *)

(** The [color_mode] argument of [load_img]. *)
Inductive color_mode := Grayscale | Rgb | Rgba.

(** The modes of the PIL images [load_img] returns: ["L"] (8-bit
    greyscale), ["I;16"] (16-bit greyscale), ["I"] (32-bit signed
    greyscale), ["RGB"] and ["RGBA"]. *)
Inductive image_mode := ModeL | ModeI16 | ModeI | ModeRGB | ModeRGBA.

Definition channels (m : image_mode) : nat :=
  match m with
  | ModeRGB => 3
  | ModeRGBA => 4
  | ModeL | ModeI16 | ModeI => 1
  end.

(** The least and the greatest sample of a mode. *)
Definition sample_range (m : image_mode) : Z * Z :=
  match m with
  | ModeI16 => (0, 65535)
  | ModeI => (- 2 ^ 31, 2 ^ 31 - 1)
  | ModeL | ModeRGB | ModeRGBA => (0, 255)
  end.

(** A decoded PIL image: its samples, rows top to bottom, the channels of
    a pixel adjacent. *)
Record pil_image := {
  mode : image_mode;
  width : nat;
  height : nat;
  pixels : list Z
}.

Definition pil_wf (im : pil_image) : Prop :=
  length (pixels im) = (height im * width im * channels (mode im))%nat ∧
  Forall (λ s, (sample_range (mode im)).1 ≤ s ≤ (sample_range (mode im)).2)
         (pixels im).

(** The mode [load_img] converts to, when it converts:
<<
    if color_mode == 'grayscale':
        # if image is not already an 8-bit, 16-bit or 32-bit grayscale image
        # convert it to an 8-bit grayscale image.
        if img.mode not in ('L', 'I;16', 'I'):
            img = img.convert('L')
    elif color_mode == 'rgba':
        if img.mode != 'RGBA':
            img = img.convert('RGBA')
    elif color_mode == 'rgb':
        if img.mode != 'RGB':
            img = img.convert('RGB')
>>  *)
Definition converted_mode (cm : color_mode) : image_mode :=
  match cm with
  | Grayscale => ModeL
  | Rgb => ModeRGB
  | Rgba => ModeRGBA
  end.

(** The modes an image returned for [color_mode] can have: a 16-bit or
    32-bit greyscale file keeps its mode. *)
Definition returned_mode (cm : color_mode) (m : image_mode) : bool :=
  match cm, m with
  | Grayscale, (ModeL | ModeI16 | ModeI) => true
  | Rgb, ModeRGB => true
  | Rgba, ModeRGBA => true
  | _, _ => false
  end.

(** [img_to_array]: the samples as a float32 array of shape
    [(height, width, channels)].
<<
    x = np.asarray(img, dtype=dtype)          # dtype='float32'
    if len(x.shape) == 2:
        x = x.reshape((x.shape[0], x.shape[1], 1))
>>  *)
Definition img_to_array (im : pil_image) : ndarray spec_float :=
  mk_ndarray [height im; width im; channels (mode im)]
    (map (Float.of_Z floatx) (pixels im)).

(** *** Layers of a [Sequential] model *)

Inductive padding := Same | Valid.
Inductive activation := Relu | Softmax.

Inductive layer : Type :=
  | Conv2D (filters : nat) (kernel_size : nat * nat) (strides : nat)
      (pad : padding) (act : activation)
      (input_shape : option (list nat))
  | BatchNormalization
  | MaxPool2D (pool_size : nat * nat) (strides : nat) (pad : padding)
  | Dropout (rate : Q)
  | Flatten
  | Dense (units : nat) (act : activation).

(** [Sequential()] and [model.add(layer)] *)
Definition Sequential : list layer := [].
Definition add (model : list layer) (l : layer) : list layer :=
  model ++ [l].

(** The names of the layer classes, for comparing the order of layer
    types without their hyperparameters. *)
Inductive layer_type :=
  | TConv2D | TBatchNormalization | TMaxPool2D | TDropout | TFlatten
  | TDense.

Definition type_of (l : layer) : layer_type :=
  match l with
  | Conv2D _ _ _ _ _ _ => TConv2D
  | BatchNormalization => TBatchNormalization
  | MaxPool2D _ _ _ => TMaxPool2D
  | Dropout _ => TDropout
  | Flatten => TFlatten
  | Dense _ _ => TDense
  end.

(** Length of one spatial axis after a window of [k] moved by [s]. *)
Definition out_length (pad : padding) (k s n : nat) : nat :=
  match pad with
  | Same => Nat.div (n + s - 1) s
  | Valid => Nat.div (n - k) s + 1
  end.

(** Shape of a layer's output for one sample, given the shape of its
    input; [None] when the layer does not accept the input. *)
Definition output_shape (l : layer) (sh : list nat) : option (list nat) :=
  match l, sh with
  | Conv2D f (kh, kw) s pad _ _, [h; w; _] =>
      Some [out_length pad kh s h; out_length pad kw s w; f]
  | MaxPool2D (ph, pw) s pad, [h; w; c] =>
      Some [out_length pad ph s h; out_length pad pw s w; c]
  | BatchNormalization, _ | Dropout _, _ => Some sh
  | Flatten, _ => Some [size_of sh]
  | Dense u _, _ :: _ => Some (removelast sh ++ [u])
  | _, _ => None
  end.

Fixpoint model_output_shape (model : list layer) (sh : list nat)
  : option (list nat) :=
  match model with
  | [] => Some sh
  | l :: model' =>
      match output_shape l sh with
      | Some sh' => model_output_shape model' sh'
      | None => None
      end
  end.

(** The number of integers [0 <= step] below [steps_per_epoch]: how many
    turns a loop [while step < steps_per_epoch] takes from step 0. *)
Definition epoch_steps (steps_per_epoch : Q) : nat :=
  Z.to_nat (Qceiling steps_per_epoch).

(** *** [ImageDataGenerator]: the settings of the augmentation *)

Record ImageDataGenerator := {
  rotation_range : Z;
  zoom_range : Q;
  width_shift_range : Q;
  height_shift_range : Q;
  horizontal_flip : bool;
  vertical_flip : bool
}.

(** *** The framework's capabilities

    What the notebooks ask of the framework and never implement: random
    numbers, the augmentation transform of a single image, and one
    optimizer step and one evaluation of the model being trained. *)
Class Framework := {
  (** the state of the random generators of the process *)
  rng : Type;
  (** [np.random.permutation(n)] *)
  permutation : rng → nat → list nat * rng;
  (** [random.shuffle(order)] *)
  shuffle : rng → list nat → list nat * rng;
  (** the random transform of one image under a generator's settings
      ([get_random_transform], [apply_transform], [standardize]) *)
  random_transform :
    ImageDataGenerator → list spec_float → rng → list spec_float * rng;
  (** how many batches the input pipeline of [fit] has read beyond those
      the steps consumed, when an epoch stops before its data end (its
      [prefetch] runs ahead of the steps; the number depends on the
      scheduling, and is given here for each count of batches seen) *)
  read_ahead : nat → nat;
  weights : Type;
  metrics : Type;
  (** forward and backward pass on a batch, and the optimizer update *)
  train_step : weights → ndarray spec_float * ndarray spec_float → weights;
  (** loss and accuracy on the validation data at the end of an epoch *)
  evaluate : weights → metrics
}.

(** *** The batch iterator of [ImageDataGenerator] *)

(** [len(a)], the first dimension of an array that has one. *)
Definition len {A} (a : ndarray A) : nat := hd 0%nat (shape a).

(** [a[j]] along the first axis, as flat data. *)
Definition row_data {A} (a : ndarray A) (j : nat) : list A :=
  let sz := size_of (tl (shape a)) in take sz (drop (j * sz) (data a)).

(** [a[index_array]]: the rows picked by an index array. *)
Definition take_rows {A} (a : ndarray A) (index_array : list nat)
  : ndarray A :=
  mk_ndarray (length index_array :: tl (shape a))
             (concat (map (row_data a) index_array)).

Section Flow.
Context `{Framework}.

(** The iterator [datagen.flow(x, y, batch_size)] returns, a
    [keras.utils.Sequence].  The state of the random generators is kept
    with it.  [index_array] is [None] until the first batch is asked
    for. *)
Record NumpyArrayIterator := {
  image_data_generator : ImageDataGenerator;
  x : ndarray spec_float;
  y : ndarray spec_float;
  batch_size : nat;
  batch_index : nat;
  total_batches_seen : nat;
  index_array : option (list nat);
  random_state : rng
}.

Definition flow (datagen : ImageDataGenerator)
  (x y : ndarray spec_float) (batch_size : nat) (g : rng)
  : NumpyArrayIterator :=
  {| image_data_generator := datagen; x := x; y := y;
     batch_size := batch_size; batch_index := 0; total_batches_seen := 0;
     index_array := None; random_state := g |}.

Fixpoint transform_rows (datagen : ImageDataGenerator)
  (rows : list (list spec_float)) (g : rng)
  : list (list spec_float) * rng :=
  match rows with
  | [] => ([], g)
  | r :: rows' =>
      let '(r', g) := random_transform datagen r g in
      let '(rs, g) := transform_rows datagen rows' g in
      (r' :: rs, g)
  end.

(** [_set_index_array], for an iterator that shuffles (the default of
    [flow]):
<<
      self.index_array = np.arange(self.n)
      if self.shuffle:
          self.index_array = np.random.permutation(self.n)
>>  *)
Definition _set_index_array (it : NumpyArrayIterator)
  : NumpyArrayIterator :=
  let '(index_array, g) := permutation (random_state it) (len (x it)) in
  {| image_data_generator := image_data_generator it;
     x := x it; y := y it; batch_size := batch_size it;
     batch_index := batch_index it;
     total_batches_seen := total_batches_seen it;
     index_array := Some index_array; random_state := g |}.

(** [_get_batches_of_transformed_samples(index_array)]: the rows the
    indices name, each under a random transform, and their targets. *)
Definition _get_batches_of_transformed_samples (it : NumpyArrayIterator)
  (index_array : list nat)
  : (ndarray spec_float * ndarray spec_float) * rng :=
  let '(rows, g) :=
    transform_rows (image_data_generator it)
                   (map (row_data (x it)) index_array) (random_state it) in
  ((mk_ndarray (length index_array :: tl (shape (x it))) (concat rows),
    take_rows (y it) index_array), g).

(** One turn of the iterator's index generator and the batch built from
    it:
<<
      def _flow_index(self):
          self.reset()
          while 1:
              if self.batch_index == 0:
                  self._set_index_array()    # np.random.permutation(self.n)
              if self.n == 0:
                  current_index = 0
              else:
                  current_index = (self.batch_index * self.batch_size) % self.n
              if self.n > current_index + self.batch_size:
                  self.batch_index += 1
              else:
                  self.batch_index = 0
              self.total_batches_seen += 1
              yield self.index_array[current_index:
                                     current_index + self.batch_size]
>>
    The loop has no exit: every call of [next] yields a batch.  The index
    array is set whenever [batch_index] is 0, which it is at the first
    call, so the slice is never taken of [None]. *)
Definition next (it : NumpyArrayIterator)
  : (ndarray spec_float * ndarray spec_float) * NumpyArrayIterator :=
  let n := len (x it) in
  let it' := if (batch_index it =? 0)%nat then _set_index_array it else it in
  let current_index :=
    if (n =? 0)%nat then 0%nat
    else ((batch_index it * batch_size it) mod n)%nat in
  let batch_index' :=
    if (current_index + batch_size it <? n)%nat
    then S (batch_index it) else 0%nat in
  let batch :=
    take (batch_size it)
         (drop current_index (default [] (index_array it'))) in
  let '(batch_xy, g) := _get_batches_of_transformed_samples it' batch in
  (batch_xy,
   {| image_data_generator := image_data_generator it;
      x := x it; y := y it; batch_size := batch_size it;
      batch_index := batch_index';
      total_batches_seen := S (total_batches_seen it);
      index_array := index_array it'; random_state := g |}).

(** The iterator after [k] more batches were drawn from it. *)
Definition draw (k : nat) (it : NumpyArrayIterator) : NumpyArrayIterator :=
  Nat.iter k (λ it, (next it).2) it.

(** The iterator as a [Sequence], which is how [Model.fit] reads it:
<<
      def __len__(self):
          return (self.n + self.batch_size - 1) // self.batch_size  # round up

      def __getitem__(self, idx):
          if idx >= len(self):
              raise ValueError('Asked to retrieve element {idx}, '
                               'but the Sequence '
                               'has length {length}'.format(...))
          self.total_batches_seen += 1
          if self.index_array is None:
              self._set_index_array()
          index_array = self.index_array[self.batch_size * idx:
                                         self.batch_size * (idx + 1)]
          return self._get_batches_of_transformed_samples(index_array)

      def on_epoch_end(self):
          self._set_index_array()
>>  *)
Definition __len__ (it : NumpyArrayIterator) : result nat :=
  if (batch_size it =? 0)%nat then Raise ZeroDivisionError
  else Ok ((len (x it) + batch_size it - 1) / batch_size it)%nat.

Definition __getitem__ (it : NumpyArrayIterator) (idx : nat)
  : result (ndarray spec_float * ndarray spec_float) * NumpyArrayIterator :=
  match __len__ it with
  | Raise e => (Raise e, it)
  | Ok length =>
      if (length <=? idx)%nat then (Raise ValueError, it)
      else
        let it' :=
          match index_array it with
          | None => _set_index_array it
          | Some _ => it
          end in
        let batch :=
          take (batch_size it)
               (drop (batch_size it * idx)
                     (default [] (index_array it'))) in
        let '(batch_xy, g) := _get_batches_of_transformed_samples it' batch in
        (Ok batch_xy,
         {| image_data_generator := image_data_generator it;
            x := x it; y := y it; batch_size := batch_size it;
            batch_index := batch_index it;
            total_batches_seen := S (total_batches_seen it);
            index_array := index_array it'; random_state := g |})
  end.

Definition on_epoch_end (it : NumpyArrayIterator) : NumpyArrayIterator :=
  _set_index_array it.

(** *** [Model.fit] on a [Sequence]

    The state of a training run: the parameters, the Sequence the batches
    are read from, the metrics logged at the end of each epoch, and
    whether an epoch ran out of data. *)
Record training := {
  params : weights;
  iterator : NumpyArrayIterator;
  history : list metrics;
  insufficient_data : bool
}.

(** [x[idx]] on the Sequence of the run. *)
Definition read (idx : nat)
  : cell training (ndarray spec_float * ndarray spec_float) :=
  λ t, let '(batch, it) := __getitem__ (iterator t) idx in
       (batch, {| params := params t; iterator := it;
                  history := history t;
                  insufficient_data := insufficient_data t |}).

(** The batches the pipeline had read ahead of the steps are read and
    dropped. *)
Fixpoint discard (order : list nat) : cell training unit :=
  match order with
  | [] => mret ()
  | idx :: order' => read idx;; discard order'
  end.

(** The steps of one epoch.  The data of the epoch are the batches
    [x[i]] for [i] in [order]; they are read as the steps ask for them:
<<
      self._current_step = 0
      while self._current_step < self._inferred_steps:
          if self._insufficient_data:  # Set by `catch_stop_iteration`.
              break
          ...  train_function(iterator)  ...
          self._current_step += 1
>>
    [steps_per_epoch] is whatever number the caller passed; the comparison
    is Python's exact comparison of an int with it.  When the data end
    before the steps do, the end of the data is caught and the run is
    marked as out of data. *)
Fixpoint run_steps (steps_per_epoch : Q) (current_step : Z)
  (order : list nat) : cell training unit :=
  if negb (Qle_bool steps_per_epoch (inject_Z current_step))
  then
    match order with
    | [] =>
        assign (λ t, {| params := params t; iterator := iterator t;
                        history := history t;
                        insufficient_data := true |})
    | idx :: order' =>
        batch ← read idx;
        assign (λ t, {| params := train_step (params t) batch;
                        iterator := iterator t;
                        history := history t;
                        insufficient_data := insufficient_data t |});;
        run_steps steps_per_epoch (current_step + 1) order'
    end
  else
    seen ← eval (λ t, Ok (total_batches_seen (iterator t)));
    discard (take (read_ahead seen) order).

(** The order in which an epoch reads the Sequence ([fit] shuffles by
    default):
<<
      def generator_fn():
          order = range(len(x))
          if self._shuffle_sequence:
              # Match the shuffle convention in OrderedEnqueuer.
              order = list(order)
              random.shuffle(order)
          for i in order:
              yield x[i]
>>  *)
Definition epoch_order : cell training (list nat) :=
  λ t, match __len__ (iterator t) with
       | Raise e => (Raise e, t)
       | Ok length =>
           let it := iterator t in
           let '(order, g) := shuffle (random_state it) (seq 0 length) in
           (Ok order,
            {| params := params t;
               iterator :=
                 {| image_data_generator := image_data_generator it;
                    x := x it; y := y it; batch_size := batch_size it;
                    batch_index := batch_index it;
                    total_batches_seen := total_batches_seen it;
                    index_array := index_array it; random_state := g |};
               history := history t;
               insufficient_data := insufficient_data t |})
       end.

(** The epochs:
<<
      for epoch in range(initial_epoch, epochs):
          if self._insufficient_data:  # Set by `catch_stop_iteration`.
              break
          data_iterator = iter(self._dataset)
          ...  the steps of the epoch  ...
          if logs is None:
              raise ValueError('Expect x to be a non-empty array or dataset.')
          ...  evaluation on the validation data  ...
          self._adapter.on_epoch_end()      # sequence.on_epoch_end()
>>
    No step runs, so that nothing is read and [logs] stays [None],
    exactly when [steps_per_epoch] is not positive. *)
Fixpoint run_epochs (epochs : nat) (steps_per_epoch : Q)
  : cell training unit :=
  match epochs with
  | O => mret ()
  | S epochs' =>
      out_of_data ← eval (λ t, Ok (insufficient_data t));
      if out_of_data : bool then mret ()
      else if Qle_bool steps_per_epoch 0 then call (Raise ValueError)
      else
        order ← epoch_order;
        run_steps steps_per_epoch 0 order;;
        assign (λ t, {| params := params t; iterator := iterator t;
                        history := history t ++ [evaluate (params t)];
                        insufficient_data := insufficient_data t |});;
        assign (λ t, {| params := params t;
                        iterator := on_epoch_end (iterator t);
                        history := history t;
                        insufficient_data := insufficient_data t |});;
        run_epochs epochs' steps_per_epoch
  end.

(** [model.fit(sequence, epochs, steps_per_epoch, validation_data)].
    Before the first epoch the pipeline looks at one batch, [x[0]], to
    learn the structure of the data. *)
Definition fit (epochs : nat) (steps_per_epoch : Q) : cell training unit :=
  read 0;;
  run_epochs epochs steps_per_epoch.

End Flow.

End Keras.

(** ** The dataset tables *)

Module Data.
Import Numpy.

(** A table as [pd.read_csv] returns it: the integers of the [label]
    column as the file has them, and the rows of the [ncols] pixel columns
    [pixel1 ... pixelN]. *)
Record dataframe := {
  label : list Z;
  ncols : nat;
  pixel_rows : list (list Z)
}.

(** [df.values], once the label column is deleted. *)
Definition values (df : dataframe) : ndarray Z :=
  matrix (ncols df) (pixel_rows df).

(** A table of the dataset as the notebooks expect it: as many labels as
    rows, labels in [[0,23]], and rows of 784 intensities in [[0,255]]. *)
Definition sign_table (df : dataframe) : Prop :=
  ncols df = 784%nat ∧
  length (label df) = length (pixel_rows df) ∧
  Forall (λ L, 0 ≤ L ≤ 23) (label df) ∧
  Forall (λ pixels, length pixels = 784%nat ∧
                    Forall (λ p, 0 ≤ p ≤ 255) pixels) (pixel_rows df).

(** What a pixel variable of Part A holds: the integers of the table, or
    floats once it was divided. *)
Inductive pixel_array :=
  | Ints (a : ndarray Z)
  | Floats (a : ndarray spec_float).

(** [v / d] *)
Definition divide (v : pixel_array) (d : Z) : pixel_array :=
  match v with
  | Ints a => Floats (true_divide_int a d)
  | Floats a => Floats (true_divide_f64 a d)
  end.

(** A table of all-black images with the given labels. *)
Definition black_table (labels : list Z) : dataframe :=
  {| label := labels; ncols := 784;
     pixel_rows := map (λ _, replicate 784 0) labels |}.

(** *** Columns of a table

    A [DataFrame] by its columns in order, each a name and its values.
    [pd.read_csv] makes the names unique, and the cells below are modelled
    for such tables. *)
Definition frame := list (string * list Z).

(** [df[name]]; [None] stands for the [KeyError] of a missing column. *)
Fixpoint column (df : frame) (name : string) : option (list Z) :=
  match df with
  | [] => None
  | (k, v) :: df' => if String.eqb k name then Some v else column df' name
  end.

(** [del df[name]]; [None] stands for the [KeyError] of a missing column. *)
Fixpoint del_column (df : frame) (name : string) : option frame :=
  match df with
  | [] => None
  | (k, v) :: df' =>
      if String.eqb k name then Some df'
      else cons (k, v) <$> del_column df' name
  end.

End Data.

(** ** Part A: [Asl_a_cnn.ipynb] *)

Module PartA.
Import Numpy Keras Data.

(** The label variables of the kernel. *)
Record label_vars := {
  y_train : labels;
  y_valid : labels
}.

(** [x_train = x_train / 255] *)
Definition normalize (x_train : ndarray Z) : ndarray spec_float :=
  true_divide_int x_train 255.

Definition num_classes : nat := 24.

(** The cell "Categorize the Labels":
<<
      num_classes = 24
      if not y_train.shape[-1] == 24:  # Avoid running multiple times
          y_train = keras.utils.to_categorical(y_train, num_classes)
          y_valid = keras.utils.to_categorical(y_valid, num_classes)
>>  *)
Definition categorize : cell label_vars unit :=
  d ← eval (λ s, last_dim (y_train s));
  if negb (d =? 24)%nat then
    yt ← eval (λ s, to_categorical (y_train s) num_classes);
    assign (λ s, {| y_train := Categorical yt; y_valid := y_valid s |});;
    yv ← eval (λ s, to_categorical (y_valid s) num_classes);
    assign (λ s, {| y_train := y_train s; y_valid := Categorical yv |})
  else mret ().

(** [x_train = x_train.reshape(-1,28,28,1)] *)
Definition reshape_images (x_train : ndarray spec_float)
  : result (ndarray spec_float) :=
  reshape x_train [-1; 28; 28; 1].

(** The cell "Creating the CNN Model". *)
Definition model : list layer :=
  let model := Sequential in
  let model := add model (Conv2D 75 (3, 3)%nat 1 Same Relu (Some [28; 28; 1]%nat)) in
  let model := add model BatchNormalization in
  let model := add model (MaxPool2D (2, 2)%nat 2 Same) in
  let model := add model (Conv2D 50 (3, 3)%nat 1 Same Relu None) in
  let model := add model (Dropout 0.2) in
  let model := add model BatchNormalization in
  let model := add model (MaxPool2D (2, 2)%nat 2 Same) in
  let model := add model (Conv2D 25 (3, 3)%nat 1 Same Relu None) in
  let model := add model BatchNormalization in
  let model := add model (MaxPool2D (2, 2)%nat 2 Same) in
  let model := add model Flatten in
  let model := add model (Dense 512 Relu) in
  let model := add model (Dropout 0.3) in
  let model := add model (Dense num_classes Softmax) in
  model.

(** The pixel variables of the kernel. *)
Record pixel_vars := {
  x_train : pixel_array;
  x_valid : pixel_array
}.

(** The cell "Normalize the Image Data", on whatever the variables hold:
<<
      x_train = x_train / 255
      x_valid = x_valid / 255
>>  *)
Definition normalize_cell : cell pixel_vars unit :=
  assign (λ s, {| x_train := divide (x_train s) 255; x_valid := x_valid s |});;
  assign (λ s, {| x_train := x_train s; x_valid := divide (x_valid s) 255 |}).

(** The variables the cells of Part A leave for training. *)
Record prepared := {
  images : ndarray spec_float;
  targets : labels;
  valid_images : ndarray spec_float;
  valid_targets : labels
}.

(** The data cells of Part A run in the order of the notebook, from the
    tables as read, up to the first cell that raises: extraction of labels
    and pixels, normalisation, encoding of the labels, reshape. *)
Definition prepare_data (train_df valid_df : dataframe) : result prepared :=
  let y := {| y_train := Series (label train_df);
              y_valid := Series (label valid_df) |} in
  let x_train := values train_df in
  let x_valid := values valid_df in
  let x_train := normalize x_train in
  let x_valid := normalize x_valid in
  match categorize y with
  | (Raise e, _) => Raise e
  | (Ok _, y) =>
      x_train ← reshape_images x_train;
      x_valid ← reshape x_valid [-1; 28; 28; 1];
      Ok {| images := x_train; targets := y_train y;
            valid_images := x_valid; valid_targets := y_valid y |}
  end.

(** One axis of the figure of the cell "Visualizing the Data". *)
Record subplot := {
  title : Z;
  image : ndarray Z
}.

(** What the cell can raise: an exception of numpy, or the [KeyError] of
    pandas for a label that is not in the index of a Series. *)
Inductive error :=
  | Builtin (e : exn)
  | KeyError.

Definition num_images : nat := 20.

(** The body of the loop of the cell "Visualizing the Data":
<<
      row = x_train[i]
      label = y_train[i]
      image = row.reshape(28,28)
      plt.subplot(1, num_images, i+1)
      plt.title(label, fontdict={'fontsize': 30})
      plt.axis('off')
      plt.imshow(image, cmap='gray')
>>
    [y_train] is the Series taken from the table, indexed [0 .. n-1]. *)
Definition visualize_step (x_train : ndarray Z) (y_train : list Z) (i : nat)
  : error + subplot :=
  match getitem x_train i with
  | Raise e => inl (Builtin e)
  | Ok row =>
      match y_train !! i with
      | None => inl KeyError
      | Some label =>
          match reshape row [28; 28] with
          | Raise e => inl (Builtin e)
          | Ok image => inr {| title := label; image := image |}
          end
      end
  end.

(** [for i in range(num_images)]: the axes drawn so far stay on the figure
    when a turn raises. *)
Fixpoint visualize_loop (x_train : ndarray Z) (y_train : list Z)
  (range : list nat) (figure : list subplot)
  : list subplot * option error :=
  match range with
  | [] => (figure, None)
  | i :: range' =>
      match visualize_step x_train y_train i with
      | inl e => (figure, Some e)
      | inr p => visualize_loop x_train y_train range' (figure ++ [p])
      end
  end.

Definition visualize (x_train : ndarray Z) (y_train : list Z)
  : list subplot * option error :=
  visualize_loop x_train y_train (seq 0 num_images) [].

Module Labels.

(** The tables and the label variables of the kernel; a variable that was
    never assigned is [None]. *)
Record kernel := {
  train_df : frame;
  valid_df : frame;
  y_train : option (list Z);
  y_valid : option (list Z)
}.

(** The cell "Extracting the Labels", one statement after the other up to
    the first that raises:
<<
      y_train = train_df['label']
      y_valid = valid_df['label']
      del train_df['label']
      del valid_df['label']
>>  *)
Definition extract_labels (s : kernel) : option error * kernel :=
  match column (train_df s) "label" with
  | None => (Some KeyError, s)
  | Some y =>
      let s := {| train_df := train_df s; valid_df := valid_df s;
                  y_train := Some y; y_valid := y_valid s |} in
      match column (valid_df s) "label" with
      | None => (Some KeyError, s)
      | Some y =>
          let s := {| train_df := train_df s; valid_df := valid_df s;
                      y_train := y_train s; y_valid := Some y |} in
          match del_column (train_df s) "label" with
          | None => (Some KeyError, s)
          | Some df =>
              let s := {| train_df := df; valid_df := valid_df s;
                          y_train := y_train s; y_valid := y_valid s |} in
              match del_column (valid_df s) "label" with
              | None => (Some KeyError, s)
              | Some df =>
                  (None, {| train_df := train_df s; valid_df := df;
                            y_train := y_train s; y_valid := y_valid s |})
              end
          end
      end
  end.

End Labels.

End PartA.

(** ** Part B: data augmentation and training
       ([Asl_b_c_augment_pred.ipynb]) *)

Module PartB.
Import Numpy Keras Data.

Definition num_classes : nat := 24.

(** The variables the cell "Preparing the Data" leaves. *)
Record prepared := {
  x_train : ndarray spec_float;
  y_train : ndarray spec_float;
  x_valid : ndarray spec_float;
  y_valid : ndarray spec_float
}.

(** The cell "Preparing the Data": it reads the tables again, so every run
    starts from the integer labels.
<<
      y_train = train_df['label'];  y_valid = valid_df['label']
      x_train = train_df.values;    x_valid = valid_df.values
      y_train = keras.utils.to_categorical(y_train, num_classes)
      y_valid = keras.utils.to_categorical(y_valid, num_classes)
      x_train = x_train / 255;      x_valid = x_valid / 255
      x_train = x_train.reshape(-1,28,28,1)
      x_valid = x_valid.reshape(-1,28,28,1)
>>  *)
Definition prepare_data (train_df valid_df : dataframe) : result prepared :=
  let y_train := Series (label train_df) in
  let y_valid := Series (label valid_df) in
  let x_train := values train_df in
  let x_valid := values valid_df in
  y_train ← to_categorical y_train num_classes;
  y_valid ← to_categorical y_valid num_classes;
  let x_train := true_divide_int x_train 255 in
  let x_valid := true_divide_int x_valid 255 in
  x_train ← reshape x_train [-1; 28; 28; 1];
  x_valid ← reshape x_valid [-1; 28; 28; 1];
  Ok {| x_train := x_train; y_train := y_train;
        x_valid := x_valid; y_valid := y_valid |}.

(** The cell "Model Creation". *)
Definition model : list layer :=
  let model := Sequential in
  let model := add model (Conv2D 75 (3, 3)%nat 1 Same Relu (Some [28; 28; 1]%nat)) in
  let model := add model BatchNormalization in
  let model := add model (MaxPool2D (2, 2)%nat 2 Same) in
  let model := add model (Conv2D 50 (3, 3)%nat 1 Same Relu None) in
  let model := add model (Dropout 0.2) in
  let model := add model BatchNormalization in
  let model := add model (MaxPool2D (2, 2)%nat 2 Same) in
  let model := add model (Conv2D 25 (3, 3)%nat 1 Same Relu None) in
  let model := add model BatchNormalization in
  let model := add model (MaxPool2D (2, 2)%nat 2 Same) in
  let model := add model Flatten in
  let model := add model (Dense 512 Relu) in
  let model := add model (Dropout 0.3) in
  let model := add model (Dense num_classes Softmax) in
  model.

(** The cell "Data Augmentation". *)
Definition datagen : ImageDataGenerator :=
  {| rotation_range := 10;
     zoom_range := 0.1;
     width_shift_range := 0.1;
     height_shift_range := 0.1;
     horizontal_flip := true;
     vertical_flip := false |}.

Definition batch_size : nat := 32.

(** The number of epochs passed to [model.fit]. *)
Definition epochs : nat := 20.

(** [steps_per_epoch=len(x_train)/batch_size]: Python's true division.  The
    quotient of a length by 32 is exact in float64, so it is kept as the
    rational it denotes. *)
Definition steps_per_epoch (x_train : ndarray spec_float) : Q :=
  Qmake (Z.of_nat (len x_train)) (Pos.of_nat batch_size).

Section Training.
Context `{Framework}.

(** The cell "Batch Size": the iterator, and the one batch drawn from it
    for the plot. *)
Definition img_iter (d : prepared) (g : rng)
  : NumpyArrayIterator :=
  let img_iter := flow datagen (x_train d) (y_train d) batch_size g in
  let '(_, img_iter) := next img_iter in
  img_iter.

(** The cell "Training with Augmentation":
<<
      history = model.fit(img_iter, epochs=20,
                          steps_per_epoch=len(x_train)/batch_size,
                          validation_data=(x_valid, y_valid))
>>  *)
Definition train (w : weights) (d : prepared) (g : rng)
  : result unit * training :=
  fit epochs (steps_per_epoch (x_train d))
      {| params := w; iterator := img_iter d g; history := [];
         insufficient_data := false |}.

(** The plot of the cell "Batch Size": one batch is drawn, and each of the
    [batch_size] axes of the figure shows one image of it.
<<
      x, y = img_iter.next()
      fig, ax = plt.subplots(nrows=4, ncols=8)
      for i in range(batch_size):
          image = x[i]
          ax.flatten()[i].imshow(np.squeeze(image))
      plt.show()
>>
    The result is the list of the images shown, or the exception that ends
    the loop. *)
Definition preview (d : prepared) (g : rng)
  : result (list (ndarray spec_float)) :=
  let img_iter := flow datagen (x_train d) (y_train d) batch_size g in
  let '((x, y), img_iter) := next img_iter in
  traverse (λ i, image ← getitem x i; Ok (squeeze image))
           (seq 0 batch_size).

End Training.

(** A framework to run the training in: the permutation is the identity,
    an epoch reads the batches from the last to the first, the transform
    leaves an image as it is, nothing is read ahead, the parameters count
    the optimizer steps taken, and the metric logged at the end of an
    epoch is that count. *)
Definition counting_framework : Framework :=
  {| rng := unit;
     permutation := λ g n, (seq 0 n, g);
     shuffle := λ g order, (reverse order, g);
     random_transform := λ datagen image g, (image, g);
     read_ahead := λ _, 0%nat;
     weights := nat;
     metrics := nat;
     train_step := λ w _, S w;
     evaluate := λ w, w |}.

(** A prepared dataset of [n] all-black images of class 0. *)
Definition black_dataset (n : nat) : prepared :=
  {| x_train := mk_ndarray [n; 28; 28; 1]%nat
                  (replicate (n * 784) Float.zero);
     y_train := mk_ndarray [n; 24]%nat (concat (replicate n (one_hot 24 0)));
     x_valid := mk_ndarray [0; 28; 28; 1]%nat [];
     y_valid := mk_ndarray [0; 24]%nat [] |}.

End PartB.

(** ** Part C: inference ([Asl_b_c_augment_pred.ipynb]) *)

Module PartC.
Import Numpy Keras.

(** The files and the loaded model the cells of Part C work against. *)
Class Session := {
  (** what [mpimg.imread] returns *)
  picture : Type;
  imread : string → result picture;
  (** [image_utils.load_img(path, color_mode, target_size)] *)
  load_img : string → color_mode → nat * nat → result pil_image;
  (** [model.predict] of the model [load_model('asl_model')] returned *)
  predict : ndarray spec_float → result (ndarray spec_float)
}.

(** Alphabet does not contain j or z because they require movement. *)
Definition alphabet : string := "abcdefghiklmnopqrstuvwxy".

(** [s[i]] for an index [np.argmax] returned. *)
Definition str_index (s : string) (i : nat) : result ascii :=
  match String.get i s with
  | Some c => Ok c
  | None => Raise IndexError
  end.

Section Inference.
Context `{Session}.

(** The output area of the notebook: the pictures [plt.imshow] drew. *)
Definition notebook : Type := list picture.

Definition show_image (image_path : string) : cell notebook unit :=
  image ← call (imread image_path);
  assign (λ out, out ++ [image]).

Definition load_and_scale_image (image_path : string) : result pil_image :=
  load_img image_path Grayscale (28, 28)%nat.

(** What the framework promises of [load_img]: the image it returns has
    one of the modes [load_img] leaves or converts to for the colour mode
    asked, and the size asked. *)
Definition load_img_contract : Prop :=
  ∀ path cm h w im,
    load_img path cm (h, w) = Ok im →
    returned_mode cm (mode im) = true ∧
    height im = h ∧ width im = w ∧ pil_wf im.

(** The loaded model is a model of the architecture [arch]: on one input
    of shape [input] its forward pass returns one output of the shape the
    architecture computes. *)
Definition model_of (arch : list layer) (input : list nat) : Prop :=
  ∀ x,
    shape x = 1%nat :: input → wf x →
    ∃ p, predict x = Ok p ∧ wf p ∧
         option_map (cons 1%nat) (model_output_shape arch input)
         = Some (shape p).

Definition predict_letter (file_path : string) : cell notebook ascii :=
  show_image file_path;;
  image ← call (load_and_scale_image file_path);
  let image := img_to_array image in
  image ← call (reshape image [1; 28; 28; 1]);
  let image := true_divide_f32 image 255 in
  prediction ← call (predict image);
  i ← call (argmax prediction);
  predicted_letter ← call (str_index alphabet i);
  mret predicted_letter.

End Inference.

(** A session to run the pipeline in: every path holds an all-black image,
    which [load_img] delivers in the mode it converts to and the size
    asked for, and the model is degenerate, giving the same score to each
    of the 24 classes. *)
Definition black_image (cm : color_mode) (h w : nat) : pil_image :=
  {| mode := converted_mode cm; width := w; height := h;
     pixels := replicate (h * w * channels (converted_mode cm)) 0 |}.

Definition degenerate_model (x : ndarray spec_float)
  : result (ndarray spec_float) :=
  Ok (mk_ndarray [len x; 24%nat]
        (replicate (len x * 24)
           (Float.div floatx (Float.one floatx) (Float.of_Z floatx 24)))).

Definition black_session : Session :=
  {| picture := pil_image;
     imread := λ _, Ok (black_image Rgb 32 32);
     load_img := λ _ cm hw, Ok (black_image cm hw.1 hw.2);
     predict := degenerate_model |}.

(** A session without files: both readers raise [FileNotFoundError]. *)
Definition empty_session : Session :=
  {| picture := pil_image;
     imread := λ _, Raise FileNotFoundError;
     load_img := λ _ _ _, Raise FileNotFoundError;
     predict := degenerate_model |}.

(** An image of mode [m] whose samples run through the range of the mode:
    sample [k] is the least sample plus [9973 k], reduced to the range. *)
Definition ramp_image (m : image_mode) (h w : nat) : pil_image :=
  let '(lo, hi) := sample_range m in
  {| mode := m; width := w; height := h;
     pixels := map (λ k, lo + (9973 * Z.of_nat k) mod (hi - lo + 1))
                   (seq 0 (h * w * channels m)) |}.

(** A model whose 24 scores are the first 24 values of its input. *)
Definition projection_model (x : ndarray spec_float)
  : result (ndarray spec_float) :=
  Ok (mk_ndarray [len x; 24%nat] (take (len x * 24) (data x))).

(** A session whose greyscale files have the mode [m] (8, 16 or 32 bits):
    every path holds a ramp image. *)
Definition ramp_session (m : image_mode) : Session :=
  {| picture := pil_image;
     imread := λ _, Ok (ramp_image ModeRGB 32 32);
     load_img := λ _ cm hw,
       Ok (ramp_image (if returned_mode cm m then m else converted_mode cm)
                      hw.1 hw.2);
     predict := projection_model |}.

(** A session whose files [load_img] reads and [imread] rejects. *)
Definition unshowable_session : Session :=
  {| picture := pil_image;
     imread := λ _, Raise UnidentifiedImageError;
     load_img := λ _ cm hw, Ok (ramp_image (converted_mode cm) hw.1 hw.2);
     predict := projection_model |}.

End PartC.

(** *** A rank for the order on floats *)

Module FloatKey.

(** A rank that [SFcompare] respects: sign class first, then exponent and
    mantissa, reversed for negative numbers. *)
Definition key (x : spec_float) : Z * (Z * Z) :=
  match x with
  | S754_nan => (0, (0, 0))
  | S754_infinity true => (-2, (0, 0))
  | S754_finite true m e => (-1, (- e, - Zpos m))
  | S754_zero _ => (0, (0, 0))
  | S754_finite false m e => (1, (e, Zpos m))
  | S754_infinity false => (2, (0, 0))
  end.

Definition lex3 (a b : Z * (Z * Z)) : comparison :=
  match a.1 ?= b.1 with
  | Eq => match a.2.1 ?= b.2.1 with
          | Eq => a.2.2 ?= b.2.2
          | c => c
          end
  | c => c
  end.

End FloatKey.

(** ** Predicates used to state the properties *)

(** [r] is the first index at which [v] takes its maximum: no component
    exceeds [v[r]], and every component before [r] is strictly smaller. *)
Definition first_max (v : list spec_float) (r : nat) : Prop :=
  ∃ m, v !! r = Some m ∧
       (∀ j x, v !! j = Some x → Float.leb x m = true) ∧
       (∀ j x, (j < r)%nat → v !! j = Some x → Float.ltb x m = true).

(** The states the cell [categorize] of Part A can reach from the integer
    labels [train] and [valid]: each variable holds the labels as read, or
    their encoding. *)
Definition encoded_at_most_once (train valid : list Z)
  (s : PartA.label_vars) : Prop :=
  (PartA.y_train s = Keras.Series train ∧
   PartA.y_valid s = Keras.Series valid) ∨
  (∃ a, Keras.to_categorical (Keras.Series train) 24 = Ok a ∧
        PartA.y_train s = Keras.Categorical a ∧
        (PartA.y_valid s = Keras.Series valid ∨
         ∃ b, Keras.to_categorical (Keras.Series valid) 24 = Ok b ∧
              PartA.y_valid s = Keras.Categorical b)).

(** A label numpy's indexing accepts as a column of a 24-wide row. *)
Definition accepted (L : Z) : bool := (-24 <=? L) && (L <? 24).

(** The int64 labels [to_categorical] works on, for a column that [pandas]
    read as int64 or uint64. *)
Definition int64_labels (y : list Z) : list Z :=
  match Keras.column_dtype y with
  | Keras.UInt64 => map Keras.wrap_int64 y
  | _ => y
  end.

(** The number of components of [v] equal to [x]. *)
Definition count_eq (x : spec_float) (v : list spec_float) : nat :=
  length (List.filter (Float.eqb x) v).

(** A lowercase letter of the Latin alphabet. *)
Definition is_lower (c : ascii) : bool :=
  (97 <=? nat_of_ascii c)%nat && (nat_of_ascii c <=? 122)%nat.

(** [c in s] *)
Definition occurs (c : ascii) (s : string) : bool :=
  existsb (Ascii.eqb c) (list_ascii_of_string s).

(** The axis the visualisation draws for a row [r] with label [L]. *)
Definition plot (L : Z) (r : list Z) : PartA.subplot :=
  {| PartA.title := L; PartA.image := Numpy.mk_ndarray [28; 28]%nat r |}.

(** A table without the column [name]. *)
Definition without (name : string) (df : list (string * list Z))
  : list (string * list Z) :=
  filter (λ c, c.1 ≠ name) df.
(** *** The order on floats

    [SFcompare] orders the non-NaN floats by sign, then exponent, then
    mantissa.  On them [leb] is a total preorder; the lemmas below are what
    the reasoning about [np.argmax] needs. *)

(** Case analysis on every comparison in a goal about [lex3]. *)
Ltac lex3_cases :=
  unfold FloatKey.lex3; cbn [fst snd];
  repeat match goal with
         | |- context [?u ?= ?v] => destruct (Z.compare_spec u v)
         end;
  intros; try congruence; try lia.

(** Unfolds the binds of a cell down to its next call. *)
Ltac cell_steps :=
  cbv beta iota delta [mbind cell_mbind cell_bind call assign eval mret
                       cell_mret cell_ret].

Module FloatOrder.
Import Float FloatKey.

Lemma leb_compare x y :
  leb x y = match SFcompare x y with
            | Some Lt | Some Eq => true
            | _ => false
            end.
Proof. unfold leb, SFleb. by destruct (SFcompare x y) as [[]|]. Qed.

Lemma ltb_compare x y :
  ltb x y = match SFcompare x y with
            | Some Lt => true
            | _ => false
            end.
Proof. unfold ltb, SFltb. by destruct (SFcompare x y) as [[]|]. Qed.

Lemma compare_key x y :
  is_nan x = false → is_nan y = false →
  SFcompare x y = Some (lex3 (key x) (key y)).
Proof.
  intros Hx Hy.
  destruct x as [[]| []| |[] mx ex], y as [[]| []| |[] my ey];
    try discriminate; try reflexivity; unfold SFcompare, key, lex3;
    cbn [fst snd]; f_equal.
  change (-1 ?= -1) with Eq. cbv iota.
  change (IntDef.Z.compare ex ey) with (ex ?= ey).
  change (PosDef.Pos.compare_cont Eq mx my) with (Zpos mx ?= Zpos my).
  rewrite (Z.compare_opp ex ey), (Z.compare_antisym ex ey).
  destruct (ex ?= ey); reflexivity.
Qed.

Lemma lex3_le_trans a b c :
  lex3 a b ≠ Gt → lex3 b c ≠ Gt → lex3 a c ≠ Gt.
Proof.
  destruct a as [a1 [a2 a3]], b as [b1 [b2 b3]], c as [c1 [c2 c3]].
  lex3_cases.
Qed.

Lemma lex3_le_lt_trans a b c :
  lex3 a b ≠ Gt → lex3 b c = Lt → lex3 a c = Lt.
Proof.
  destruct a as [a1 [a2 a3]], b as [b1 [b2 b3]], c as [c1 [c2 c3]].
  lex3_cases.
Qed.

Lemma lex3_antisym a b : lex3 b a = CompOpp (lex3 a b).
Proof.
  destruct a as [a1 [a2 a3]], b as [b1 [b2 b3]].
  unfold lex3; cbn [fst snd].
  rewrite (Z.compare_antisym a1 b1), (Z.compare_antisym a2 b2),
    (Z.compare_antisym a3 b3).
  by destruct (a1 ?= b1), (a2 ?= b2), (a3 ?= b3).
Qed.

Lemma lex3_refl a : lex3 a a = Eq.
Proof.
  destruct a as [a1 [a2 a3]]. unfold lex3; cbn [fst snd].
  by rewrite !Z.compare_refl.
Qed.

Section Order.
Variables x y : spec_float.
Hypothesis Hx : is_nan x = false.
Hypothesis Hy : is_nan y = false.

Lemma leb_key : leb x y = true ↔ lex3 (key x) (key y) ≠ Gt.
Proof.
  rewrite leb_compare, compare_key by done.
  destruct (lex3 (key x) (key y)); split; congruence.
Qed.

Lemma ltb_key : ltb x y = true ↔ lex3 (key x) (key y) = Lt.
Proof.
  rewrite ltb_compare, compare_key by done.
  destruct (lex3 (key x) (key y)); split; congruence.
Qed.

Lemma leb_refl : leb x x = true.
Proof.
  rewrite leb_compare, compare_key, lex3_refl by done. reflexivity.
Qed.

(** [not (x <= y)], the test of numpy's loop, is [y < x] away from NaN. *)
Lemma not_leb_ltb : negb (leb x y) = ltb y x.
Proof.
  rewrite leb_compare, ltb_compare, !compare_key by done.
  rewrite (lex3_antisym (key x) (key y)).
  by destruct (lex3 (key x) (key y)).
Qed.

Lemma ltb_leb : ltb x y = true → leb x y = true.
Proof.
  rewrite leb_compare, ltb_compare.
  by destruct (SFcompare x y) as [[]|].
Qed.
End Order.

Lemma leb_ltb_trans x y z :
  is_nan x = false → is_nan y = false → is_nan z = false →
  leb x y = true → ltb y z = true → ltb x z = true.
Proof.
  intros Hx Hy Hz. rewrite !ltb_key, leb_key by done.
  apply lex3_le_lt_trans.
Qed.

End FloatOrder.


(** ** Facts about arrays *)

Module NumpyFacts.
Import Numpy.

Lemma length_concat_uniform {A} (n : nat) (rows : list (list A)) :
  Forall (λ r, length r = n) rows →
  length (concat rows) = (length rows * n)%nat.
Proof.
  induction 1 as [|r rows Hr _ IH]; [done|].
  cbn. rewrite length_app, IH, Hr. lia.
Qed.

Lemma matrix_wf {A} (n : nat) (rows : list (list A)) :
  Forall (λ r, length r = n) rows → wf (matrix n rows).
Proof.
  intros Hrows. unfold wf, matrix, size_of. cbn.
  rewrite (length_concat_uniform n) by done. lia.
Qed.

(** Element [j] of row [i] of a matrix. *)
Lemma lookup_concat_uniform {A} (n : nat) (rows : list (list A)) i j row :
  Forall (λ r, length r = n) rows →
  rows !! i = Some row → (j < n)%nat →
  concat rows !! (i * n + j)%nat = row !! j.
Proof.
  intros Hrows. revert i.
  induction Hrows as [|r rows Hr _ IH]; intros i Hi Hj; [done|].
  destruct i as [|i]; cbn in *.
  - injection Hi as ->. rewrite lookup_app_l by lia. done.
  - rewrite lookup_app_r by lia.
    replace (n + i * n + j - length r)%nat with (i * n + j)%nat by lia.
    by apply IH.
Qed.

Lemma n_unknown_of_nat (sh : list nat) : n_unknown (map Z.of_nat sh) = 0%nat.
Proof.
  unfold n_unknown. induction sh as [|d sh IH]; [done|].
  cbn [map]. rewrite filter_cons_False by lia. exact IH.
Qed.

Lemma s_known_of_nat (sh : list nat) :
  s_known (map Z.of_nat sh) = Z.of_nat (size_of sh).
Proof.
  unfold s_known, size_of. induction sh as [|d sh IH]; [done|].
  cbn [map]. rewrite filter_cons_True by lia. cbn [foldr].
  rewrite IH. lia.
Qed.

(** A reshape to a shape without unknown dimension succeeds exactly when
    the sizes agree. *)
Lemma reshape_of_nat {A} (a : ndarray A) (sh : list nat) :
  reshape a (map Z.of_nat sh) =
  if (size a =? size_of sh)%nat then Ok (mk_ndarray sh (data a))
  else Raise ValueError.
Proof.
  unfold reshape, fix_unknown_dimension.
  rewrite n_unknown_of_nat, s_known_of_nat.
  assert (map Z.to_nat (map Z.of_nat sh) = sh) as Hsh.
  { rewrite <- list_fmap_compose. rewrite <- (list_fmap_id sh) at 2.
    apply list_fmap_ext. intros i d _. cbn. apply Nat2Z.id. }
  destruct (Nat.eqb_spec (size a) (size_of sh)) as [Heq|Hne].
  - rewrite Heq, Z.eqb_refl. cbn. by rewrite Hsh.
  - destruct (Z.eqb_spec (Z.of_nat (size a)) (Z.of_nat (size_of sh)));
      [lia|done].
Qed.

(** The reshape of the inference pipeline: a fully specified shape of 784
    elements. *)
Lemma reshape_1_28_28_1 {A} (a : ndarray A) :
  reshape a [1; 28; 28; 1] =
  if (size a =? 784)%nat then Ok (mk_ndarray [1; 28; 28; 1]%nat (data a))
  else Raise ValueError.
Proof. apply (reshape_of_nat a [1; 28; 28; 1]%nat). Qed.

(** The reshape of the training notebooks: the first dimension is inferred
    from the size. *)
Lemma reshape_any_28_28_1 {A} (a : ndarray A) :
  reshape a [-1; 28; 28; 1] =
  if (size a mod 784 =? 0)%nat
  then Ok (mk_ndarray [(size a / 784)%nat; 28; 28; 1]%nat (data a))
  else Raise ValueError.
Proof.
  unfold reshape, fix_unknown_dimension.
  change (n_unknown [-1; 28; 28; 1]) with 1%nat.
  change (s_known [-1; 28; 28; 1]) with 784. cbv iota.
  change (784 =? 0) with false. rewrite orb_false_l.
  assert (Z.of_nat (size a) mod 784 = Z.of_nat (size a mod 784)) as ->.
  { by rewrite Nat2Z.inj_mod. }
  destruct (Nat.eqb_spec (size a mod 784) 0) as [->|Hne]; cbn [negb].
  - assert (Z.to_nat (Z.of_nat (size a) / 784) = (size a / 784)%nat) as Hq.
    { change 784 with (Z.of_nat 784).
      by rewrite <- Nat2Z.inj_div, Nat2Z.id. }
    change (Z.of_nat 0 =? 0) with true. cbv iota.
    unfold rmap, rbind. cbn [map]. change (-1 <? 0) with true.
    cbv iota. rewrite Hq. reflexivity.
  - destruct (Z.eqb_spec (Z.of_nat (size a mod 784)) 0); [lia|done].
Qed.

End NumpyFacts.

(** ** The properties of the specification *)

Import Numpy Keras Data.

(** *** C7: reshape and sizes that are not 784 *)

(** C7, as stated, fails on the training reshape.  [reshape(-1,28,28,1)]
    infers its first dimension: a flat vector of 1568 values is accepted and
    viewed as two grids, and a table of two rows of 392 pixels is accepted
    and viewed as one grid; neither raises. *)
Lemma C7_training_reshape_accepts_other_lengths :
  length (replicate 1568 Float.zero) ≠ 784%nat ∧
  PartA.reshape_images (vector (replicate 1568 Float.zero)) =
    Ok (mk_ndarray [2; 28; 28; 1]%nat (replicate 1568 Float.zero)) ∧
  length (replicate 392 0) ≠ 784%nat ∧
  rmap shape
    (PartA.reshape_images
       (PartA.normalize (matrix 392 [replicate 392 0; replicate 392 0]))) =
    Ok [1; 28; 28; 1]%nat.
Proof.
  split; [by vm_compute|]. split; [by vm_compute|].
  split; [by vm_compute|]. by vm_compute.
Qed.

(** C7, amended.  The reshape of the inference pipeline,
    [reshape(1,28,28,1)], raises [ShapeMismatch] (numpy's [ValueError]) for
    every input whose size is not exactly 784 and succeeds for every input
    of size 784.  The reshape of the training notebooks,
    [reshape(-1,28,28,1)], succeeds exactly for the inputs whose size is a
    multiple of 784, which it views as [size / 784] grids, and raises
    [ShapeMismatch] for every other size. *)
Theorem C7_reshape_shape_mismatch :
  (∀ (a : ndarray spec_float),
     reshape a [1; 28; 28; 1] =
     if (size a =? 784)%nat
     then Ok (mk_ndarray [1; 28; 28; 1]%nat (data a))
     else Raise ShapeMismatch) ∧
  (∀ (x_train : ndarray spec_float),
     PartA.reshape_images x_train =
     if (size x_train mod 784 =? 0)%nat
     then Ok (mk_ndarray [(size x_train / 784)%nat; 28; 28; 1]%nat
                         (data x_train))
     else Raise ShapeMismatch) ∧
  (∀ (pixels : list spec_float),
     is_ok (reshape (vector pixels) [1; 28; 28; 1])
     = (length pixels =? 784)%nat ∧
     is_ok (PartA.reshape_images (vector pixels))
     = (length pixels mod 784 =? 0)%nat).
Proof.
  split; [|split].
  - intros a. apply NumpyFacts.reshape_1_28_28_1.
  - intros a. apply NumpyFacts.reshape_any_28_28_1.
  - intros pixels. unfold PartA.reshape_images.
    rewrite NumpyFacts.reshape_1_28_28_1, NumpyFacts.reshape_any_28_28_1.
    assert (size (vector pixels) = length pixels) as ->.
    { unfold size, size_of. cbn. lia. }
    by destruct (_ =? 784)%nat, (_ mod 784 =? 0)%nat.
Qed.

(** *** C2: the alphabet *)

(** C2.  The alphabet string has exactly 24 characters, all distinct; a
    character occurs in it exactly when it is a lowercase letter other than
    'j' and 'z'; index 0 is 'a', index 8 is 'i', index 9 is 'k' and the last
    index, 23, is 'y'. *)
Theorem C2_alphabet_mapping :
  String.length PartC.alphabet = 24%nat ∧
  NoDup (list_ascii_of_string PartC.alphabet) ∧
  (∀ c : ascii,
     occurs c PartC.alphabet =
     is_lower c && negb (Ascii.eqb c "j") && negb (Ascii.eqb c "z")) ∧
  PartC.str_index PartC.alphabet 0 = Ok "a"%char ∧
  PartC.str_index PartC.alphabet 8 = Ok "i"%char ∧
  PartC.str_index PartC.alphabet 9 = Ok "k"%char ∧
  PartC.str_index PartC.alphabet 23 = Ok "y"%char ∧
  PartC.str_index PartC.alphabet 24 = Raise IndexError.
Proof.
  split; [reflexivity|]. split.
  { refine (bool_decide_unpack _ _). by vm_compute. }
  split.
  { intros [[] [] [] [] [] [] [] []]; reflexivity. }
  repeat split; reflexivity.
Qed.

(** *** C10: the two declarations of the model *)

(** C10.  The model declared in Part B is, layer for layer, the model
    declared in Part A: three blocks of a 3x3, stride 1, same-padded
    convolution (75, 50 and 25 filters), batch normalisation and 2x2,
    stride 2 max pooling, with dropout 0.2 after the second convolution;
    then flatten, a dense layer of 512 units, dropout 0.3 and the final
    dense layer of 24 units with softmax.  Both map a 28x28x1 input to 24
    outputs. *)
Theorem C10_same_architecture :
  PartB.model = PartA.model ∧
  PartA.model =
    [ Conv2D 75 (3, 3)%nat 1 Same Relu (Some [28; 28; 1]%nat);
      BatchNormalization;
      MaxPool2D (2, 2)%nat 2 Same;
      Conv2D 50 (3, 3)%nat 1 Same Relu None;
      Dropout 0.2;
      BatchNormalization;
      MaxPool2D (2, 2)%nat 2 Same;
      Conv2D 25 (3, 3)%nat 1 Same Relu None;
      BatchNormalization;
      MaxPool2D (2, 2)%nat 2 Same;
      Flatten;
      Dense 512 Relu;
      Dropout 0.3;
      Dense 24 Softmax ] ∧
  map type_of PartB.model = map type_of PartA.model ∧
  model_output_shape PartA.model [28; 28; 1]%nat = Some [24%nat] ∧
  model_output_shape PartB.model [28; 28; 1]%nat = Some [24%nat].
Proof. repeat split; reflexivity. Qed.

(** *** C4: normalised, reshaped pixels *)

(** Division by 255 of each of the 256 intensities, in float64, lands in
    [[0,1]]. *)
Lemma normalize_pixel_unit (p : Z) :
  0 ≤ p ≤ 255 →
  Float.in_unit Float.binary64
    (Float.div Float.binary64 (Float.of_Z Float.binary64 p)
                              (Float.of_Z Float.binary64 255)) = true.
Proof.
  intros Hp.
  assert (List.forallb
            (λ n, Float.in_unit Float.binary64
                    (Float.div Float.binary64
                       (Float.of_Z Float.binary64 (Z.of_nat n))
                       (Float.of_Z Float.binary64 255)))
            (List.seq 0 256) = true) as Hall by (vm_compute; reflexivity).
  rewrite List.forallb_forall in Hall.
  specialize (Hall (Z.to_nat p)). rewrite Z2Nat.id in Hall by lia.
  apply Hall, List.in_seq. lia.
Qed.

Lemma offset_grid (n i r c : nat) :
  (i < n)%nat → (r < 28)%nat → (c < 28)%nat →
  offset [n; 28; 28; 1]%nat [i; r; c; 0]%nat
  = Some (i * 784 + (28 * r + c))%nat.
Proof.
  intros Hi Hr Hc. cbn [offset].
  destruct (Nat.ltb_spec i n); [|lia].
  destruct (Nat.ltb_spec r 28); [|lia].
  destruct (Nat.ltb_spec c 28); [|lia].
  change (0 <? 1)%nat with true. cbv iota. cbn [option_map].
  change (size_of [28; 28; 1]%nat) with 784%nat.
  change (size_of [28; 1]%nat) with 28%nat.
  change (size_of [1]%nat) with 1%nat.
  change (size_of []) with 1%nat.
  f_equal. lia.
Qed.

(** C4.  For every table of samples whose pixel vectors hold 784
    intensities in [[0,255]], normalising (dividing every intensity by 255)
    and then reshaping succeeds and yields one 28x28x1 grid per sample:
    entry (r, c) of grid i is pixel [28 r + c] of sample i divided by 255,
    and every value of the result lies in [[0,1]]. *)
Theorem C4_normalize_reshape_unit_grid (rows : list (list Z)) :
  Forall (λ pixels, length pixels = 784%nat ∧
                    Forall (λ p, 0 ≤ p ≤ 255) pixels) rows →
  ∃ x_train,
    PartA.reshape_images (PartA.normalize (matrix 784 rows)) = Ok x_train ∧
    shape x_train = [length rows; 28; 28; 1]%nat ∧
    wf x_train ∧
    Forall (λ v, Float.in_unit Float.binary64 v = true) (data x_train) ∧
    ∀ i pixels r c p,
      rows !! i = Some pixels → (r < 28)%nat → (c < 28)%nat →
      pixels !! (28 * r + c)%nat = Some p →
      item x_train [i; r; c; 0]%nat =
      Some (Float.div Float.binary64 (Float.of_Z Float.binary64 p)
                                     (Float.of_Z Float.binary64 255)).
Proof.
  intros Hrows.
  assert (Forall (λ r, length r = 784%nat) rows) as Hlen.
  { eapply Forall_impl; [exact Hrows|]. by intros ? [? _]. }
  assert (size (PartA.normalize (matrix 784 rows)) = (length rows * 784)%nat)
    as Hsize.
  { unfold size, size_of. cbn. lia. }
  eexists. split.
  { unfold PartA.reshape_images.
    rewrite NumpyFacts.reshape_any_28_28_1, Hsize.
    rewrite Nat.Div0.mod_mul, Nat.div_mul by lia. reflexivity. }
  cbn [shape data]. split; [done|]. split.
  { pose proof (NumpyFacts.matrix_wf 784 rows Hlen) as Hwf.
    unfold wf in *. cbn [shape data PartA.normalize true_divide_int
                         map_array matrix] in *.
    rewrite length_map, Hwf. unfold size_of. cbn. lia. }
  split.
  { unfold PartA.normalize, true_divide_int, map_array, matrix. cbn [data].
    apply Forall_fmap, Forall_concat.
    eapply Forall_impl; [exact Hrows|].
    intros pixels [_ Hpx]. eapply Forall_impl; [exact Hpx|].
    intros p Hp. by apply normalize_pixel_unit. }
  intros i pixels r c p Hi Hr Hc Hp.
  unfold item. cbn [shape data].
  rewrite offset_grid; [|by eapply lookup_lt_Some|done|done].
  unfold PartA.normalize, true_divide_int, map_array, matrix. cbn [data].
  rewrite list_lookup_fmap.
  rewrite (NumpyFacts.lookup_concat_uniform 784 rows i _ pixels);
    [|done|done|lia].
  by rewrite Hp.
Qed.

(** C4 at a table of two samples, one all black and one all white. *)
Lemma C4_normalize_reshape_unit_grid_witness :
  ∃ x_train,
    PartA.reshape_images
      (PartA.normalize (matrix 784 [replicate 784 0; replicate 784 255]))
      = Ok x_train ∧
    shape x_train = [2; 28; 28; 1]%nat ∧
    wf x_train ∧
    Forall (λ v, Float.in_unit Float.binary64 v = true) (data x_train) ∧
    ∀ i pixels r c p,
      [replicate 784 0; replicate 784 255] !! i = Some pixels →
      (r < 28)%nat → (c < 28)%nat →
      pixels !! (28 * r + c)%nat = Some p →
      item x_train [i; r; c; 0]%nat =
      Some (Float.div Float.binary64 (Float.of_Z Float.binary64 p)
                                     (Float.of_Z Float.binary64 255)).
Proof.
  apply (C4_normalize_reshape_unit_grid
           [replicate 784 0; replicate 784 255]).
  apply Forall_cons_2.
  { split; [apply length_replicate | apply Forall_replicate; lia]. }
  apply Forall_cons_2; [|apply Forall_nil_2].
  split; [apply length_replicate | apply Forall_replicate; lia].
Defined.

(** *** C3: one-hot encoding of a label *)

Module EncodingShape.

Lemma input_shape_vector (n : nat) : input_shape [n] = [n].
Proof. unfold input_shape. cbn. by rewrite andb_false_r. Qed.

End EncodingShape.

Module CategoricalFacts.

Lemma check_index_nonneg (n : nat) (i : Z) :
  0 ≤ i < Z.of_nat n → check_index n i = Ok (Z.to_nat i).
Proof.
  intros Hi. unfold check_index.
  destruct (Z.leb_spec (- Z.of_nat n) i); [|lia].
  destruct (Z.ltb_spec i (Z.of_nat n)); [|lia].
  destruct (Z.ltb_spec i 0); [lia|]. reflexivity.
Qed.

Lemma check_index_negative (n : nat) (i : Z) :
  - Z.of_nat n ≤ i < 0 → check_index n i = check_index n (i + Z.of_nat n).
Proof.
  intros Hi. rewrite (check_index_nonneg n (i + Z.of_nat n)) by lia.
  unfold check_index.
  destruct (Z.leb_spec (- Z.of_nat n) i); [|lia].
  destruct (Z.ltb_spec i (Z.of_nat n)); [|lia].
  destruct (Z.ltb_spec i 0); [|lia]. reflexivity.
Qed.

Lemma check_index_outside (n : nat) (i : Z) :
  i < - Z.of_nat n ∨ Z.of_nat n ≤ i → check_index n i = Raise IndexError.
Proof.
  intros Hi. unfold check_index.
  destruct (Z.leb_spec (- Z.of_nat n) i), (Z.ltb_spec i (Z.of_nat n));
    try reflexivity; lia.
Qed.

Lemma one_hot_lookup (n k j : nat) :
  (k < n)%nat → (j < n)%nat →
  one_hot n k !! j =
  Some (if decide (j = k) then Float.one floatx else Float.zero).
Proof.
  intros Hk Hj. unfold one_hot.
  destruct (decide (j = k)) as [->|Hne].
  - by rewrite list_lookup_insert_eq by (by rewrite length_replicate).
  - rewrite list_lookup_insert_ne by done.
    by rewrite lookup_replicate_2.
Qed.

Lemma one_hot_counts (k : nat) :
  (k < 24)%nat →
  length (one_hot 24 k) = 24%nat ∧
  count_eq (Float.one floatx) (one_hot 24 k) = 1%nat ∧
  count_eq Float.zero (one_hot 24 k) = 23%nat ∧
  argmax (mk_ndarray [24%nat] (one_hot 24 k)) = Ok k.
Proof.
  intros Hk.
  do 24 (destruct k as [|k]; [by vm_compute|]). lia.
Qed.

(** Encoding a column of labels: one row per label. *)
Lemma traverse_categorical_row_ok (labels : list Z) :
  Forall (λ L, 0 ≤ L ≤ 23) labels →
  traverse (categorical_row 24) labels
  = Ok (map (λ L, one_hot 24 (Z.to_nat L)) labels).
Proof.
  induction 1 as [|L labels HL _ IH]; [done|].
  cbn [traverse map]. unfold categorical_row at 1.
  rewrite check_index_nonneg by (cbn; lia).
  cbn [fmap result_fmap rmap rbind]. by rewrite IH.
Qed.

Lemma traverse_categorical_row_raise (labels : list Z) :
  Exists (λ L, L < -24 ∨ 24 ≤ L) labels →
  traverse (categorical_row 24) labels = Raise IndexError.
Proof.
  induction labels as [|L labels IH]; intros Hex.
  { by apply Exists_nil in Hex. }
  cbn [traverse]. unfold categorical_row at 1.
  destruct (check_index 24 L) as [k|e] eqn:Hk.
  - cbn [fmap result_fmap rmap rbind]. rewrite IH; [done|].
    apply Exists_cons in Hex as [HL|Hex]; [|done].
    by rewrite check_index_outside in Hk by (cbn; lia).
  - unfold check_index in Hk. destruct (_ && _); [done|].
    by injection Hk as <-.
Qed.

(** The body of [to_categorical] on the integer array the cast
    delivered: one row per label. *)
Lemma to_categorical_rows (v : labels) (l : list Z)
  (rows : list (list spec_float)) :
  as_int_array v = Ok (vector l) →
  traverse (categorical_row 24) l = Ok rows →
  length rows = length l →
  to_categorical v 24 = Ok (matrix 24 rows).
Proof.
  intros Hv Hrows Hlen.
  unfold to_categorical. rewrite Hv.
  cbn [mbind result_bind rbind vector data shape resolve_num_classes].
  rewrite Hrows. unfold mbind, result_bind. cbn [rbind].
  rewrite EncodingShape.input_shape_vector, NumpyFacts.reshape_of_nat.
  unfold size, matrix. cbn [shape data app]. rewrite Hlen.
  by rewrite Nat.eqb_refl.
Qed.

Lemma to_categorical_raise (v : labels) (l : list Z) (e : exn) :
  as_int_array v = Ok (vector l) →
  traverse (categorical_row 24) l = Raise e →
  to_categorical v 24 = Raise e.
Proof.
  intros Hv Hrows. unfold to_categorical. rewrite Hv.
  cbn [mbind result_bind rbind vector data shape resolve_num_classes].
  by rewrite Hrows.
Qed.

End CategoricalFacts.

(** [to_categorical] on a column of labels, by the dtype of the column. *)

Ltac int64_bounds :=
  change (2 ^ 63) with 9223372036854775808 in *;
  change (2 ^ 64) with 18446744073709551616 in *.

(** Linear arithmetic with the bounds of the 64-bit integers. *)
Ltac blia := int64_bounds; lia.

Module ColumnFacts.

Lemma check_index_accepted (L : Z) :
  check_index 24 L =
  if accepted L then Ok (Z.to_nat (L mod 24)) else Raise IndexError.
Proof.
  unfold check_index, accepted. change (- Z.of_nat 24) with (-24).
  change (Z.of_nat 24) with 24.
  destruct (Z.leb_spec (-24) L), (Z.ltb_spec L 24); cbn [andb]; try done.
  do 2 f_equal. destruct (Z.ltb_spec L 0).
  - by rewrite <- (Z.mod_unique L 24 (-1) (L + 24)) by lia.
  - by rewrite Z.mod_small by lia.
Qed.

Lemma traverse_categorical_row (y : list Z) :
  traverse (categorical_row 24) y =
  if forallb accepted y
  then Ok (map (λ L, one_hot 24 (Z.to_nat (L mod 24))) y)
  else Raise IndexError.
Proof.
  induction y as [|L y IH]; [done|].
  cbn [traverse forallb map]. unfold categorical_row at 1.
  rewrite check_index_accepted.
  destruct (accepted L); cbn [andb fmap result_fmap rmap rbind]; [|done].
  rewrite IH. by destruct (forallb accepted y).
Qed.

Lemma length_one_hot (n k : nat) : length (one_hot n k) = n.
Proof. unfold one_hot. by rewrite length_insert, length_replicate. Qed.

(** Row [i] of a table of rows of equal length. *)
Lemma take_drop_concat_uniform {A} (n : nat) (rows : list (list A)) i row :
  Forall (λ r, length r = n) rows →
  rows !! i = Some row →
  take n (drop (i * n) (concat rows)) = row.
Proof.
  intros Hrows. revert i.
  induction Hrows as [|r rows Hr _ IH]; intros i Hi; [done|].
  destruct i as [|i]; cbn [lookup list_lookup] in Hi; cbn [concat].
  - injection Hi as ->. change (0 * n)%nat with 0%nat.
    rewrite drop_0. by rewrite take_app_length'.
  - rewrite drop_app_ge by lia. rewrite Hr.
    replace (S i * n - n)%nat with (i * n)%nat by lia.
    by apply IH.
Qed.

Lemma forallb_Forall {A} (f : A → bool) (l : list A) :
  forallb f l = true ↔ Forall (λ a, f a = true) l.
Proof.
  induction l as [|a l IH]; cbn [forallb].
  - split; [by constructor|done].
  - rewrite andb_true_iff, IH. split.
    + intros [Ha Hl]. by constructor.
    + intros Hal. by apply Forall_cons in Hal.
Qed.

Lemma forallb_Exists {A} (f : A → bool) (l : list A) :
  forallb f l = false ↔ Exists (λ a, f a = false) l.
Proof.
  induction l as [|a l IH]; cbn [forallb].
  - split; [done|]. intros Hex. by apply Exists_nil in Hex.
  - rewrite andb_false_iff, IH. split.
    + intros [Ha|Hl]; [by apply Exists_cons_hd|by apply Exists_cons_tl].
    + intros Hex. apply Exists_cons in Hex. tauto.
Qed.

(** The cast of 64-bit integers to int64. *)
Lemma wrap_int64_small (v : Z) :
  - 2 ^ 63 ≤ v < 2 ^ 63 → wrap_int64 v = v.
Proof.
  intros Hv. unfold wrap_int64. int64_bounds.
  rewrite Z.mod_small by lia. lia.
Qed.

Lemma wrap_int64_large (v : Z) :
  2 ^ 63 ≤ v < 2 ^ 64 → wrap_int64 v = v - 2 ^ 64.
Proof.
  intros Hv. unfold wrap_int64. int64_bounds.
  rewrite <- (Z.mod_unique (v + 9223372036854775808) 18446744073709551616
                           1 (v - 9223372036854775808)) by lia.
  lia.
Qed.

(** The dtype of a column, from the range of its labels. *)
Lemma column_dtype_int64 (y : list Z) :
  Forall (λ L, - 2 ^ 63 ≤ L < 2 ^ 63) y → column_dtype y = Int64.
Proof.
  intros Hy. unfold column_dtype.
  assert (forallb (λ v, (- 2 ^ 63 <=? v) && (v <? 2 ^ 63)) y = true) as ->;
    [|done].
  apply forallb_Forall. eapply Forall_impl; [exact Hy|].
  intros L HL. cbn beta in *. apply andb_true_iff. split.
  - apply Z.leb_le. blia.
  - apply Z.ltb_lt. blia.
Qed.

Lemma column_dtype_uint64 (y : list Z) :
  Forall (λ L, 0 ≤ L < 2 ^ 64) y → Exists (λ L, 2 ^ 63 ≤ L) y →
  column_dtype y = UInt64.
Proof.
  intros Hy Hbig. unfold column_dtype.
  assert (forallb (λ v, (- 2 ^ 63 <=? v) && (v <? 2 ^ 63)) y = false) as ->.
  { apply forallb_Exists. eapply Exists_impl; [exact Hbig|].
    intros L HL. cbn beta in *. apply andb_false_iff. right.
    apply Z.ltb_ge. blia. }
  assert (forallb (λ v, (0 <=? v) && (v <? 2 ^ 64)) y = true) as ->; [|done].
  apply forallb_Forall. eapply Forall_impl; [exact Hy|].
  intros L HL. cbn beta in *. apply andb_true_iff. split.
  - apply Z.leb_le. blia.
  - apply Z.ltb_lt. blia.
Qed.

Lemma column_dtype_object (y : list Z) :
  Exists (λ L, L < - 2 ^ 63 ∨ 2 ^ 63 ≤ L) y →
  Exists (λ L, L < 0 ∨ 2 ^ 64 ≤ L) y →
  column_dtype y = Object.
Proof.
  intros Hout Hmix. unfold column_dtype.
  assert (forallb (λ v, (- 2 ^ 63 <=? v) && (v <? 2 ^ 63)) y = false) as ->.
  { apply forallb_Exists. eapply Exists_impl; [exact Hout|].
    intros L HL. cbn beta in *. apply andb_false_iff.
    destruct HL; [left; apply Z.leb_gt; blia|right; apply Z.ltb_ge; blia]. }
  assert (forallb (λ v, (0 <=? v) && (v <? 2 ^ 64)) y = false) as ->; [|done].
  apply forallb_Exists. eapply Exists_impl; [exact Hmix|].
  intros L HL. cbn beta in *. apply andb_false_iff.
  destruct HL; [left; apply Z.leb_gt; blia|right; apply Z.ltb_ge; blia].
Qed.

Lemma as_int_array_series (y : list Z) :
  as_int_array (Series y) =
  match column_dtype y with
  | Object => Raise OverflowError
  | _ => Ok (vector (int64_labels y))
  end.
Proof.
  unfold as_int_array, int64_labels. by destruct (column_dtype y).
Qed.

Lemma length_int64_labels (y : list Z) :
  length (int64_labels y) = length y.
Proof.
  unfold int64_labels. destruct (column_dtype y); by rewrite ?length_map.
Qed.

(** [to_categorical] on a column of labels, in closed form. *)
Lemma to_categorical_vector (y : list Z) :
  to_categorical (Series y) 24 =
  match column_dtype y with
  | Object => Raise OverflowError
  | _ =>
      if forallb accepted (int64_labels y)
      then Ok (matrix 24 (map (λ L, one_hot 24 (Z.to_nat (L mod 24)))
                              (int64_labels y)))
      else Raise IndexError
  end.
Proof.
  pose proof (as_int_array_series y) as Hcast.
  pose proof (traverse_categorical_row (int64_labels y)) as Hrows.
  assert (∀ r : result (ndarray Z),
            as_int_array (Series y) = r →
            r = Ok (vector (int64_labels y)) →
            to_categorical (Series y) 24 =
            if forallb accepted (int64_labels y)
            then Ok (matrix 24 (map (λ L, one_hot 24 (Z.to_nat (L mod 24)))
                                    (int64_labels y)))
            else Raise IndexError) as Hgen.
  { intros r Hr ->. destruct (forallb accepted (int64_labels y)).
    - eapply CategoricalFacts.to_categorical_rows; [exact Hr|exact Hrows|].
      by rewrite length_map.
    - eapply CategoricalFacts.to_categorical_raise; [exact Hr|exact Hrows]. }
  destruct (column_dtype y).
  - by eapply Hgen.
  - by eapply Hgen.
  - unfold to_categorical. by rewrite Hcast.
Qed.

(** Row [i] of the table of one-hot rows of a list of int64 labels. *)
Lemma encoded_row (y : list Z) (i : nat) (L : Z) :
  y !! i = Some L →
  row_data (matrix 24 (map (λ L, one_hot 24 (Z.to_nat (L mod 24))) y)) i
  = one_hot 24 (Z.to_nat (L mod 24)).
Proof.
  intros HL. unfold row_data, matrix. cbn [shape data tl].
  change (size_of [24%nat]) with 24%nat.
  apply take_drop_concat_uniform.
  - apply Forall_fmap, Forall_forall. intros L' _. apply length_one_hot.
  - by rewrite list_lookup_fmap, HL.
Qed.

Lemma encoded_matrix (y : list Z) :
  let m := matrix 24 (map (λ L, one_hot 24 (Z.to_nat (L mod 24))) y) in
  shape m = [length y; 24%nat] ∧ wf m.
Proof.
  split; [by unfold matrix; cbn; rewrite length_map|].
  apply NumpyFacts.matrix_wf, Forall_fmap, Forall_forall.
  intros L _. apply length_one_hot.
Qed.

(** An int64 column is encoded as it is. *)
Lemma int64_labels_small (y : list Z) :
  Forall (λ L, - 2 ^ 63 ≤ L < 2 ^ 63) y →
  column_dtype y = Int64 ∧ int64_labels y = y.
Proof.
  intros Hy. pose proof (column_dtype_int64 y Hy) as Hd.
  split; [done|]. unfold int64_labels. by rewrite Hd.
Qed.

Lemma accepted_mod (L : Z) :
  accepted L = true → L mod 24 = if L <? 0 then L + 24 else L.
Proof.
  unfold accepted. intros HL. apply andb_true_iff in HL as [Hlo Hhi].
  apply Z.leb_le in Hlo. apply Z.ltb_lt in Hhi.
  destruct (Z.ltb_spec L 0).
  - by rewrite <- (Z.mod_unique L 24 (-1) (L + 24)) by blia.
  - by rewrite Z.mod_small by blia.
Qed.

(** The first maximum of a one-hot row of 24 entries is at its one. *)
Lemma argmax_one_hot (sh : list nat) (k : nat) :
  (k < 24)%nat → argmax (mk_ndarray sh (one_hot 24 k)) = Ok k.
Proof.
  intros Hk.
  assert (forallb (λ k, match argmax (mk_ndarray [] (one_hot 24 k)) with
                        | Ok j => (j =? k)%nat
                        | Raise _ => false
                        end) (seq 0 24) = true) as Hall
    by (vm_compute; reflexivity).
  rewrite forallb_forall in Hall.
  specialize (Hall k). 
  assert (In k (seq 0 24)) as Hin by (apply in_seq; blia).
  apply Hall in Hin.
  change (argmax (mk_ndarray sh (one_hot 24 k)))
    with (argmax (mk_ndarray [] (one_hot 24 k))).
  destruct (argmax _) as [j|e]; [|done].
  apply Nat.eqb_eq in Hin. by subst.
Qed.

End ColumnFacts.

(** C3, as stated, fails below zero: numpy's index assignment in
    [to_categorical] accepts the label -1 and counts it from the end, so
    the encoding succeeds and is the one-hot vector of class 23. *)
Lemma C3_negative_label_is_encoded :
  to_categorical (Series [-1]) 24 = Ok (matrix 24 [one_hot 24 23]) ∧
  argmax (mk_ndarray [24%nat] (one_hot 24 23)) = Ok 23%nat.
Proof. split; by vm_compute. Qed.

(** The label [2^64 - 1] makes the column a uint64 column; the cast to
    int64 wraps it to -1, so it is encoded as class 23.  The label [2^64]
    fits no 64-bit integer, and the cast raises [OverflowError]. *)
Example to_categorical_wraps_uint64 :
  to_categorical (Series [2 ^ 64 - 1]) 24 = Ok (matrix 24 [one_hot 24 23]) ∧
  to_categorical (Series [5; 2 ^ 64 - 24]) 24
    = Ok (matrix 24 [one_hot 24 5; one_hot 24 0]) ∧
  to_categorical (Series [2 ^ 64]) 24 = Raise OverflowError ∧
  to_categorical (Series [-1; 2 ^ 64 - 1]) 24 = Raise OverflowError ∧
  to_categorical (Series [2 ^ 63]) 24 = Raise IndexError.
Proof. repeat split; by vm_compute. Qed.

(** C3, amended.  For every label L in [[0,23]], encoding L into 24
    categories yields a 24-wide vector with exactly one component equal to
    1, at index L, and 23 zeros, and the arg-max of the vector is L.  The
    labels are cast to int64 before they are used as indices.  In a column
    of labels that fit int64, a label L >= 24 or L < -24 makes the
    encoding fail with [LabelOutOfRange] (numpy's [IndexError]), and a
    label in [[-24,-1]] is accepted and encoded as L + 24.  In a column
    without negative labels that holds a label from [2^63] on and none
    from [2^64] on, the labels are unsigned and the cast wraps them: a
    label from [2^64 - 24] on is accepted and encoded as L - 2^64 + 24, and
    the encoding fails with [LabelOutOfRange] exactly when some label lies
    in between.  In every other column a label fits neither type, and the
    encoding fails with [OverflowError]. *)
Theorem C3_one_hot_encoding :
  (∀ (y : list Z) (i : nat) (L : Z),
     Forall (λ L, 0 ≤ L ≤ 23) y → y !! i = Some L →
     ∃ m, to_categorical (Series y) 24 = Ok m ∧
          shape m = [length y; 24%nat] ∧
          let v := mk_ndarray [24%nat] (row_data m i) in
          length (data v) = 24%nat ∧
          (∀ k, (k < 24)%nat →
                data v !! k = Some (if decide (k = Z.to_nat L)
                                    then Float.one floatx else Float.zero)) ∧
          count_eq (Float.one floatx) (data v) = 1%nat ∧
          count_eq Float.zero (data v) = 23%nat ∧
          argmax v = Ok (Z.to_nat L)) ∧
  (∀ y : list Z,
     Forall (λ L, - 2 ^ 63 ≤ L < 2 ^ 63) y →
     Exists (λ L, L < -24 ∨ 24 ≤ L) y →
     to_categorical (Series y) 24 = Raise LabelOutOfRange) ∧
  (∀ (y : list Z) (i : nat) (L : Z),
     Forall (λ L, -24 ≤ L ≤ 23) y → y !! i = Some L →
     ∃ m, to_categorical (Series y) 24 = Ok m ∧
          row_data m i
          = one_hot 24 (Z.to_nat (if L <? 0 then L + 24 else L))) ∧
  (∀ y : list Z,
     Forall (λ L, 0 ≤ L < 2 ^ 64) y →
     Exists (λ L, 2 ^ 63 ≤ L) y →
     to_categorical (Series y) 24 =
     if forallb (λ L, (L <? 24) || (2 ^ 64 - 24 <=? L)) y
     then Ok (matrix 24
                (map (λ L, one_hot 24
                             (Z.to_nat (if L <? 24 then L
                                        else L - 2 ^ 64 + 24))) y))
     else Raise LabelOutOfRange) ∧
  (∀ y : list Z,
     Exists (λ L, L < - 2 ^ 63 ∨ 2 ^ 63 ≤ L) y →
     Exists (λ L, L < 0 ∨ 2 ^ 64 ≤ L) y →
     to_categorical (Series y) 24 = Raise OverflowError).
Proof.
  split; [|split; [|split; [|split]]].
  - intros y i L Hy HL.
    destruct (ColumnFacts.int64_labels_small y) as [Hd Hl].
    { eapply Forall_impl; [exact Hy|]. intros L' HL'; cbn beta in *; blia. }
    pose proof (ColumnFacts.to_categorical_vector y) as Heq.
    rewrite Hd, Hl in Heq.
    assert (forallb accepted y = true) as Hacc.
    { apply ColumnFacts.forallb_Forall. eapply Forall_impl; [exact Hy|].
      intros L' HL'. cbn beta in *. unfold accepted. apply andb_true_iff. split.
      - apply Z.leb_le. blia.
      - apply Z.ltb_lt. blia. }
    rewrite Hacc in Heq. eexists. split; [exact Heq|].
    destruct (ColumnFacts.encoded_matrix y) as [Hshape _].
    split; [exact Hshape|]. cbn zeta. cbn [data].
    rewrite (ColumnFacts.encoded_row y i L HL).
    rewrite Forall_lookup in Hy. pose proof (Hy _ _ HL) as HL23.
    rewrite Z.mod_small by blia.
    assert (Z.to_nat L < 24)%nat as Hk by blia.
    destruct (CategoricalFacts.one_hot_counts _ Hk) as (Hlen & H1 & H0 & Ham).
    repeat split; try done.
    intros k Hk'. by apply CategoricalFacts.one_hot_lookup.
  - intros y Hy Hex.
    destruct (ColumnFacts.int64_labels_small y Hy) as [Hd Hl].
    rewrite ColumnFacts.to_categorical_vector, Hd, Hl.
    assert (forallb accepted y = false) as ->; [|done].
    apply ColumnFacts.forallb_Exists. eapply Exists_impl; [exact Hex|].
    intros L HL. cbn beta in *. unfold accepted. apply andb_false_iff.
    destruct HL; [left; apply Z.leb_gt; blia|right; apply Z.ltb_ge; blia].
  - intros y i L Hy HL.
    destruct (ColumnFacts.int64_labels_small y) as [Hd Hl].
    { eapply Forall_impl; [exact Hy|]. intros L' HL'; cbn beta in *; blia. }
    pose proof (ColumnFacts.to_categorical_vector y) as Heq.
    rewrite Hd, Hl in Heq.
    assert (Forall (λ L, accepted L = true) y) as Hacc.
    { eapply Forall_impl; [exact Hy|].
      intros L' HL'. cbn beta in *. unfold accepted. apply andb_true_iff. split.
      - apply Z.leb_le. blia.
      - apply Z.ltb_lt. blia. }
    rewrite (proj2 (ColumnFacts.forallb_Forall _ _) Hacc) in Heq.
    eexists. split; [exact Heq|].
    rewrite (ColumnFacts.encoded_row y i L HL).
    rewrite Forall_lookup in Hacc.
    by rewrite (ColumnFacts.accepted_mod L (Hacc _ _ HL)).
  - intros y Hy Hbig.
    pose proof (ColumnFacts.column_dtype_uint64 y Hy Hbig) as Hd.
    rewrite ColumnFacts.to_categorical_vector, Hd.
    unfold int64_labels. rewrite Hd.
    assert (∀ L, 0 ≤ L < 2 ^ 64 →
                 accepted (wrap_int64 L)
                 = (L <? 24) || (2 ^ 64 - 24 <=? L)) as Hacc.
    { intros L HL. unfold accepted.
      destruct (Z_lt_le_dec L (2 ^ 63)) as [Hs|Hl].
      - rewrite ColumnFacts.wrap_int64_small by (blia).
        int64_bounds.
        destruct (Z.leb_spec (-24) L), (Z.ltb_spec L 24),
          (Z.leb_spec (18446744073709551616 - 24) L); cbn; blia.
      - rewrite ColumnFacts.wrap_int64_large by blia. int64_bounds.
        destruct (Z.leb_spec (-24) (L - 18446744073709551616)),
          (Z.ltb_spec (L - 18446744073709551616) 24), (Z.ltb_spec L 24),
          (Z.leb_spec (18446744073709551616 - 24) L); cbn; blia. }
    assert (forallb accepted (map wrap_int64 y)
            = forallb (λ L, (L <? 24) || (2 ^ 64 - 24 <=? L)) y) as ->.
    { clear Hbig Hd. induction Hy as [|L y HL _ IH]; [done|].
      cbn [map forallb]. by rewrite Hacc, IH. }
    destruct (forallb _ y) eqn:Hall; [|done].
    do 2 f_equal. rewrite <- list_fmap_compose.
    apply ColumnFacts.forallb_Forall in Hall.
    clear Hbig Hd. induction Hy as [|L y HL _ IH]; [done|].
    apply Forall_cons in Hall as [HaL Hall].
    cbn [fmap list_fmap map]. f_equal; [|by apply IH].
    cbn. do 2 f_equal.
    rewrite ColumnFacts.accepted_mod by (by rewrite Hacc).
    destruct (Z_lt_le_dec L (2 ^ 63)) as [Hs|Hl].
    + rewrite ColumnFacts.wrap_int64_small by (blia).
      apply orb_true_iff in HaL. int64_bounds.
      destruct (Z.ltb_spec L 0), (Z.ltb_spec L 24); try blia;
        (destruct HaL as [HaL|HaL];
         [apply Z.ltb_lt in HaL|apply Z.leb_le in HaL]; blia).
    + rewrite ColumnFacts.wrap_int64_large by blia.
      apply orb_true_iff in HaL. int64_bounds.
      destruct (Z.ltb_spec (L - 18446744073709551616) 0),
        (Z.ltb_spec L 24); try blia;
        (destruct HaL as [HaL|HaL];
         [apply Z.ltb_lt in HaL|apply Z.leb_le in HaL]; blia).
  - intros y Hout Hmix.
    rewrite ColumnFacts.to_categorical_vector.
    by rewrite ColumnFacts.column_dtype_object.
Qed.

(** C3 at the columns [[0; 23; 8]], [[3; 24]], [[-25]], [[7; -1]],
    [[5; 2^64 - 1]], [[2^63; 3]] and [[2^64]]. *)
Lemma C3_one_hot_encoding_witness :
  (∃ m, to_categorical (Series [0; 23; 8]) 24 = Ok m ∧
        shape m = [length [0; 23; 8]; 24%nat] ∧
        let v := mk_ndarray [24%nat] (row_data m 2) in
        length (data v) = 24%nat ∧
        (∀ k, (k < 24)%nat →
              data v !! k = Some (if decide (k = Z.to_nat 8)
                                  then Float.one floatx else Float.zero)) ∧
        count_eq (Float.one floatx) (data v) = 1%nat ∧
        count_eq Float.zero (data v) = 23%nat ∧
        argmax v = Ok (Z.to_nat 8)) ∧
  to_categorical (Series [3; 24]) 24 = Raise LabelOutOfRange ∧
  to_categorical (Series [-25]) 24 = Raise LabelOutOfRange ∧
  (∃ m, to_categorical (Series [7; -1]) 24 = Ok m ∧
        row_data m 1
        = one_hot 24 (Z.to_nat (if -1 <? 0 then -1 + 24 else -1))) ∧
  to_categorical (Series [5; 2 ^ 64 - 1]) 24 =
    (if forallb (λ L, (L <? 24) || (2 ^ 64 - 24 <=? L)) [5; 2 ^ 64 - 1]
     then Ok (matrix 24
                (map (λ L, one_hot 24
                             (Z.to_nat (if L <? 24 then L
                                        else L - 2 ^ 64 + 24)))
                     [5; 2 ^ 64 - 1]))
     else Raise LabelOutOfRange) ∧
  to_categorical (Series [2 ^ 63; 3]) 24 =
    (if forallb (λ L, (L <? 24) || (2 ^ 64 - 24 <=? L)) [2 ^ 63; 3]
     then Ok (matrix 24
                (map (λ L, one_hot 24
                             (Z.to_nat (if L <? 24 then L
                                        else L - 2 ^ 64 + 24)))
                     [2 ^ 63; 3]))
     else Raise LabelOutOfRange) ∧
  to_categorical (Series [2 ^ 64]) 24 = Raise OverflowError.
Proof.
  pose proof C3_one_hot_encoding as (Hin & Hout & Hneg & Huns & Hover).
  split.
  { apply (Hin [0; 23; 8] 2%nat 8); [|reflexivity].
    repeat (apply Forall_cons_2; [blia|]). apply Forall_nil_2. }
  split.
  { apply Hout.
    - repeat (apply Forall_cons_2; [blia|]). apply Forall_nil_2.
    - apply Exists_cons_tl, Exists_cons_hd. blia. }
  split.
  { apply Hout.
    - repeat (apply Forall_cons_2; [blia|]). apply Forall_nil_2.
    - apply Exists_cons_hd. blia. }
  split.
  { apply (Hneg [7; -1] 1%nat (-1)); [|reflexivity].
    repeat (apply Forall_cons_2; [blia|]). apply Forall_nil_2. }
  split.
  { apply Huns.
    - repeat (apply Forall_cons_2; [blia|]). apply Forall_nil_2.
    - apply Exists_cons_tl, Exists_cons_hd. blia. }
  split.
  { apply Huns.
    - repeat (apply Forall_cons_2; [blia|]). apply Forall_nil_2.
    - apply Exists_cons_hd. blia. }
  apply Hover.
  - apply Exists_cons_hd. right. blia.
  - apply Exists_cons_hd. right. blia.
Defined.

(** ** [np.argmax] returns the first index of the maximum *)

Module ArgmaxFacts.
Import Float FloatKey FloatOrder.

Lemma argmax_loop_bound mp max_ind i ip :
  (max_ind < i)%nat →
  (argmax_loop mp max_ind i ip < i + length ip)%nat.
Proof.
  revert mp max_ind i.
  induction ip as [|x ip IH]; intros mp max_ind i Hlt; cbn; [lia|].
  destruct (negb (leb x mp)).
  - destruct (is_nan x); [lia|].
    specialize (IH x i (S i)). lia.
  - specialize (IH mp max_ind (S i)). lia.
Qed.

Lemma argmax_bound (a : ndarray spec_float) i :
  argmax a = Ok i → (i < length (data a))%nat.
Proof.
  unfold argmax. destruct (data a) as [|mp ip]; [done|].
  intros [= <-]. destruct (is_nan mp); cbn; [lia|].
  pose proof (argmax_loop_bound mp 0 1 ip). lia.
Qed.

Lemma argmax_nonempty (a : ndarray spec_float) :
  data a ≠ [] → ∃ i, argmax a = Ok i.
Proof. unfold argmax. destruct (data a); [done|]. eauto. Qed.

(** The invariant of the loop: [max_ind] is the first maximum of the
    elements [seen] so far. *)
Lemma argmax_loop_first_max seen ip mp max_ind :
  Forall (λ x, is_nan x = false) (seen ++ ip) →
  seen !! max_ind = Some mp →
  first_max seen max_ind →
  first_max (seen ++ ip) (argmax_loop mp max_ind (length seen) ip).
Proof.
  revert seen mp max_ind.
  induction ip as [|x ip IH]; intros seen mp max_ind Hnan Hmp Hfm.
  { cbn. by rewrite app_nil_r. }
  assert (is_nan x = false) as Hx.
  { rewrite Forall_app, Forall_cons in Hnan. tauto. }
  assert (is_nan mp = false) as Hm.
  { rewrite Forall_app in Hnan. destruct Hnan as [Hs _].
    rewrite Forall_lookup in Hs. by apply (Hs max_ind). }
  assert (∀ j y, seen !! j = Some y → is_nan y = false) as Hseen.
  { rewrite Forall_app in Hnan. destruct Hnan as [Hs _].
    rewrite Forall_lookup in Hs. exact Hs. }
  destruct Hfm as (m & Hm' & Hle & Hlt).
  assert (m = mp) as -> by congruence.
  cbn [argmax_loop]. rewrite (not_leb_ltb x mp) by done.
  replace (seen ++ x :: ip) with ((seen ++ [x]) ++ ip)
    by (by rewrite <- app_assoc).
  replace (S (length seen)) with (length (seen ++ [x]))
    by (rewrite length_app; cbn; lia).
  destruct (ltb mp x) eqn:Hcmp.
  - rewrite Hx. apply IH.
    + by rewrite <- app_assoc.
    + rewrite lookup_app_r by lia. by rewrite Nat.sub_diag.
    + exists x. split.
      { rewrite lookup_app_r by lia. by rewrite Nat.sub_diag. }
      split.
      * intros j y Hj. apply lookup_app_Some in Hj as [Hj|[Hge Hj]].
        -- apply ltb_leb. apply (leb_ltb_trans y mp x); eauto.
        -- apply list_lookup_singleton_Some in Hj as [_ <-].
           by apply leb_refl.
      * intros j y Hjlt Hj. rewrite lookup_app_l in Hj by done.
        apply (leb_ltb_trans y mp x); eauto.
  - apply IH.
    + by rewrite <- app_assoc.
    + rewrite lookup_app_l; [done|]. by eapply lookup_lt_Some.
    + exists mp. split.
      { rewrite lookup_app_l; [done|]. by eapply lookup_lt_Some. }
      split.
      * intros j y Hj. apply lookup_app_Some in Hj as [Hj|[Hge Hj]]; eauto.
        apply list_lookup_singleton_Some in Hj as [_ Heq].
        rewrite <- (not_leb_ltb x mp) in Hcmp by done.
        apply negb_false_iff in Hcmp. by rewrite <- Heq.
      * intros j y Hjlt Hj.
        assert (max_ind < length seen)%nat by (by eapply lookup_lt_Some).
        rewrite lookup_app_l in Hj by lia. eauto.
Qed.

(** Away from NaN, [np.argmax] is the first index of the maximum. *)
Lemma argmax_first_max (a : ndarray spec_float) i :
  Forall (λ x, is_nan x = false) (data a) →
  argmax a = Ok i → first_max (data a) i.
Proof.
  unfold argmax. destruct (data a) as [|mp ip]; [done|].
  intros Hnan [= <-].
  assert (is_nan mp = false) as Hm by (by inversion Hnan).
  rewrite Hm.
  apply (argmax_loop_first_max [mp] ip mp 0); [done|done|].
  exists mp. split; [done|]. split.
  - intros [|j] y Hj; [|done]. injection Hj as <-. by apply leb_refl.
  - intros j y Hj. lia.
Qed.

(** Two floats equal to a third are ordered. *)
Lemma eqb_leb a b c :
  eqb a c = true → eqb b c = true → leb a b = true.
Proof.
  intros Ha Hb.
  assert (is_nan a = false) as Hna by (by destruct a).
  assert (is_nan b = false) as Hnb by (by destruct b).
  assert (is_nan c = false) as Hnc by (by destruct a, c).
  unfold eqb, SFeqb in Ha, Hb.
  rewrite compare_key in Ha, Hb by done.
  apply leb_key; [done|done|].
  apply (lex3_le_trans _ (FloatKey.key c)).
  - by destruct (lex3 (key a) (key c)).
  - rewrite lex3_antisym. by destruct (lex3 (key b) (key c)).
Qed.

Lemma argmax_loop_no_update mp max_ind i ip :
  Forall (λ x, leb x mp = true) ip → argmax_loop mp max_ind i ip = max_ind.
Proof.
  revert i. induction ip as [|x ip IH]; intros i Hall; [done|].
  apply Forall_cons in Hall as [Hx Hall].
  cbn. rewrite Hx. cbn. by apply IH.
Qed.

(** When all components are equal, the arg-max is index 0. *)
Lemma argmax_all_equal (a : ndarray spec_float) i s0 :
  Forall (λ s, eqb s s0 = true) (data a) → argmax a = Ok i → i = 0%nat.
Proof.
  unfold argmax. destruct (data a) as [|mp ip]; [done|].
  intros Hall [= <-]. apply Forall_cons in Hall as [Hmp Hall].
  destruct (is_nan mp); [done|].
  apply argmax_loop_no_update.
  eapply Forall_impl; [exact Hall|]. intros s Hs. by apply (eqb_leb s mp s0).
Qed.

End ArgmaxFacts.

(** ** The inference pipeline *)

Module InferenceFacts.
Import PartC.

(** Dividing an 8-bit sample by 255 in float32, as [predict_letter] does,
    gives the float32 value of the float64 quotient the training notebooks
    compute: checked for each of the 256 intensities. *)
Lemma normalize_agrees (s : Z) :
  0 ≤ s ≤ 255 →
  Float.div Float.binary32 (Float.of_Z floatx s)
                           (Float.of_Z Float.binary32 255) =
  Float.cast Float.binary32
    (Float.div Float.binary64 (Float.of_Z Float.binary64 s)
                              (Float.of_Z Float.binary64 255)).
Proof.
  intros Hs.
  assert (Forall
            (λ n, Float.div Float.binary32
                    (Float.of_Z floatx (Z.of_nat n))
                    (Float.of_Z Float.binary32 255) =
                  Float.cast Float.binary32
                    (Float.div Float.binary64
                       (Float.of_Z Float.binary64 (Z.of_nat n))
                       (Float.of_Z Float.binary64 255)))
            (seq 0 256)) as Hall.
  { cbv [seq].
    repeat (apply Forall_cons_2; [vm_compute; reflexivity|]).
    apply Forall_nil_2. }
  rewrite Forall_forall in Hall.
  specialize (Hall (Z.to_nat s)). rewrite Z2Nat.id in Hall by lia.
  apply Hall, elem_of_seq. lia.
Qed.

Section Run.
Context `{Session}.
Hypothesis Hload : load_img_contract.
Hypothesis Hmodel : model_of PartB.model [28; 28; 1]%nat.

Lemma img_to_array_grayscale (path : string) (im : pil_image) :
  load_and_scale_image path = Ok im →
  returned_mode Grayscale (mode im) = true ∧
  channels (mode im) = 1%nat ∧
  height im = 28%nat ∧ width im = 28%nat ∧
  shape (img_to_array im) = [28; 28; 1]%nat ∧
  length (data (img_to_array im)) = 784%nat.
Proof.
  intros Him. destruct (Hload _ _ _ _ _ Him) as (Hm & Hh & Hw & Hwf & _).
  assert (channels (mode im) = 1%nat) as Hc
    by (by destruct (mode im)).
  unfold img_to_array. cbn [shape data].
  rewrite length_map, Hwf, Hc, Hh, Hw. done.
Qed.

(** One run of [predict_letter] on a file both readers accept. *)
Lemma predict_letter_run (path : string) (out : notebook)
  (pic : picture) (im : pil_image) :
  imread path = Ok pic →
  load_and_scale_image path = Ok im →
  ∃ p i c,
    predict (true_divide_f32
               (mk_ndarray [1; 28; 28; 1]%nat (data (img_to_array im))) 255)
      = Ok p ∧
    shape p = [1; 24]%nat ∧
    length (data p) = 24%nat ∧
    argmax p = Ok i ∧
    (i < 24)%nat ∧
    str_index alphabet i = Ok c ∧
    predict_letter path out = (Ok c, out ++ [pic]).
Proof.
  intros Hpic Him.
  destruct (img_to_array_grayscale _ _ Him) as (_ & _ & _ & _ & Hsh & Hlen).
  set (x := true_divide_f32
              (mk_ndarray [1; 28; 28; 1]%nat (data (img_to_array im))) 255).
  destruct (Hmodel x) as (p & Hp & Hwf & Hshape).
  { reflexivity. }
  { unfold wf, x, true_divide_f32, map_array. cbn [data shape].
    rewrite length_map, Hlen. reflexivity. }
  change (model_output_shape PartB.model [28; 28; 1]%nat)
    with (Some [24%nat]) in Hshape.
  injection Hshape as Hshape.
  assert (length (data p) = 24%nat) as Hlp.
  { unfold wf in Hwf. rewrite Hwf, <- Hshape. reflexivity. }
  destruct (ArgmaxFacts.argmax_nonempty p) as [i Hi].
  { intros Hnil. by rewrite Hnil in Hlp. }
  pose proof (ArgmaxFacts.argmax_bound _ _ Hi) as Hbound.
  rewrite Hlp in Hbound.
  assert (∃ c, str_index alphabet i = Ok c) as [c Hc].
  { clear -Hbound. do 24 (destruct i as [|i]; [by eexists|]). lia. }
  exists p, i, c. repeat split; try done.
  unfold predict_letter, show_image.
  rewrite Hpic, Him.
  cell_steps.
  rewrite NumpyFacts.reshape_1_28_28_1.
  unfold size. rewrite Hsh.
  change (size_of [28; 28; 1]%nat =? 784)%nat with true. cbv iota.
  fold x. rewrite Hp. cbv iota. rewrite Hi. cbv iota. rewrite Hc.
  reflexivity.
Qed.

End Run.

Lemma black_session_load_img : @load_img_contract black_session.
Proof.
  intros path cm h w im [= <-]. split; [by destruct cm|].
  split; [done|]. split; [done|]. split.
  - unfold black_image. cbn. by rewrite length_replicate.
  - unfold black_image. cbn [pixels mode]. apply Forall_replicate.
    by destruct cm.
Qed.

Lemma black_session_model :
  @model_of black_session PartB.model [28; 28; 1]%nat.
Proof.
  intros x0 Hsh Hwf. eexists. split; [reflexivity|].
  unfold len. rewrite Hsh. cbn [hd]. split; [|reflexivity].
  unfold wf, size_of. cbn [data shape foldr].
  rewrite length_replicate. lia.
Qed.

Lemma ramp_image_wf (m : image_mode) (h w : nat) : pil_wf (ramp_image m h w).
Proof.
  unfold pil_wf, ramp_image.
  destruct (sample_range m) as [lo hi] eqn:Hrange.
  cbn [pixels mode height width]. rewrite Hrange. cbn [fst snd].
  split; [by rewrite length_map, length_seq|].
  apply Forall_fmap, Forall_forall. intros k _. cbn beta.
  assert (0 < hi - lo + 1) as Hpos
    by (destruct m; injection Hrange as <- <-; cbn; lia).
  pose proof (Z.mod_pos_bound (9973 * Z.of_nat k) (hi - lo + 1) Hpos).
  unfold compose. lia.
Qed.

Lemma ramp_session_load_img (m : image_mode) :
  @load_img_contract (ramp_session m).
Proof.
  intros path cm h w im [= <-]. cbn [fst snd].
  set (m' := if returned_mode cm m then m else converted_mode cm).
  assert (returned_mode cm m' = true) as Hm
    by (subst m'; by destruct cm, m).
  pose proof (ramp_image_wf m' h w) as Hwf.
  unfold ramp_image in *. destruct (sample_range m') as [lo hi].
  cbn [mode height width] in *. done.
Qed.

Lemma projection_model_of (arch : list layer) (input : list nat)
  (imread : string → result pil_image)
  (load_img : string → color_mode → nat * nat → result pil_image) :
  model_output_shape arch input = Some [24%nat] →
  (24 ≤ size_of input)%nat →
  @model_of {| picture := pil_image; PartC.imread := imread;
               PartC.load_img := load_img; predict := projection_model |}
            arch input.
Proof.
  intros Harch Hsize x0 Hsh Hwf. eexists. split; [reflexivity|].
  unfold len. rewrite Hsh, Harch. cbn [hd option_map]. split; [|reflexivity].
  unfold wf in *. cbn [data shape]. rewrite length_take, Hwf, Hsh.
  change (size_of (1%nat :: input)) with (1 * size_of input)%nat.
  change (size_of [1%nat; 24%nat]) with 24%nat. lia.
Qed.

Lemma ramp_session_model (m : image_mode) :
  @model_of (ramp_session m) PartB.model [28; 28; 1]%nat.
Proof.
  apply projection_model_of; [reflexivity|].
  change (size_of [28; 28; 1]%nat) with 784%nat. lia.
Qed.

End InferenceFacts.

(** *** C1: the steps of [predict_letter] *)

(** C1, as stated, fails for a file the loader reads and the display
    rejects: [predict_letter] shows the file with [show_image] before it
    loads it, so it raises without having taken any of the steps. *)
Lemma C1_file_not_shown_is_not_predicted :
  @PartC.load_and_scale_image PartC.unshowable_session
     "data/asl_images/b.png"
    = Ok (PartC.ramp_image ModeL 28 28) ∧
  @PartC.predict_letter PartC.unshowable_session "data/asl_images/b.png" []
    = (Raise UnsupportedImageFormat, []).
Proof. split; reflexivity. Qed.

(** A 32-bit sample from [2^24] on is rounded when [img_to_array] makes
    it a float32, and its quotient by 255 is no longer the float32 value
    of the float64 quotient. *)
Example normalize_differs_beyond_float32 :
  Float.div Float.binary32 (Float.of_Z floatx 16777219)
                           (Float.of_Z Float.binary32 255) ≠
  Float.cast Float.binary32
    (Float.div Float.binary64 (Float.of_Z Float.binary64 16777219)
                              (Float.of_Z Float.binary64 255)).
Proof. intros Heq. vm_compute in Heq. discriminate Heq. Qed.

(** C1, amended.  [predict_letter] first shows the file: when the display
    cannot read it, the call raises that exception and takes no further
    step.  For every file the display and the loader both read, it then
    loads the image as a single-channel image of exactly 28 x 28 (8-bit,
    or 16-bit or 32-bit when the file is such a greyscale image, which is
    not converted), makes it a float32 array reshaped to (1, 28, 28, 1),
    divides every value by 255 (for samples in [[0,255]] this is the
    float32 value of the training notebooks' quotient), obtains the
    model's 24-element prediction, takes its arg-max, and returns the
    character at that index of the alphabet. *)
Theorem C1_predict_letter_steps `{PartC.Session}
  (file_path : string) (out : PartC.notebook) :
  PartC.load_img_contract →
  PartC.model_of PartB.model [28; 28; 1]%nat →
  (∀ e, PartC.imread file_path = Raise e →
        PartC.predict_letter file_path out = (Raise e, out)) ∧
  (∀ (pic : PartC.picture) (image : pil_image),
     PartC.imread file_path = Ok pic →
     PartC.load_img file_path Grayscale (28, 28)%nat = Ok image →
     ∃ x prediction i letter,
       PartC.load_and_scale_image file_path = Ok image ∧
       returned_mode Grayscale (mode image) = true ∧
       channels (mode image) = 1%nat ∧
       height image = 28%nat ∧ width image = 28%nat ∧
       reshape (img_to_array image) [1; 28; 28; 1] = Ok x ∧
       shape x = [1; 28; 28; 1]%nat ∧
       data (true_divide_f32 x 255) =
         map (λ s, Float.div Float.binary32 (Float.of_Z floatx s)
                             (Float.of_Z Float.binary32 255))
             (pixels image) ∧
       (Forall (λ s, 0 ≤ s ≤ 255) (pixels image) →
        data (true_divide_f32 x 255) =
          data (astype_f32 (PartA.normalize (vector (pixels image))))) ∧
       PartC.predict (true_divide_f32 x 255) = Ok prediction ∧
       length (data prediction) = 24%nat ∧
       argmax prediction = Ok i ∧
       PartC.str_index PartC.alphabet i = Ok letter ∧
       PartC.predict_letter file_path out = (Ok letter, out ++ [pic])).
Proof.
  intros Hload Hmodel. split.
  { intros e He. unfold PartC.predict_letter, PartC.show_image.
    cell_steps. by rewrite He. }
  intros pic image Hpic Him.
  destruct (InferenceFacts.img_to_array_grayscale Hload _ _ Him)
    as (Hm & Hc & Hh & Hw & Hsh & Hlen).
  destruct (InferenceFacts.predict_letter_run Hload Hmodel
              file_path out pic image Hpic Him)
    as (p & i & c & Hp & _ & Hlp & Hi & _ & Hc' & Hrun).
  exists (mk_ndarray [1; 28; 28; 1]%nat (data (img_to_array image))), p, i, c.
  split; [exact Him|]. split; [exact Hm|]. split; [exact Hc|].
  split; [exact Hh|]. split; [exact Hw|]. split.
  { rewrite NumpyFacts.reshape_1_28_28_1. unfold size. rewrite Hsh.
    reflexivity. }
  split; [reflexivity|]. split.
  { unfold true_divide_f32, map_array, img_to_array. cbn [data].
    by rewrite <- list_fmap_compose. }
  split.
  { intros Hbytes.
    unfold true_divide_f32, astype_f32, PartA.normalize, true_divide_int,
      map_array, img_to_array, vector. cbn [data].
    rewrite <- !list_fmap_compose.
    apply Forall_fmap_ext_1. eapply Forall_impl; [exact Hbytes|].
    intros s Hs. cbn. by apply InferenceFacts.normalize_agrees. }
  done.
Qed.

(** C1 on a 16-bit greyscale file, which [load_img] leaves in 16 bits,
    and a model whose scores are the first 24 values of its input: the
    largest of the first 24 samples is the 14th, and the letter is 'o'. *)
Lemma C1_predict_letter_steps_witness :
  (∃ x prediction i letter,
     @PartC.load_and_scale_image (PartC.ramp_session ModeI16)
        "data/asl_images/b.png"
       = Ok (PartC.ramp_image ModeI16 28 28) ∧
     returned_mode Grayscale (mode (PartC.ramp_image ModeI16 28 28)) = true ∧
     channels (mode (PartC.ramp_image ModeI16 28 28)) = 1%nat ∧
     height (PartC.ramp_image ModeI16 28 28) = 28%nat ∧
     width (PartC.ramp_image ModeI16 28 28) = 28%nat ∧
     reshape (img_to_array (PartC.ramp_image ModeI16 28 28)) [1; 28; 28; 1]
       = Ok x ∧
     shape x = [1; 28; 28; 1]%nat ∧
     data (true_divide_f32 x 255) =
       map (λ s, Float.div Float.binary32 (Float.of_Z floatx s)
                           (Float.of_Z Float.binary32 255))
           (pixels (PartC.ramp_image ModeI16 28 28)) ∧
     (Forall (λ s, 0 ≤ s ≤ 255) (pixels (PartC.ramp_image ModeI16 28 28)) →
      data (true_divide_f32 x 255) =
        data (astype_f32
                (PartA.normalize
                   (vector (pixels (PartC.ramp_image ModeI16 28 28)))))) ∧
     @PartC.predict (PartC.ramp_session ModeI16) (true_divide_f32 x 255)
       = Ok prediction ∧
     length (data prediction) = 24%nat ∧
     argmax prediction = Ok i ∧
     PartC.str_index PartC.alphabet i = Ok letter ∧
     @PartC.predict_letter (PartC.ramp_session ModeI16)
        "data/asl_images/b.png" []
       = (Ok letter, [] ++ [PartC.ramp_image ModeRGB 32 32])) ∧
  @PartC.predict_letter (PartC.ramp_session ModeI16)
     "data/asl_images/b.png" []
    = (Ok "o"%char, [PartC.ramp_image ModeRGB 32 32]).
Proof.
  split.
  - apply (proj2 (@C1_predict_letter_steps (PartC.ramp_session ModeI16)
                    "data/asl_images/b.png" []
                    (InferenceFacts.ramp_session_load_img ModeI16)
                    (InferenceFacts.ramp_session_model ModeI16))
                 (PartC.ramp_image ModeRGB 32 32)
                 (PartC.ramp_image ModeI16 28 28)).
    + reflexivity.
    + reflexivity.
  - vm_compute. reflexivity.
Defined.

(** The same file in 8 bits: the largest of the first 24 samples is the
    second, and the letter is 'b'. *)
Example predict_letter_ramp :
  @PartC.predict_letter (PartC.ramp_session ModeL) "data/asl_images/b.png" []
  = (Ok "b"%char, [PartC.ramp_image ModeRGB 32 32]).
Proof. vm_compute. reflexivity. Qed.

(** *** C8: ties of the arg-max *)



(** The same run, evaluated: all 24 scores tie and the answer is 'a'. *)
Example predict_letter_blank :
  @PartC.predict_letter PartC.black_session "blank.png" []
  = (Ok "a"%char, [PartC.black_image Rgb 32 32]).
Proof. vm_compute. reflexivity. Qed.

(** On a missing file [predict_letter] raises at its first statement and
    displays nothing. *)
Example predict_letter_missing_file :
  @PartC.predict_letter PartC.empty_session "nowhere.png" []
  = (Raise ImageNotFound, []).
Proof. reflexivity. Qed.

(** *** C6: the labels are encoded at most once *)

Module EncodingFacts.

(** A reshape to an explicit shape returns that shape. *)
Lemma reshape_explicit_shape {A} (a b : ndarray A) (sh : list nat) :
  reshape a (map Z.of_nat sh) = Ok b → shape b = sh.
Proof.
  rewrite NumpyFacts.reshape_of_nat.
  destruct (_ =? _)%nat; [|done]. by intros [= <-].
Qed.

(** What [to_categorical] returns ends in the dimension 24. *)
Lemma to_categorical_shape (v : labels) (a : ndarray spec_float) :
  to_categorical v 24 = Ok a →
  ∃ y, as_int_array v = Ok y ∧
       shape a = input_shape (shape y) ++ [24%nat].
Proof.
  unfold to_categorical. destruct (as_int_array v) as [y|]; [|done].
  cbn [resolve_num_classes mbind result_bind rbind].
  destruct (traverse _ _) as [rows|]; [|done]. cbn [rbind].
  intros Ha. exists y. split; [done|].
  by apply reshape_explicit_shape in Ha.
Qed.

Lemma to_categorical_last_dim (v : labels) (a : ndarray spec_float) :
  to_categorical v 24 = Ok a →
  last_dim (Categorical a) = Ok 24%nat.
Proof.
  intros Ha. unfold last_dim. cbn [labels_shape].
  destruct (to_categorical_shape _ _ Ha) as (y & _ & ->).
  by rewrite last_snoc.
Qed.

(** The shape of the encoding of a column of [n] labels. *)
Lemma to_categorical_series_shape (l : list Z) (a : ndarray spec_float) :
  to_categorical (Series l) 24 = Ok a → shape a = [length l; 24%nat].
Proof.
  intros Ha. destruct (to_categorical_shape _ _ Ha) as (y & Hy & ->).
  rewrite ColumnFacts.as_int_array_series in Hy.
  destruct (column_dtype l); simplify_eq; cbn [vector shape];
    by rewrite EncodingShape.input_shape_vector,
               ColumnFacts.length_int64_labels.
Qed.

(** The guard of the cell: labels whose final dimension is 24 are left
    alone. *)
Lemma categorize_skips (s : PartA.label_vars) :
  last_dim (PartA.y_train s) = Ok 24%nat → PartA.categorize s = (Ok (), s).
Proof.
  intros Hd. unfold PartA.categorize.
  cell_steps.
  rewrite Hd. reflexivity.
Qed.

Lemma categorize_preserves (train valid : list Z) (s : PartA.label_vars) :
  encoded_at_most_once train valid s →
  encoded_at_most_once train valid (PartA.categorize s).2.
Proof.
  intros [[Ht Hv]|(a & Ha & Ht & Hv)].
  - destruct s as [yt yv]. cbn in Ht, Hv. subst yt yv.
    unfold PartA.categorize.
    cell_steps. cbv beta iota delta [PartA.y_train PartA.y_valid].
    cbn [last_dim labels_shape last].
    destruct (negb (length train =? 24)%nat); [|by left].
    change PartA.num_classes with 24%nat.
    destruct (to_categorical (Series train) 24) as [a|e] eqn:Ha;
      [|by left].
    destruct (to_categorical (Series valid) 24) as [b|e] eqn:Hb;
      cbn [snd]; right; exists a; eauto 10.
  - rewrite categorize_skips.
    + right. eauto 10.
    + rewrite Ht. by apply (to_categorical_last_dim (Series train)).
Qed.

Lemma rerun_categorize (train valid : list Z) (k : nat) :
  encoded_at_most_once train valid
    (rerun PartA.categorize k
       {| PartA.y_train := Series train; PartA.y_valid := Series valid |}).
Proof.
  induction k as [|k IH]; [by left|].
  unfold rerun in *. cbn [Nat.iter]. by apply categorize_preserves.
Qed.

End EncodingFacts.

(** What the guard prevents: encoding encoded labels would turn the
    (2, 24) array into a (2, 24, 24) array. *)
Example double_encoding_shape :
  shape <$> (to_categorical (Series [3; 7]) 24 ≫= λ a,
             to_categorical (Categorical a) 24)
  = Ok [2; 24; 24]%nat.
Proof. vm_compute. reflexivity. Qed.

(** Three runs of the cell of Part A leave what one run leaves. *)
Example categorize_three_runs :
  rerun PartA.categorize 3
    {| PartA.y_train := Series [3; 7]; PartA.y_valid := Series [0] |}
  = rerun PartA.categorize 1
      {| PartA.y_train := Series [3; 7]; PartA.y_valid := Series [0] |} ∧
  labels_shape
    (PartA.y_train
       (rerun PartA.categorize 3
          {| PartA.y_train := Series [3; 7]; PartA.y_valid := Series [0] |}))
  = [2; 24]%nat.
Proof. split; vm_compute; reflexivity. Qed.

(** The guard reads the length of a column of exactly 24 labels as a final
    dimension of 24: such a column is never encoded. *)
Example categorize_24_labels :
  PartA.categorize
    {| PartA.y_train := Series (replicate 24 0); PartA.y_valid := Series [0] |}
  = (Ok (),
     {| PartA.y_train := Series (replicate 24 0);
        PartA.y_valid := Series [0] |}).
Proof. vm_compute. reflexivity. Qed.

(** C6.  In Part A the encoding step first checks whether the final
    dimension of the labels is already 24 and skips the encoding when it
    is; what [to_categorical] returns has final dimension 24; hence, however
    many times the step runs from the labels as read, each label variable
    holds either those labels or their (single) encoding, never an encoding
    of an encoding.  In Part B the step reads the labels from the tables
    again, so every run returns the single encoding of the labels as
    read. *)
Theorem C6_labels_encoded_at_most_once :
  (∀ s : PartA.label_vars,
     last_dim (PartA.y_train s) = Ok 24%nat →
     PartA.categorize s = (Ok (), s)) ∧
  (∀ (v : labels) (a : ndarray spec_float),
     to_categorical v 24 = Ok a →
     last_dim (Categorical a) = Ok 24%nat) ∧
  (∀ (train valid : list Z) (k : nat),
     let s := rerun PartA.categorize k
                {| PartA.y_train := Series train;
                   PartA.y_valid := Series valid |} in
     (PartA.y_train s = Series train ∨
      ∃ a, to_categorical (Series train) 24 = Ok a ∧
           PartA.y_train s = Categorical a) ∧
     (PartA.y_valid s = Series valid ∨
      ∃ b, to_categorical (Series valid) 24 = Ok b ∧
           PartA.y_valid s = Categorical b)) ∧
  (∀ (train_df valid_df : dataframe) (d : PartB.prepared),
     PartB.prepare_data train_df valid_df = Ok d →
     to_categorical (Series (label train_df)) 24 = Ok (PartB.y_train d) ∧
     to_categorical (Series (label valid_df)) 24 = Ok (PartB.y_valid d) ∧
     shape (PartB.y_train d) = [length (label train_df); 24%nat] ∧
     shape (PartB.y_valid d) = [length (label valid_df); 24%nat]).
Proof.
  split; [exact EncodingFacts.categorize_skips|].
  split; [exact EncodingFacts.to_categorical_last_dim|].
  split.
  - intros train valid k s.
    destruct (EncodingFacts.rerun_categorize train valid k)
      as [[Ht Hv]|(a & Ha & Ht & [Hv|(b & Hb & Hv)])]; subst s; eauto 10.
  - intros train_df valid_df d. unfold PartB.prepare_data.
    change PartB.num_classes with 24%nat.
    cbn [mbind result_bind].
    destruct (to_categorical (Series (label train_df)) 24) as [yt|] eqn:Ht;
      [|done].
    destruct (to_categorical (Series (label valid_df)) 24) as [yv|] eqn:Hv;
      [|done].
    cbn [rbind].
    destruct (reshape (true_divide_int (values train_df) 255) _); [|done].
    destruct (reshape (true_divide_int (values valid_df) 255) _); [|done].
    cbn [rbind]. intros [= <-]. cbn [PartB.y_train PartB.y_valid].
    rewrite (EncodingFacts.to_categorical_series_shape _ _ Ht).
    by rewrite (EncodingFacts.to_categorical_series_shape _ _ Hv).
Qed.

(** *** C9: the batch iterator and the epochs of [fit] *)

Module TrainingFacts.

(** The loop test [current_step < steps_per_epoch], for an integer step,
    compares the step with the ceiling. *)
Lemma step_test (steps_per_epoch : Q) (current_step : Z) :
  negb (Qle_bool steps_per_epoch (inject_Z current_step)) =
  (current_step <? Qceiling steps_per_epoch).
Proof.
  destruct (Z.ltb_spec current_step (Qceiling steps_per_epoch)) as [Hlt|Hge].
  - apply negb_true_iff, not_true_iff_false. rewrite Qle_bool_iff.
    apply Qlt_not_le.
    apply Qle_lt_trans with (inject_Z (Qceiling steps_per_epoch - 1)).
    + rewrite <- Zle_Qle. lia.
    + apply Qceiling_lt.
  - apply negb_false_iff. rewrite Qle_bool_iff.
    apply Qle_trans with (inject_Z (Qceiling steps_per_epoch)).
    + apply Qle_ceiling.
    + by rewrite <- Zle_Qle.
Qed.

Section Loop.
Context `{Framework}.

Lemma next_total_batches_seen (it : NumpyArrayIterator) :
  total_batches_seen (next it).2
  = S (total_batches_seen it).
Proof.
  unfold next.
  destruct (_get_batches_of_transformed_samples _ _) as [batch g].
  reflexivity.
Qed.

(** Every call of [next] yields: after [k] calls, [k] batches were seen. *)
Lemma draw_total_batches_seen (k : nat) (it : NumpyArrayIterator) :
  total_batches_seen (draw k it)
  = (total_batches_seen it + k)%nat.
Proof.
  induction k as [|k IH]; [cbn; lia|].
  unfold draw. rewrite Nat.iter_succ. fold (draw k it).
  rewrite next_total_batches_seen, IH. lia.
Qed.

(** The length of a Sequence depends on its data and batch size only. *)
Lemma len_same_sequence (it it' : NumpyArrayIterator) :
  x it' = x it → batch_size it' = batch_size it →
  __len__ it' = __len__ it.
Proof. intros Hx Hb. unfold __len__. by rewrite Hx, Hb. Qed.

(** Reading a batch inside the Sequence succeeds and counts one batch. *)
Lemma getitem_reads (it : NumpyArrayIterator) (idx n : nat) :
  __len__ it = Ok n → (idx < n)%nat →
  ∃ batch it',
    __getitem__ it idx = (Ok batch, it') ∧
    x it' = x it ∧ batch_size it' = batch_size it ∧
    total_batches_seen it' = S (total_batches_seen it).
Proof.
  intros Hlen Hidx. unfold __getitem__. rewrite Hlen.
  destruct (Nat.leb_spec n idx) as [|_]; [lia|].
  destruct (_get_batches_of_transformed_samples _ _) as [batch g].
  by eexists _, _.
Qed.

Lemma read_reads (t : training) (idx n : nat) :
  __len__ (iterator t) = Ok n → (idx < n)%nat →
  ∃ batch t',
    read idx t = (Ok batch, t') ∧
    history t' = history t ∧
    insufficient_data t' = insufficient_data t ∧
    x (iterator t') = x (iterator t) ∧
    batch_size (iterator t') = batch_size (iterator t) ∧
    total_batches_seen (iterator t') = S (total_batches_seen (iterator t)).
Proof.
  intros Hlen Hidx.
  destruct (getitem_reads _ _ _ Hlen Hidx) as (batch & it' & Hget & Hit).
  unfold read. rewrite Hget. by eexists _, _.
Qed.

(** An epoch whose data are as many batches as steps remain reads each of
    them, and does not run out of data. *)
Lemma run_steps_reads (spe : Q) (order : list nat) :
  ∀ (current_step : Z) (t : training) (n : nat),
    __len__ (iterator t) = Ok n →
    Forall (λ idx, (idx < n)%nat) order →
    Z.of_nat (length order) = Qceiling spe - current_step →
    ∃ t', run_steps spe current_step order t = (Ok (), t') ∧
          history t' = history t ∧
          insufficient_data t' = insufficient_data t ∧
          x (iterator t') = x (iterator t) ∧
          batch_size (iterator t') = batch_size (iterator t) ∧
          total_batches_seen (iterator t') =
            (total_batches_seen (iterator t) + length order)%nat.
Proof.
  induction order as [|idx order IH]; intros current_step t n Hlen Hin Hsteps.
  - cbn [run_steps]. rewrite step_test.
    destruct (Z.ltb_spec current_step (Qceiling spe)) as [Hlt|_];
      [cbn [length] in Hsteps; lia|].
    cell_steps. rewrite take_nil. cbn [discard]. cell_steps.
    exists t. repeat split; try done; cbn [length]; lia.
  - cbn [run_steps]. rewrite step_test.
    destruct (Z.ltb_spec current_step (Qceiling spe)) as [_|Hge];
      [|cbn [length] in Hsteps; lia].
    apply Forall_cons in Hin as [Hidx Hin].
    destruct (read_reads t idx n Hlen Hidx)
      as (batch & t1 & Hread & Hh1 & Hi1 & Hx1 & Hb1 & Hs1).
    cell_steps. rewrite Hread.
    set (t2 := {| params := train_step (params t1) batch;
                  iterator := iterator t1; history := history t1;
                  insufficient_data := insufficient_data t1 |}).
    destruct (IH (current_step + 1) t2 n) as (t' & Hrun & Hh & Hi & Hx & Hb & Hs).
    { subst t2. cbn [iterator].
      by rewrite (len_same_sequence _ _ Hx1 Hb1). }
    { exact Hin. }
    { cbn [length] in Hsteps. lia. }
    exists t'. split; [exact Hrun|].
    subst t2. cbn [iterator history insufficient_data] in *.
    rewrite Hh, Hi, Hx, Hb, Hs, Hs1. repeat split; try done.
    cbn [length]. lia.
Qed.

Hypothesis shuffle_permutes : ∀ (g : rng) (l : list nat), (shuffle g l).1 ≡ₚ l.

Lemma epoch_order_permutation (t : training) (n : nat) :
  __len__ (iterator t) = Ok n →
  ∃ order t',
    epoch_order t = (Ok order, t') ∧
    order ≡ₚ seq 0 n ∧
    history t' = history t ∧
    insufficient_data t' = insufficient_data t ∧
    x (iterator t') = x (iterator t) ∧
    batch_size (iterator t') = batch_size (iterator t) ∧
    total_batches_seen (iterator t') = total_batches_seen (iterator t).
Proof.
  intros Hlen. unfold epoch_order. rewrite Hlen.
  pose proof (shuffle_permutes (random_state (iterator t)) (seq 0 n)) as Hp.
  destruct (shuffle _ _) as [order g]. cbn [fst] in Hp.
  by eexists _, _.
Qed.

(** [fit] reads the whole Sequence in every epoch and logs one entry. *)
Lemma run_epochs_reads (epochs : nat) (spe : Q) :
  ∀ (t : training) (n : nat),
    __len__ (iterator t) = Ok n →
    Z.of_nat n = Qceiling spe → (0 < n)%nat →
    insufficient_data t = false →
    ∃ t', run_epochs epochs spe t = (Ok (), t') ∧
          length (history t') = (length (history t) + epochs)%nat ∧
          insufficient_data t' = false ∧
          total_batches_seen (iterator t') =
            (total_batches_seen (iterator t) + epochs * n)%nat.
Proof.
  induction epochs as [|epochs IH]; intros t n Hlen Hn Hpos Hdata.
  { exists t. cbn [run_epochs]. repeat split; try done. all: lia. }
  cbn [run_epochs]. cell_steps. rewrite Hdata.
  assert (Qle_bool spe 0 = false) as ->.
  { pose proof (step_test spe 0) as Htest.
    destruct (Z.ltb_spec 0 (Qceiling spe)); [|lia].
    by apply negb_true_iff in Htest. }
  destruct (epoch_order_permutation t n Hlen)
    as (order & t1 & Horder & Hperm & Hh1 & Hi1 & Hx1 & Hb1 & Hs1).
  rewrite Horder.
  destruct (run_steps_reads spe order 0 t1 n)
    as (t2 & Hrun & Hh2 & Hi2 & Hx2 & Hb2 & Hs2).
  { by rewrite (len_same_sequence _ _ Hx1 Hb1). }
  { rewrite Hperm. apply Forall_forall. intros idx Hidx.
    apply elem_of_seq in Hidx. lia. }
  { rewrite Hperm, length_seq. lia. }
  rewrite Hrun.
  set (t3 := {| params := params t2;
                iterator := on_epoch_end (iterator t2);
                history := history t2 ++ [evaluate (params t2)];
                insufficient_data := insufficient_data t2 |}).
  assert (x (iterator t3) = x (iterator t2) ∧
          batch_size (iterator t3) = batch_size (iterator t2) ∧
          total_batches_seen (iterator t3)
          = total_batches_seen (iterator t2)) as (Hx3 & Hb3 & Hs3).
  { subst t3. cbn [iterator]. unfold on_epoch_end, _set_index_array.
    by destruct (permutation _ _). }
  destruct (IH t3 n) as (t' & Hrun' & Hh' & Hi' & Hs').
  { rewrite (len_same_sequence _ _ Hx3 Hb3).
    rewrite (len_same_sequence _ _ Hx2 Hb2).
    by rewrite (len_same_sequence _ _ Hx1 Hb1). }
  { exact Hn. }
  { exact Hpos. }
  { subst t3. cbn [insufficient_data]. by rewrite Hi2, Hi1. }
  exists t'. split; [exact Hrun'|].
  rewrite Hh', Hs', Hs3, Hs2, Hs1. subst t3. cbn [history].
  rewrite length_app, Hh2, Hh1, Hperm, length_seq. cbn [length].
  split; [lia|]. split; [done|]. lia.
Qed.

End Loop.

(** The ceiling of [n / 32]. *)
Lemma epoch_steps_ceiling (x_train : ndarray spec_float) :
  Keras.epoch_steps (PartB.steps_per_epoch x_train) = ((len x_train + 31) / 32)%nat.
Proof.
  unfold epoch_steps, PartB.steps_per_epoch, Qceiling, Qfloor.
  change (Pos.of_nat PartB.batch_size) with 32%positive.
  cbn [Qopp Qnum Qden].
  apply Nat2Z.inj. rewrite Nat2Z.inj_div, Nat2Z.inj_add.
  change (Z.of_nat 31) with 31. change (Z.of_nat 32) with 32.
  generalize (Z.of_nat (len x_train)) (Nat2Z.is_nonneg (len x_train)).
  intros n Hn. rewrite Z2Nat.id.
  - Z.div_mod_to_equations. lia.
  - Z.div_mod_to_equations. lia.
Qed.

(** The length of the Sequence of Part B is the number of steps of an
    epoch. *)
Lemma img_iter_len `{Framework} (d : PartB.prepared) (g : rng) :
  __len__ (PartB.img_iter d g)
  = Ok (Keras.epoch_steps (PartB.steps_per_epoch (PartB.x_train d))) ∧
  x (PartB.img_iter d g) = PartB.x_train d ∧
  total_batches_seen (PartB.img_iter d g) = 1%nat.
Proof.
  unfold PartB.img_iter, next, flow.
  cbn [batch_index batch_size Nat.eqb Keras.x Keras.y].
  destruct (_get_batches_of_transformed_samples _ _) as [batch g'].
  unfold __len__. cbn [batch_size Keras.x total_batches_seen].
  rewrite epoch_steps_ceiling. repeat split.
  change PartB.batch_size with 32%nat. cbn [Nat.eqb].
  do 2 f_equal. lia.
Qed.

End TrainingFacts.



(** The training set of the notebooks has 27455 images: 858 steps per
    epoch, the last one on a partial batch. *)
Example steps_per_epoch_27455 :
  epoch_steps (Qmake 27455 32) = 858%nat.
Proof. reflexivity. Qed.

(** A run of the training cell on 70 images: 3 steps per epoch, 20 epochs,
    60 optimizer steps, and 62 batches produced by the iterator. *)
Example train_70_images :
  (λ rt, (rt.1, params rt.2, length (history rt.2),
          total_batches_seen (iterator rt.2), insufficient_data rt.2))
    (@PartB.train PartB.counting_framework
       0%nat (PartB.black_dataset 70) ())
  = (Ok (), 60%nat, 20%nat, 62%nat, false).
Proof. vm_compute. reflexivity. Qed.

(** The bound matters: asked for more steps than the Sequence has batches
    (here 5 steps on 3 batches), [fit] runs out of data in the first epoch
    and stops after it. *)
Example fit_runs_out_of_data :
  (λ rt, (rt.1, params rt.2, length (history rt.2),
          total_batches_seen (iterator rt.2), insufficient_data rt.2))
    (@fit PartB.counting_framework PartB.epochs (Qmake 70 16)
       (@Build_training PartB.counting_framework 0%nat
          (@PartB.img_iter PartB.counting_framework
             (PartB.black_dataset 70) ())
          [] false))
  = (Ok (), 3%nat, 1%nat, 5%nat, true).
Proof. vm_compute. reflexivity. Qed.

(** Without training images the Sequence is empty, and [fit] raises when
    it looks at its first batch. *)
Example fit_on_empty_sequence :
  (@PartB.train PartB.counting_framework
     0%nat (PartB.black_dataset 0) ()).1 = Raise ValueError.
Proof. vm_compute. reflexivity. Qed.

(** ** Further properties of the cells *)

(** *** The outcomes of [predict_letter] *)

Module OutcomeFacts.

Lemma get_occurs (s : string) (i : nat) (c : ascii) :
  String.get i s = Some c → occurs c s = true.
Proof.
  unfold occurs. revert i.
  induction s as [|a s IH]; intros i Hget; [done|].
  cbn [list_ascii_of_string existsb]. destruct i as [|i]; cbn in Hget.
  - injection Hget as ->. by rewrite Ascii.eqb_refl.
  - rewrite (IH i Hget). by rewrite orb_true_r.
Qed.

Lemma str_index_occurs (s : string) (i : nat) (c : ascii) :
  PartC.str_index s i = Ok c → occurs c s = true.
Proof.
  unfold PartC.str_index. destruct (String.get i s) eqn:Hget; [|done].
  intros [= <-]. by eapply get_occurs.
Qed.

Lemma str_index_bound (i : nat) :
  PartC.str_index PartC.alphabet i =
  if (i <? 24)%nat
  then PartC.str_index PartC.alphabet i
  else Raise IndexError.
Proof.
  destruct (Nat.ltb_spec i 24) as [Hlt|Hge]; [done|].
  do 24 (destruct i as [|i]; [lia|]). reflexivity.
Qed.

End OutcomeFacts.

(** X1.  Whatever the files and the model are: when the file cannot be read
    for display, [predict_letter] raises that exception and draws nothing;
    when it can, exactly its picture is drawn, whether or not a later step
    raises; a letter that is returned occurs in the alphabet, so it is never
    'j' or 'z'; and an arg-max index of 24 or more, as a model with more
    than 24 outputs can give, raises [IndexError]. *)
Theorem predict_letter_outcomes `{PartC.Session}
  (file_path : string) (out : PartC.notebook) :
  (∀ e, PartC.imread file_path = Raise e →
        PartC.predict_letter file_path out = (Raise e, out)) ∧
  (∀ pic, PartC.imread file_path = Ok pic →
          (PartC.predict_letter file_path out).2 = out ++ [pic]) ∧
  (∀ c, (PartC.predict_letter file_path out).1 = Ok c →
        occurs c PartC.alphabet = true ∧ c ≠ "j"%char ∧ c ≠ "z"%char) ∧
  (∀ pic image x prediction i,
     PartC.imread file_path = Ok pic →
     PartC.load_and_scale_image file_path = Ok image →
     reshape (img_to_array image) [1; 28; 28; 1] = Ok x →
     PartC.predict (true_divide_f32 x 255) = Ok prediction →
     argmax prediction = Ok i →
     (PartC.predict_letter file_path out).1 =
     if (i <? 24)%nat then PartC.str_index PartC.alphabet i
     else Raise IndexError).
Proof.
  unfold PartC.predict_letter, PartC.show_image.
  split; [|split; [|split]].
  - intros e He. rewrite He. by cell_steps.
  - intros pic Hpic. rewrite Hpic. cell_steps.
    destruct (PartC.load_and_scale_image file_path) as [im|]; [|done].
    destruct (reshape _ _) as [x|]; [|done].
    destruct (PartC.predict _) as [p|]; [|done].
    destruct (argmax p) as [i|]; [|done].
    by destruct (PartC.str_index PartC.alphabet i).
  - intros c. cell_steps.
    destruct (PartC.imread file_path) as [pic|]; [|done].
    destruct (PartC.load_and_scale_image file_path) as [im|]; [|done].
    destruct (reshape _ _) as [x|]; [|done].
    destruct (PartC.predict _) as [p|]; [|done].
    destruct (argmax p) as [i|]; [|done].
    destruct (PartC.str_index PartC.alphabet i) as [c'|] eqn:Hc; [|done].
    cbn [fst]. intros [= <-].
    pose proof (OutcomeFacts.str_index_occurs _ _ _ Hc) as Hocc.
    split; [done|]. split; intros ->; by vm_compute in Hocc.
  - intros pic image x p i Hpic Him Hx Hp Hi.
    rewrite Hpic, Him. cell_steps. rewrite Hx. cbv iota.
    rewrite Hp. cbv iota. rewrite Hi. cbv iota.
    rewrite <- OutcomeFacts.str_index_bound.
    by destruct (PartC.str_index PartC.alphabet i).
Qed.

Lemma predict_letter_outcomes_witness :
  @PartC.predict_letter PartC.empty_session "data/asl_images/b.png" []
    = (Raise FileNotFoundError, []) ∧
  (@PartC.predict_letter PartC.black_session "data/asl_images/b.png" []).2
    = [] ++ [PartC.black_image Rgb 32 32] ∧
  (@PartC.predict_letter PartC.black_session "data/asl_images/b.png" []).1
    = (if (0 <? 24)%nat then PartC.str_index PartC.alphabet 0
       else Raise IndexError).
Proof.
  split; [|split].
  - apply (proj1 (@predict_letter_outcomes PartC.empty_session
                    "data/asl_images/b.png" [])).
    reflexivity.
  - apply (proj1 (proj2 (@predict_letter_outcomes PartC.black_session
                           "data/asl_images/b.png" []))).
    reflexivity.
  - eapply (proj2 (proj2 (proj2 (@predict_letter_outcomes PartC.black_session
                                   "data/asl_images/b.png" [])))).
    + reflexivity.
    + reflexivity.
    + vm_compute. reflexivity.
    + reflexivity.
    + vm_compute. reflexivity.
Defined.

(** *** [np.argmax] in the presence of NaN *)

Module NanFacts.

Lemma argmax_loop_first_nan (ip post : list spec_float) mp max_ind i :
  Forall (λ x, Float.is_nan x = false) ip →
  argmax_loop mp max_ind i (ip ++ S754_nan :: post) = (i + length ip)%nat.
Proof.
  revert mp max_ind i.
  induction ip as [|x ip IH]; intros mp max_ind i Hnan.
  { cbn [app argmax_loop length]. rewrite Nat.add_0_r.
    assert (Float.leb S754_nan mp = false) as -> by (by destruct mp).
    reflexivity. }
  apply Forall_cons in Hnan as [Hx Hnan].
  cbn [app argmax_loop length]. rewrite Hx.
  destruct (negb (Float.leb x mp)); rewrite IH by done; lia.
Qed.

End NanFacts.

(** X2.  When some score is NaN, [np.argmax] returns the index of the first
    NaN, whatever the other scores are. *)
Theorem argmax_first_nan (sh : list nat) (pre post : list spec_float) :
  Forall (λ x, Float.is_nan x = false) pre →
  argmax (mk_ndarray sh (pre ++ S754_nan :: post)) = Ok (length pre).
Proof.
  intros Hnan. unfold argmax. cbn [data].
  destruct pre as [|mp pre]; [done|].
  apply Forall_cons in Hnan as [Hmp Hnan].
  cbn [app length]. rewrite Hmp.
  by rewrite NanFacts.argmax_loop_first_nan.
Qed.

Lemma argmax_first_nan_witness :
  argmax (mk_ndarray [1; 4]%nat
            ([Float.zero; Float.one floatx] ++ S754_nan :: [S754_infinity false]))
  = Ok (length [Float.zero; Float.one floatx]).
Proof.
  apply (argmax_first_nan [1; 4]%nat [Float.zero; Float.one floatx]
           [S754_infinity false]).
  repeat (apply Forall_cons_2; [reflexivity|]). apply Forall_nil_2.
Defined.

(** *** The input of the model at inference *)

Module InputFacts.

Lemma inference_pixel_unit (s : Z) :
  0 ≤ s ≤ 255 →
  Float.in_unit Float.binary32
    (Float.div Float.binary32 (Float.of_Z floatx s)
                              (Float.of_Z Float.binary32 255)) = true.
Proof.
  intros Hs.
  assert (List.forallb
            (λ n, Float.in_unit Float.binary32
                    (Float.div Float.binary32
                       (Float.of_Z floatx (Z.of_nat n))
                       (Float.of_Z Float.binary32 255)))
            (List.seq 0 256) = true) as Hall by (vm_compute; reflexivity).
  rewrite List.forallb_forall in Hall.
  specialize (Hall (Z.to_nat s)). rewrite Z2Nat.id in Hall by lia.
  apply Hall, List.in_seq. lia.
Qed.

End InputFacts.

(** X3.  Whatever image [load_img] returned, once its array is reshaped
    the array passed to [model.predict] has shape (1,28,28,1) and holds 784
    values; and when the image is an 8-bit image every value lies in
    [[0,1]], as the training data do. *)
Theorem inference_input_in_unit_interval (image : pil_image)
  (x : ndarray spec_float) :
  pil_wf image →
  reshape (img_to_array image) [1; 28; 28; 1] = Ok x →
  shape (true_divide_f32 x 255) = [1; 28; 28; 1]%nat ∧
  length (data (true_divide_f32 x 255)) = 784%nat ∧
  (sample_range (mode image) = (0, 255) →
   Forall (λ v, Float.in_unit Float.binary32 v = true)
          (data (true_divide_f32 x 255))).
Proof.
  intros [Hlen Hrange]. rewrite NumpyFacts.reshape_1_28_28_1.
  destruct (Nat.eqb_spec (size (img_to_array image)) 784) as [Hsz|]; [|done].
  intros [= <-].
  unfold true_divide_f32, map_array, img_to_array in *.
  unfold size, size_of in Hsz. cbn [shape data foldr] in *.
  split; [done|]. split.
  - rewrite !length_map. lia.
  - intros Hbits. rewrite <- list_fmap_compose. apply Forall_fmap.
    rewrite Hbits in Hrange. cbn [fst snd] in Hrange.
    eapply Forall_impl; [exact Hrange|].
    intros s Hs. by apply InputFacts.inference_pixel_unit.
Qed.

(** A 16-bit greyscale file is not brought to 8 bits: the values passed to
    the model then exceed 1. *)
Example inference_input_beyond_unit_interval :
  (λ x, Float.in_unit Float.binary32 <$> take 3 (data (true_divide_f32 x 255)))
    <$> reshape (img_to_array (PartC.ramp_image ModeI16 28 28)) [1; 28; 28; 1]
  = Ok [true; false; false].
Proof. vm_compute. reflexivity. Qed.

Lemma inference_input_in_unit_interval_witness :
  shape (true_divide_f32
           (mk_ndarray [1; 28; 28; 1]%nat
              (data (img_to_array (PartC.ramp_image ModeL 28 28)))) 255)
    = [1; 28; 28; 1]%nat ∧
  length (data (true_divide_f32
                  (mk_ndarray [1; 28; 28; 1]%nat
                     (data (img_to_array
                              (PartC.ramp_image ModeL 28 28)))) 255))
    = 784%nat ∧
  Forall (λ v, Float.in_unit Float.binary32 v = true)
         (data (true_divide_f32
                  (mk_ndarray [1; 28; 28; 1]%nat
                     (data (img_to_array
                              (PartC.ramp_image ModeL 28 28)))) 255)).
Proof.
  destruct (inference_input_in_unit_interval
              (PartC.ramp_image ModeL 28 28)
              (mk_ndarray [1; 28; 28; 1]%nat
                 (data (img_to_array (PartC.ramp_image ModeL 28 28))))
              (InferenceFacts.ramp_image_wf ModeL 28 28) eq_refl)
    as (Hshape & Hlen & Hunit).
  split; [exact Hshape|]. split; [exact Hlen|]. exact (Hunit eq_refl).
Defined.

(** *** [to_categorical] on a column of labels *)

(** X4.  [to_categorical] on a column of labels first casts them to int64:
    a column read as int64 is taken as it is, a column read as uint64
    wraps, and a column that fits neither raises [OverflowError].  The
    encoding then succeeds exactly when every int64 label lies in
    [[-24, 23]], and raises [IndexError] otherwise.  When it succeeds the
    result has one row of 24 floats for each label, and row [i] is the
    one-hot vector of the int64 label [i] modulo 24: it has exactly one
    component equal to 1 and 23 zeros. *)
Theorem to_categorical_column (y : list Z) :
  to_categorical (Series y) 24 =
  (match column_dtype y with
   | Object => Raise OverflowError
   | _ =>
       if forallb accepted (int64_labels y)
       then Ok (matrix 24 (map (λ L, one_hot 24 (Z.to_nat (L mod 24)))
                               (int64_labels y)))
       else Raise IndexError
   end) ∧
  (∀ m, to_categorical (Series y) 24 = Ok m →
        shape m = [length y; 24%nat] ∧ wf m ∧
        ∀ i L, int64_labels y !! i = Some L →
               row_data m i = one_hot 24 (Z.to_nat (L mod 24)) ∧
               count_eq (Float.one floatx) (row_data m i) = 1%nat ∧
               count_eq Float.zero (row_data m i) = 23%nat).
Proof.
  pose proof (ColumnFacts.to_categorical_vector y) as Heq.
  split; [exact Heq|].
  intros m Hm.
  assert (m = matrix 24 (map (λ L, one_hot 24 (Z.to_nat (L mod 24)))
                             (int64_labels y))) as ->.
  { rewrite Hm in Heq.
    destruct (column_dtype y), (forallb accepted (int64_labels y));
      by simplify_eq. }
  destruct (ColumnFacts.encoded_matrix (int64_labels y)) as [Hshape Hwf].
  rewrite ColumnFacts.length_int64_labels in Hshape.
  split; [exact Hshape|]. split; [exact Hwf|].
  intros i L HL. rewrite (ColumnFacts.encoded_row _ i L HL).
  split; [done|].
  assert (Z.to_nat (L mod 24) < 24)%nat as Hk.
  { pose proof (Z.mod_pos_bound L 24). lia. }
  by destruct (CategoricalFacts.one_hot_counts _ Hk) as (_ & H1 & H0 & _).
Qed.

(** The labels the encoding works on, for the three kinds of column. *)
Example int64_labels_of_columns :
  (column_dtype [3; -1], int64_labels [3; -1]) = (Int64, [3; -1]) ∧
  (column_dtype [3; 2 ^ 64 - 1], int64_labels [3; 2 ^ 64 - 1])
    = (UInt64, [3; -1]) ∧
  column_dtype [-1; 2 ^ 64 - 1] = Object ∧
  column_dtype [2 ^ 64] = Object.
Proof. repeat split; by vm_compute. Qed.

(** *** The guard of the encoding cell of Part A *)

Lemma categorize_skips_24_labels_aux (train valid : list Z) :
  length train = 24%nat →
  PartA.categorize
    {| PartA.y_train := Series train; PartA.y_valid := Series valid |}
  = (Ok (), {| PartA.y_train := Series train; PartA.y_valid := Series valid |}).
Proof.
  intros Hlen. apply EncodingFacts.categorize_skips. unfold last_dim.
  cbn [PartA.y_train labels_shape last]. by rewrite Hlen.
Qed.

(** X5.  The guard of the encoding cell reads the length of a column of
    exactly 24 labels as a final dimension of 24: however often the cell
    runs, such a training column, and the validation column with it, stay
    unencoded, and every run reports success. *)
Theorem categorize_skips_24_labels (train valid : list Z) (k : nat) :
  length train = 24%nat →
  let s := {| PartA.y_train := Series train; PartA.y_valid := Series valid |} in
  PartA.categorize s = (Ok (), s) ∧ rerun PartA.categorize k s = s.
Proof.
  intros Hlen s.
  assert (PartA.categorize s = (Ok (), s)) as Hrun
    by (by apply categorize_skips_24_labels_aux).
  split; [exact Hrun|].
  induction k as [|k IH]; [done|].
  unfold rerun in *. rewrite Nat.iter_succ, IH. by rewrite Hrun.
Qed.

Lemma categorize_skips_24_labels_witness :
  PartA.categorize
    {| PartA.y_train := Series (replicate 24 5); PartA.y_valid := Series [1] |}
  = (Ok (), {| PartA.y_train := Series (replicate 24 5);
               PartA.y_valid := Series [1] |}) ∧
  rerun PartA.categorize 3
    {| PartA.y_train := Series (replicate 24 5); PartA.y_valid := Series [1] |}
  = {| PartA.y_train := Series (replicate 24 5); PartA.y_valid := Series [1] |}.
Proof.
  apply (categorize_skips_24_labels (replicate 24 5) [1] 3).
  apply length_replicate.
Defined.

(** X6.  The guard looks at the training labels only.  When the training
    labels are encoded and the encoding of the validation labels raises
    ([IndexError] for a label outside [[-24, 23]] in a column of 64-bit
    integers, [OverflowError] for a column that does not fit them), the
    first run of the cell raises that exception after it has replaced the
    training labels by their encoding; every later run then skips and
    reports success, and the validation labels stay the integers they
    were. *)
Theorem categorize_failed_run_not_repeated (train valid : list Z)
  (a : ndarray spec_float) (e : exn) (k : nat) :
  length train ≠ 24%nat →
  to_categorical (Series train) 24 = Ok a →
  to_categorical (Series valid) 24 = Raise e →
  let s1 := {| PartA.y_train := Categorical a;
               PartA.y_valid := Series valid |} in
  e = (match column_dtype valid with
       | Object => OverflowError
       | _ => IndexError
       end) ∧
  PartA.categorize
    {| PartA.y_train := Series train; PartA.y_valid := Series valid |}
  = (Raise e, s1) ∧
  PartA.categorize s1 = (Ok (), s1) ∧
  rerun PartA.categorize k s1 = s1.
Proof.
  intros Hlen Ht Hv s1.
  assert (PartA.categorize s1 = (Ok (), s1)) as Hskip.
  { apply EncodingFacts.categorize_skips.
    by apply (EncodingFacts.to_categorical_last_dim (Series train)). }
  split; [|split; [|split; [exact Hskip|]]].
  - rewrite ColumnFacts.to_categorical_vector in Hv.
    destruct (column_dtype valid), (forallb accepted (int64_labels valid));
      by simplify_eq.
  - unfold PartA.categorize. cell_steps.
    cbv beta iota delta [PartA.y_train PartA.y_valid].
    cbn [last_dim labels_shape last].
    destruct (Nat.eqb_spec (length train) 24) as [|_]; [done|].
    cbn [negb]. change PartA.num_classes with 24%nat.
    by rewrite Ht, Hv.
  - induction k as [|k IH]; [done|].
    unfold rerun in *. rewrite Nat.iter_succ, IH. by rewrite Hskip.
Qed.

Lemma categorize_failed_run_not_repeated_witness :
  let a := matrix 24 [one_hot 24 3; one_hot 24 7] in
  let s1 := {| PartA.y_train := Categorical a;
               PartA.y_valid := Series [0; 24] |} in
  IndexError = (match column_dtype [0; 24] with
                | Object => OverflowError
                | _ => IndexError
                end) ∧
  PartA.categorize
    {| PartA.y_train := Series [3; 7]; PartA.y_valid := Series [0; 24] |}
  = (Raise IndexError, s1) ∧
  PartA.categorize s1 = (Ok (), s1) ∧
  rerun PartA.categorize 2 s1 = s1.
Proof.
  apply (categorize_failed_run_not_repeated [3; 7] [0; 24]
           (matrix 24 [one_hot 24 3; one_hot 24 7]) IndexError 2).
  - cbn. lia.
  - vm_compute. reflexivity.
  - vm_compute. reflexivity.
Defined.

(** The same with a validation label that fits no 64-bit integer. *)
Example categorize_overflowing_validation_label :
  (PartA.categorize
     {| PartA.y_train := Series [3; 7];
        PartA.y_valid := Series [0; 2 ^ 64] |}).1
  = Raise OverflowError.
Proof. vm_compute. reflexivity. Qed.

(** *** The data the two notebooks prepare *)

Module PrepareFacts.

(** Normalising and reshaping a table of rows of 784 values. *)
Lemma reshape_normalized (rows : list (list Z)) :
  Forall (λ r, length r = 784%nat) rows →
  reshape (true_divide_int (matrix 784 rows) 255) [-1; 28; 28; 1] =
  Ok (mk_ndarray [length rows; 28; 28; 1]%nat
        (data (true_divide_int (matrix 784 rows) 255))).
Proof.
  intros Hrows. rewrite NumpyFacts.reshape_any_28_28_1.
  assert (size (true_divide_int (matrix 784 rows) 255)
          = (length rows * 784)%nat) as ->.
  { unfold size, size_of. cbn. lia. }
  by rewrite Nat.Div0.mod_mul, Nat.div_mul by lia.
Qed.

Lemma normalized_in_unit (rows : list (list Z)) :
  Forall (λ pixels, length pixels = 784%nat ∧
                    Forall (λ p, 0 ≤ p ≤ 255) pixels) rows →
  Forall (λ v, Float.in_unit Float.binary64 v = true)
         (data (true_divide_int (matrix 784 rows) 255)).
Proof.
  intros Hrows. unfold true_divide_int, map_array, matrix. cbn [data].
  apply Forall_fmap, Forall_concat.
  eapply Forall_impl; [exact Hrows|].
  intros pixels [_ Hpx]. eapply Forall_impl; [exact Hpx|].
  intros p Hp. by apply normalize_pixel_unit.
Qed.

Lemma normalized_wf (rows : list (list Z)) :
  Forall (λ r, length r = 784%nat) rows →
  wf (mk_ndarray [length rows; 28; 28; 1]%nat
        (data (true_divide_int (matrix 784 rows) 255))).
Proof.
  intros Hrows. pose proof (NumpyFacts.matrix_wf 784 rows Hrows) as Hwf.
  unfold wf in *. cbn [shape data true_divide_int map_array matrix] in *.
  rewrite length_map, Hwf. unfold size_of. cbn. lia.
Qed.

Lemma labels_accepted (y : list Z) :
  Forall (λ L, 0 ≤ L ≤ 23) y → forallb accepted y = true.
Proof.
  induction 1 as [|L y HL _ IH]; [done|].
  cbn [forallb]. rewrite IH, andb_true_r. unfold accepted.
  apply andb_true_iff. split; [apply Z.leb_le|apply Z.ltb_lt]; lia.
Qed.

(** The encoding of a column of labels from 0 to 23. *)
Lemma encode_labels (y : list Z) :
  Forall (λ L, 0 ≤ L ≤ 23) y →
  to_categorical (Series y) 24 =
  Ok (matrix 24 (map (λ L, one_hot 24 (Z.to_nat (L mod 24))) y)).
Proof.
  intros Hy.
  destruct (ColumnFacts.int64_labels_small y) as [Hd Hl].
  { eapply Forall_impl; [exact Hy|]. intros L HL; cbn beta in *. blia. }
  rewrite ColumnFacts.to_categorical_vector, Hd, Hl.
  by rewrite labels_accepted.
Qed.

Lemma sign_table_rows (df : dataframe) :
  sign_table df → Forall (λ r, length r = 784%nat) (pixel_rows df).
Proof.
  intros (_ & _ & _ & Hrows). eapply Forall_impl; [exact Hrows|].
  by intros r [? _].
Qed.

End PrepareFacts.

(** X7.  On tables of the expected form (as many labels as rows, labels in
    [[0,23]], rows of 784 intensities in [[0,255]]) the data cell of Part B
    succeeds: the images have shape (n,28,28,1) with every value in [[0,1]],
    the targets have shape (n,24) with row [i] the one-hot vector of label
    [i], and images and targets have the same number of samples, for the
    training and for the validation table. *)
Theorem prepare_data_contract (train_df valid_df : dataframe) :
  sign_table train_df → sign_table valid_df →
  ∃ d, PartB.prepare_data train_df valid_df = Ok d ∧
       shape (PartB.x_train d) = [length (label train_df); 28; 28; 1]%nat ∧
       shape (PartB.y_train d) = [length (label train_df); 24]%nat ∧
       shape (PartB.x_valid d) = [length (label valid_df); 28; 28; 1]%nat ∧
       shape (PartB.y_valid d) = [length (label valid_df); 24]%nat ∧
       wf (PartB.x_train d) ∧ wf (PartB.y_train d) ∧
       wf (PartB.x_valid d) ∧ wf (PartB.y_valid d) ∧
       Forall (λ v, Float.in_unit Float.binary64 v = true)
              (data (PartB.x_train d)) ∧
       Forall (λ v, Float.in_unit Float.binary64 v = true)
              (data (PartB.x_valid d)) ∧
       (∀ i L, label train_df !! i = Some L →
               row_data (PartB.y_train d) i = one_hot 24 (Z.to_nat L)) ∧
       (∀ i L, label valid_df !! i = Some L →
               row_data (PartB.y_valid d) i = one_hot 24 (Z.to_nat L)).
Proof.
  intros Ht Hv.
  pose proof (PrepareFacts.sign_table_rows _ Ht) as Hrt.
  pose proof (PrepareFacts.sign_table_rows _ Hv) as Hrv.
  destruct Ht as (Hct & Hnt & Hlt & Hpt), Hv as (Hcv & Hnv & Hlv & Hpv).
  pose proof (PrepareFacts.encode_labels _ Hlt) as Het.
  pose proof (PrepareFacts.encode_labels _ Hlv) as Hev.
  destruct (ColumnFacts.encoded_matrix (label train_df)) as (Hsht & Hwft).
  destruct (ColumnFacts.encoded_matrix (label valid_df)) as (Hshv & Hwfv).
  pose proof (ColumnFacts.encoded_row (label train_df)) as Hrowt.
  pose proof (ColumnFacts.encoded_row (label valid_df)) as Hrowv.
  eexists. split.
  { unfold PartB.prepare_data. change PartB.num_classes with 24%nat.
    rewrite Het, Hev.
    unfold mbind, result_bind. cbn [rbind].
    unfold values. rewrite Hct, Hcv.
    rewrite !PrepareFacts.reshape_normalized by done.
    cbn [rbind]. reflexivity. }
  cbn [PartB.x_train PartB.y_train PartB.x_valid PartB.y_valid shape data].
  rewrite Hnt, Hnv.
  split; [done|]. split; [by rewrite Hsht, Hnt|].
  split; [done|]. split; [by rewrite Hshv, Hnv|].
  split; [by apply PrepareFacts.normalized_wf|]. split; [done|].
  split; [by apply PrepareFacts.normalized_wf|]. split; [done|].
  split; [by apply PrepareFacts.normalized_in_unit|].
  split; [by apply PrepareFacts.normalized_in_unit|].
  split.
  - intros i L HL. rewrite (Hrowt i L HL).
    rewrite Forall_lookup in Hlt. pose proof (Hlt _ _ HL).
    by rewrite Z.mod_small by lia.
  - intros i L HL. rewrite (Hrowv i L HL).
    rewrite Forall_lookup in Hlv. pose proof (Hlv _ _ HL).
    by rewrite Z.mod_small by lia.
Qed.

Lemma black_table_sign_table (labels : list Z) :
  Forall (λ L, 0 ≤ L ≤ 23) labels → sign_table (black_table labels).
Proof.
  intros Hl. unfold sign_table, black_table. cbn [label ncols pixel_rows].
  split; [done|]. split; [by rewrite length_map|]. split; [done|].
  apply Forall_fmap, Forall_forall. intros L _. cbn beta.
  split; [apply length_replicate|]. apply Forall_replicate. lia.
Qed.

Lemma prepare_data_contract_witness :
  ∃ d, PartB.prepare_data (black_table [3; 0; 23]%Z) (black_table [8]%Z) = Ok d ∧
       shape (PartB.x_train d)
         = [length (label (black_table [3; 0; 23]%Z)); 28; 28; 1]%nat ∧
       shape (PartB.y_train d)
         = [length (label (black_table [3; 0; 23]%Z)); 24]%nat ∧
       shape (PartB.x_valid d)
         = [length (label (black_table [8]%Z)); 28; 28; 1]%nat ∧
       shape (PartB.y_valid d)
         = [length (label (black_table [8]%Z)); 24]%nat ∧
       wf (PartB.x_train d) ∧ wf (PartB.y_train d) ∧
       wf (PartB.x_valid d) ∧ wf (PartB.y_valid d) ∧
       Forall (λ v, Float.in_unit Float.binary64 v = true)
              (data (PartB.x_train d)) ∧
       Forall (λ v, Float.in_unit Float.binary64 v = true)
              (data (PartB.x_valid d)) ∧
       (∀ i L, label (black_table [3; 0; 23]%Z) !! i = Some L →
               row_data (PartB.y_train d) i = one_hot 24 (Z.to_nat L)) ∧
       (∀ i L, label (black_table [8]%Z) !! i = Some L →
               row_data (PartB.y_valid d) i = one_hot 24 (Z.to_nat L)).
Proof.
  apply (prepare_data_contract (black_table [3; 0; 23]%Z) (black_table [8]%Z)).
  - apply black_table_sign_table.
    repeat (apply Forall_cons_2; [lia|]). apply Forall_nil_2.
  - apply black_table_sign_table.
    repeat (apply Forall_cons_2; [lia|]). apply Forall_nil_2.
Defined.



(** *** Running the normalisation cell of Part A again *)

Module RenormalizeFacts.

(** The float64 quotient of an intensity by 255, divided by 255 again. *)
Lemma twice_divided (p : Z) :
  0 ≤ p ≤ 255 →
  let once := Float.div Float.binary64 (Float.of_Z Float.binary64 p)
                        (Float.of_Z Float.binary64 255) in
  let twice := Float.div Float.binary64 once
                         (Float.of_Z Float.binary64 255) in
  Float.leb Float.zero twice = true ∧
  Float.leb twice (Float.div Float.binary64 (Float.of_Z Float.binary64 1)
                             (Float.of_Z Float.binary64 255)) = true ∧
  Float.ltb twice once = (0 <? p).
Proof.
  intros Hp.
  assert (List.forallb
            (λ n,
               let once := Float.div Float.binary64
                             (Float.of_Z Float.binary64 (Z.of_nat n))
                             (Float.of_Z Float.binary64 255) in
               let twice := Float.div Float.binary64 once
                              (Float.of_Z Float.binary64 255) in
               Float.leb Float.zero twice
               && Float.leb twice
                    (Float.div Float.binary64 (Float.of_Z Float.binary64 1)
                                              (Float.of_Z Float.binary64 255))
               && Bool.eqb (Float.ltb twice once) (0 <? Z.of_nat n))
            (List.seq 0 256) = true) as Hall by (vm_compute; reflexivity).
  rewrite List.forallb_forall in Hall.
  specialize (Hall (Z.to_nat p)). rewrite Z2Nat.id in Hall by lia.
  cbv zeta in *.
  assert (List.In (Z.to_nat p) (List.seq 0 256)) as Hin
    by (apply List.in_seq; lia).
  apply Hall in Hin.
  apply andb_true_iff in Hin as [Hin H3].
  apply andb_true_iff in Hin as [H1 H2].
  apply Bool.eqb_prop in H3. done.
Qed.

End RenormalizeFacts.

(** X9.  The normalisation cell of Part A has no guard: run a second time it
    divides by 255 again.  For intensities in [[0,255]] every value then
    lies in [[0, 1/255]], and it is strictly below the once-normalised value
    wherever the pixel is not 0. *)
Theorem normalize_cell_rerun (x_train x_valid : ndarray Z) :
  Forall (λ p, 0 ≤ p ≤ 255) (data x_train) →
  Forall (λ p, 0 ≤ p ≤ 255) (data x_valid) →
  let s0 := {| PartA.x_train := Ints x_train;
               PartA.x_valid := Ints x_valid |} in
  let renormalized (a : ndarray Z) :=
    true_divide_f64 (PartA.normalize a) 255 in
  let upper := Float.div Float.binary64 (Float.of_Z Float.binary64 1)
                                        (Float.of_Z Float.binary64 255) in
  rerun PartA.normalize_cell 1 s0 =
    {| PartA.x_train := Floats (PartA.normalize x_train);
       PartA.x_valid := Floats (PartA.normalize x_valid) |} ∧
  rerun PartA.normalize_cell 2 s0 =
    {| PartA.x_train := Floats (renormalized x_train);
       PartA.x_valid := Floats (renormalized x_valid) |} ∧
  (∀ a, a = x_train ∨ a = x_valid →
        Forall (λ v, Float.leb Float.zero v = true ∧
                     Float.leb v upper = true) (data (renormalized a)) ∧
        ∀ k p once twice,
          data a !! k = Some p →
          data (PartA.normalize a) !! k = Some once →
          data (renormalized a) !! k = Some twice →
          Float.ltb twice once = (0 <? p)).
Proof.
  intros Ht Hv s0 renormalized upper.
  split; [reflexivity|]. split; [reflexivity|].
  assert (∀ a, Forall (λ p, 0 ≤ p ≤ 255) (data a) →
               Forall (λ v, Float.leb Float.zero v = true ∧
                            Float.leb v upper = true)
                      (data (renormalized a)) ∧
               ∀ k p once twice,
                 data a !! k = Some p →
                 data (PartA.normalize a) !! k = Some once →
                 data (renormalized a) !! k = Some twice →
                 Float.ltb twice once = (0 <? p)) as Hgen.
  { intros a Ha. unfold renormalized, true_divide_f64, PartA.normalize,
      true_divide_int, map_array. cbn [data]. split.
    - rewrite <- list_fmap_compose. apply Forall_fmap.
      eapply Forall_impl; [exact Ha|]. intros p Hp. cbn.
      by destruct (RenormalizeFacts.twice_divided p Hp) as (? & ? & _).
    - intros k p once twice Hk. rewrite <- list_fmap_compose.
      rewrite !list_lookup_fmap, Hk. cbn. intros [= <-] [= <-].
      rewrite Forall_lookup in Ha.
      by destruct (RenormalizeFacts.twice_divided p (Ha _ _ Hk))
        as (_ & _ & ?). }
  intros a [->| ->]; by apply Hgen.
Qed.

Lemma normalize_cell_rerun_witness :
  let x_train := vector [0; 128; 255] in
  let x_valid := vector [17] in
  let s0 := {| PartA.x_train := Ints x_train;
               PartA.x_valid := Ints x_valid |} in
  let renormalized (a : ndarray Z) :=
    true_divide_f64 (PartA.normalize a) 255 in
  let upper := Float.div Float.binary64 (Float.of_Z Float.binary64 1)
                                        (Float.of_Z Float.binary64 255) in
  rerun PartA.normalize_cell 1 s0 =
    {| PartA.x_train := Floats (PartA.normalize x_train);
       PartA.x_valid := Floats (PartA.normalize x_valid) |} ∧
  rerun PartA.normalize_cell 2 s0 =
    {| PartA.x_train := Floats (renormalized x_train);
       PartA.x_valid := Floats (renormalized x_valid) |} ∧
  (∀ a, a = x_train ∨ a = x_valid →
        Forall (λ v, Float.leb Float.zero v = true ∧
                     Float.leb v upper = true) (data (renormalized a)) ∧
        ∀ k p once twice,
          data a !! k = Some p →
          data (PartA.normalize a) !! k = Some once →
          data (renormalized a) !! k = Some twice →
          Float.ltb twice once = (0 <? p)).
Proof.
  apply (normalize_cell_rerun (vector [0; 128; 255]) (vector [17])).
  - repeat (apply Forall_cons_2; [lia|]). apply Forall_nil_2.
  - repeat (apply Forall_cons_2; [lia|]). apply Forall_nil_2.
Defined.

(** *** The figure of the cell "Visualizing the Data" *)

Module VisualizeFacts.
Import PartA.

Lemma getitem_matrix_row {A} (n : nat) (rows : list (list A)) i row :
  Forall (λ r, length r = n) rows →
  rows !! i = Some row →
  getitem (matrix n rows) i = Ok (mk_ndarray [n] row).
Proof.
  intros Hrows Hi. unfold getitem, matrix. cbn [shape data].
  apply lookup_lt_Some in Hi as Hlt.
  apply Nat.ltb_lt in Hlt. rewrite Hlt.
  change (size_of [n]) with (n * 1)%nat. rewrite Nat.mul_1_r.
  by rewrite (ColumnFacts.take_drop_concat_uniform n rows i row).
Qed.

Lemma getitem_matrix_outside {A} (n : nat) (rows : list (list A)) i :
  (length rows ≤ i)%nat →
  getitem (matrix n rows) i = Raise IndexError.
Proof.
  intros Hi. unfold getitem, matrix. cbn [shape].
  apply Nat.ltb_ge in Hi. by rewrite Hi.
Qed.

Lemma reshape_row {A} (n : nat) (row : list A) :
  reshape (mk_ndarray [n] row) [28; 28] =
  if (n =? 784)%nat then Ok (mk_ndarray [28; 28]%nat row)
  else Raise ValueError.
Proof.
  unfold reshape, size, fix_unknown_dimension. cbn [shape data].
  change (n_unknown [28; 28]) with 0%nat.
  change (s_known [28; 28]) with 784.
  change (size_of [n]) with (n * 1)%nat. rewrite Nat.mul_1_r.
  destruct (Nat.eqb_spec n 784) as [->|Hn]; [done|].
  destruct (Z.eqb_spec (Z.of_nat n) 784); [lia|done].
Qed.

Section Loop.
Variable df : dataframe.
Hypothesis Hlabels : length (label df) = length (pixel_rows df).
Hypothesis Hrows : Forall (λ r, length r = 784%nat) (pixel_rows df).
Hypothesis Hncols : ncols df = 784%nat.

Lemma visualize_loop_784 (k s : nat) (figure : list subplot) :
  (s ≤ length (pixel_rows df))%nat →
  visualize_loop (values df) (label df) (seq s k) figure =
  (figure ++ take k (drop s (zip_with plot (label df) (pixel_rows df))),
   if (s + k <=? length (pixel_rows df))%nat then None
   else Some (Builtin IndexError)).
Proof.
  revert s figure. induction k as [|k IH]; intros s figure Hs.
  { cbn [seq visualize_loop take]. rewrite app_nil_r, Nat.add_0_r.
    apply Nat.leb_le in Hs. by rewrite Hs. }
  cbn [seq visualize_loop]. unfold visualize_step.
  assert (values df = matrix 784 (pixel_rows df)) as Hvalues
    by (unfold values; by rewrite Hncols).
  destruct (decide (s < length (pixel_rows df))%nat) as [Hlt|Hge].
  - destruct (lookup_lt_is_Some_2 (pixel_rows df) s Hlt) as [r Hr].
    destruct (lookup_lt_is_Some_2 (label df) s) as [L HL]; [lia|].
    rewrite Hvalues at 1.
    rewrite (getitem_matrix_row 784 _ s r Hrows Hr), HL, reshape_row.
    cbn [Nat.eqb]. rewrite IH by lia.
    assert (zip_with plot (label df) (pixel_rows df) !! s = Some (plot L r))
      as Hplot by (by rewrite lookup_zip_with, HL, Hr).
    rewrite (drop_S _ _ _ Hplot). cbn [take].
    rewrite <- app_assoc. cbn [app].
    by replace (S s + k)%nat with (s + S k)%nat by lia.
  - rewrite Hvalues, getitem_matrix_outside by lia.
    rewrite drop_ge by (rewrite length_zip_with; lia). cbn [take].
    rewrite app_nil_r.
    destruct (Nat.leb_spec (s + S k) (length (pixel_rows df))); [lia|done].
Qed.

End Loop.

End VisualizeFacts.



(** *** The plot of the first augmented batch *)

Module PreviewFacts.

Lemma traverse_ok {A B} (f : A → result B) (g : A → B) (l : list A) :
  Forall (λ a, f a = Ok (g a)) l → traverse f l = Ok (map g l).
Proof.
  induction 1 as [|a l Ha _ IH]; [done|].
  cbn [traverse map]. rewrite Ha, IH. done.
Qed.

Lemma traverse_raise {A B} (f : A → result B) (g : A → B)
  (l1 l2 : list A) (a : A) (e : exn) :
  Forall (λ a, f a = Ok (g a)) l1 → f a = Raise e →
  traverse f (l1 ++ a :: l2) = Raise e.
Proof.
  intros Hl1 Ha. induction Hl1 as [|b l1 Hb _ IH]; cbn [app traverse].
  - by rewrite Ha.
  - by rewrite Hb, IH.
Qed.

Section Rows.
Context `{Framework}.

Lemma transform_rows_length datagen rows g :
  length (transform_rows datagen rows g).1 = length rows.
Proof.
  revert g. induction rows as [|r rows IH]; intros g; [done|].
  cbn [transform_rows]. destruct (random_transform datagen r g) as [r' g1].
  specialize (IH g1). destruct (transform_rows datagen rows g1) as [rs g2].
  cbn [fst length] in *. by rewrite IH.
Qed.

Lemma transform_rows_uniform datagen (m : nat) rows g :
  (∀ r g', length r = m → length (random_transform datagen r g').1 = m) →
  Forall (λ r, length r = m) rows →
  Forall (λ r, length r = m) (transform_rows datagen rows g).1.
Proof.
  intros Ht Hrows. revert g.
  induction Hrows as [|r rows Hr _ IH]; intros g; [by constructor|].
  cbn [transform_rows]. pose proof (Ht r g Hr) as Hr'.
  destruct (random_transform datagen r g) as [r' g1].
  specialize (IH g1). destruct (transform_rows datagen rows g1) as [rs g2].
  cbn [fst] in *. by constructor.
Qed.

End Rows.

(** [x[i]], squeezed, for a batch of 28 x 28 x 1 images. *)
Lemma squeezed_image (rows : list (list spec_float)) i row :
  Forall (λ r, length r = 784%nat) rows →
  rows !! i = Some row →
  (image ← getitem (mk_ndarray [length rows; 28; 28; 1]%nat (concat rows)) i;
   Ok (squeeze image)) = Ok (mk_ndarray [28; 28]%nat row).
Proof.
  intros Hrows Hi. unfold getitem. cbn [shape data].
  apply lookup_lt_Some in Hi as Hlt. apply Nat.ltb_lt in Hlt. rewrite Hlt.
  change (size_of [28; 28; 1]%nat) with 784%nat.
  rewrite (ColumnFacts.take_drop_concat_uniform 784 rows i row Hrows Hi).
  reflexivity.
Qed.

(** The loop [for i in range(k): x[i]] over a batch of 28 x 28 x 1
    images, from position [s]. *)
Lemma traverse_squeezed (rows : list (list spec_float)) (k s : nat) :
  Forall (λ r, length r = 784%nat) rows →
  (s ≤ length rows)%nat →
  traverse
    (λ i, image ← getitem (mk_ndarray [length rows; 28; 28; 1]%nat
                                      (concat rows)) i;
          Ok (squeeze image)) (seq s k) =
  if (s + k <=? length rows)%nat
  then Ok (map (λ row, mk_ndarray [28; 28]%nat row) (take k (drop s rows)))
  else Raise IndexError.
Proof.
  intros Hrows. revert s. induction k as [|k IH]; intros s Hs.
  { cbn [seq traverse take map]. rewrite Nat.add_0_r.
    apply Nat.leb_le in Hs. by rewrite Hs. }
  cbn [seq traverse].
  destruct (decide (s < length rows)%nat) as [Hlt|Hge].
  - destruct (lookup_lt_is_Some_2 rows s Hlt) as [r Hr].
    rewrite (squeezed_image rows s r Hrows Hr), IH by lia.
    rewrite (drop_S _ _ _ Hr). cbn [take map rbind].
    replace (S s + k)%nat with (s + S k)%nat by lia.
    by destruct (s + S k <=? length rows)%nat.
  - unfold getitem at 1. cbn [shape].
    assert ((s <? length rows)%nat = false) as ->
      by (apply Nat.ltb_ge; lia).
    cbn [mbind result_bind rbind].
    destruct (Nat.leb_spec (s + S k) (length rows)); [lia|done].
Qed.

End PreviewFacts.

(** X11.  The cell "Batch Size" draws one batch of a training set of [n]
    images with their [n] targets, the arrays [flow] accepts, and shows
    [x[i]] for the 32 values of [i].  When the permutation the iterator
    draws is one of [0 .. n-1] and the augmentation keeps the 784 pixels of
    an image, the batch holds [min 32 n] images: with fewer than 32 training
    images the loop raises [IndexError], and otherwise 32 images of shape 28
    x 28 are shown.  The iterator the cell leaves for the training is at its
    second batch when the set has more than 32 images, and back at the start
    of a pass otherwise. *)
Theorem preview_needs_full_batch `{Framework}
  (d : PartB.prepared) (g : rng) (n : nat) :
  shape (PartB.x_train d) = [n; 28; 28; 1]%nat →
  shape (PartB.y_train d) = [n; 24]%nat →
  wf (PartB.x_train d) →
  (permutation g n).1 ≡ₚ seq 0 n →
  (∀ image g', length image = 784%nat →
               length (random_transform PartB.datagen image g').1
               = 784%nat) →
  PartB.preview d g =
    (if (32 <=? n)%nat
     then Ok (map (λ row, mk_ndarray [28; 28]%nat row)
                (transform_rows PartB.datagen
                   (map (row_data (PartB.x_train d))
                        (take 32 (permutation g n).1))
                   (permutation g n).2).1)
     else Raise IndexError) ∧
  (∀ images, PartB.preview d g = Ok images →
             length images = 32%nat ∧
             Forall (λ im, shape im = [28; 28]%nat ∧ wf im) images) ∧
  batch_index (PartB.img_iter d g) = (if (32 <? n)%nat then 1 else 0)%nat ∧
  index_array (PartB.img_iter d g) = Some (permutation g n).1.
Proof.
  intros Hshape _ Hwf Hperm Htransform.
  assert (len (PartB.x_train d) = n) as Hlen
    by (unfold len; by rewrite Hshape).
  assert (length (permutation g n).1 = n) as Hpn
    by (by rewrite Hperm, length_seq).
  set (batch := take 32 (permutation g n).1).
  assert (length batch = n `min` 32)%nat as Hbatch
    by (unfold batch; rewrite length_take; lia).
  set (rows := (transform_rows PartB.datagen
                  (map (row_data (PartB.x_train d)) batch)
                  (permutation g n).2).1).
  assert (length rows = n `min` 32)%nat as Hrowsn
    by (unfold rows;
        by rewrite PreviewFacts.transform_rows_length, length_map).
  assert (Forall (λ r, length r = 784%nat) rows) as Hrows.
  { apply PreviewFacts.transform_rows_uniform; [exact Htransform|].
    apply Forall_fmap, Forall_forall. intros j Hj.
    assert (j < n)%nat as Hjn.
    { apply elem_of_take in Hj as (k & Hk & _).
      apply list_elem_of_lookup_2 in Hk. rewrite Hperm in Hk.
      apply elem_of_seq in Hk. lia. }
    cbn. unfold row_data. rewrite Hshape. cbn [tl].
    change (size_of [28; 28; 1]%nat) with 784%nat.
    rewrite length_take, length_drop. unfold wf in Hwf.
    rewrite Hwf, Hshape.
    change (size_of [n; 28; 28; 1]%nat) with (n * 784)%nat. nia. }
  assert (next (flow PartB.datagen (PartB.x_train d) (PartB.y_train d)
                     PartB.batch_size g) =
          ((mk_ndarray [length batch; 28; 28; 1]%nat (concat rows),
            take_rows (PartB.y_train d) batch),
           {| image_data_generator := PartB.datagen;
              x := PartB.x_train d; y := PartB.y_train d;
              batch_size := 32;
              batch_index := if (32 <? n)%nat then 1%nat else 0%nat;
              total_batches_seen := 1;
              index_array := Some (permutation g n).1;
              random_state :=
                (transform_rows PartB.datagen
                   (map (row_data (PartB.x_train d)) batch)
                   (permutation g n).2).2 |})) as Hnext.
  { unfold next, flow, _set_index_array,
      _get_batches_of_transformed_samples.
    cbn [batch_index Keras.x Keras.y batch_size Nat.eqb
      image_data_generator index_array random_state total_batches_seen].
    rewrite Hlen. unfold rows, batch.
    destruct (permutation g n) as [perm g1]. cbn [fst snd].
    cbn [batch_index Keras.x Keras.y batch_size default
      image_data_generator index_array random_state total_batches_seen].
    change (0 * PartB.batch_size)%nat with 0%nat.
    assert ((if (n =? 0)%nat then 0 else 0 `mod` n)%nat = 0%nat) as ->
      by (destruct (n =? 0)%nat; [done|apply Nat.Div0.mod_0_l]).
    rewrite drop_0. change PartB.batch_size with 32%nat.
    rewrite Hshape. cbn [tl].
    destruct (transform_rows _ _ _) as [rs g2]. cbn [fst snd].
    reflexivity. }
  assert (PartB.preview d g =
          if (32 <=? n)%nat
          then Ok (map (λ row, mk_ndarray [28; 28]%nat row) rows)
          else Raise IndexError) as Hpreview.
  { unfold PartB.preview. rewrite Hnext. rewrite Hbatch, <- Hrowsn.
    change PartB.batch_size with 32%nat.
    rewrite (PreviewFacts.traverse_squeezed rows 32 0 Hrows) by lia.
    rewrite drop_0. cbn [Nat.add]. rewrite Hrowsn.
    destruct (Nat.leb_spec 32 n) as [Hn|Hn];
      destruct (Nat.leb_spec 32 (n `min` 32)) as [Hm|Hm]; try lia; [|done].
    by rewrite take_ge by lia. }
  split; [exact Hpreview|]. split.
  { intros images. rewrite Hpreview.
    destruct (Nat.leb_spec 32 n) as [Hn|Hn]; [|done].
    intros [= <-]. split; [rewrite length_map; lia|].
    apply Forall_fmap. eapply Forall_impl; [exact Hrows|].
    intros r Hr. cbn. split; [done|]. unfold wf. cbn [data shape].
    by rewrite Hr. }
  unfold PartB.img_iter. by rewrite Hnext.
Qed.

Lemma preview_needs_full_batch_witness :
  let d := PartB.black_dataset 40 in
  let H := PartB.counting_framework in
  let g : rng := () in
  PartB.preview d g =
    (if (32 <=? 40)%nat
     then Ok (map (λ row, mk_ndarray [28; 28]%nat row)
                (transform_rows PartB.datagen
                   (map (row_data (PartB.x_train d))
                        (take 32 (permutation g 40).1))
                   (permutation g 40).2).1)
     else Raise IndexError) ∧
  (∀ images, PartB.preview d g = Ok images →
             length images = 32%nat ∧
             Forall (λ im, shape im = [28; 28]%nat ∧ wf im) images) ∧
  batch_index (PartB.img_iter d g) = (if (32 <? 40)%nat then 1 else 0)%nat ∧
  index_array (PartB.img_iter d g) = Some (permutation g 40).1.
Proof.
  apply (@preview_needs_full_batch PartB.counting_framework
           (PartB.black_dataset 40) () 40).
  - reflexivity.
  - reflexivity.
  - unfold wf, PartB.black_dataset. cbn [PartB.x_train data shape].
    rewrite length_replicate. reflexivity.
  - reflexivity.
  - intros image g' Himage. exact Himage.
Defined.

(** *** Encoding and decoding of a label *)

(** X12.  [np.argmax] undoes [to_categorical]: on the row the encoding
    makes of a label, the first maximum is at the int64 the cast makes of
    the label, modulo 24.  That is the label itself for a label from 0 to
    23, 24 more for a negative label, and the wrapped label plus 24 for a
    label of a uint64 column from [2^64 - 24] on; and the alphabet of
    Part C has a letter at that index. *)
Theorem argmax_decodes_encoding (y : list Z) (m : ndarray spec_float)
  (i : nat) (L : Z) :
  to_categorical (Series y) 24 = Ok m →
  y !! i = Some L →
  let c := match column_dtype y with
           | UInt64 => wrap_int64 L
           | _ => L
           end in
  argmax (mk_ndarray [24%nat] (row_data m i)) = Ok (Z.to_nat (c mod 24)) ∧
  c mod 24 = (if c <? 0 then c + 24 else c) ∧
  (0 ≤ L ≤ 23 → c = L) ∧
  is_ok (PartC.str_index PartC.alphabet (Z.to_nat (c mod 24))) = true.
Proof.
  intros Hm HL c.
  assert (int64_labels y !! i = Some c) as Hc.
  { unfold int64_labels, c.
    destruct (column_dtype y); by rewrite ?list_lookup_fmap, HL. }
  rewrite ColumnFacts.to_categorical_vector in Hm.
  assert (forallb accepted (int64_labels y) = true ∧
          m = matrix 24 (map (λ L, one_hot 24 (Z.to_nat (L mod 24)))
                             (int64_labels y))) as [Hacc ->].
  { destruct (column_dtype y), (forallb accepted (int64_labels y));
      by simplify_eq. }
  rewrite (ColumnFacts.encoded_row _ i c Hc).
  assert (accepted c = true) as HaccL.
  { apply ColumnFacts.forallb_Forall in Hacc.
    rewrite Forall_lookup in Hacc. by apply (Hacc i). }
  pose proof (ColumnFacts.accepted_mod c HaccL) as Hmod.
  assert (Z.to_nat (c mod 24) < 24)%nat as Hk.
  { pose proof (Z.mod_pos_bound c 24). lia. }
  split; [by apply ColumnFacts.argmax_one_hot|]. split; [exact Hmod|].
  split.
  { intros HL23. unfold c. destruct (column_dtype y); try done.
    apply ColumnFacts.wrap_int64_small. blia. }
  revert Hk. generalize (Z.to_nat (c mod 24)). intros k Hk.
  do 24 (destruct k as [|k]; [reflexivity|]). lia.
Qed.

Lemma argmax_decodes_encoding_witness :
  let y := [3; 2 ^ 64 - 1; 23] in
  let m := matrix 24 [one_hot 24 3; one_hot 24 23; one_hot 24 23] in
  let c := match column_dtype y with
           | UInt64 => wrap_int64 (2 ^ 64 - 1)
           | _ => 2 ^ 64 - 1
           end in
  argmax (mk_ndarray [24%nat] (row_data m 1)) = Ok (Z.to_nat (c mod 24)) ∧
  c mod 24 = (if c <? 0 then c + 24 else c) ∧
  (0 ≤ 2 ^ 64 - 1 ≤ 23 → c = 2 ^ 64 - 1) ∧
  is_ok (PartC.str_index PartC.alphabet (Z.to_nat (c mod 24))) = true.
Proof.
  apply (argmax_decodes_encoding [3; 2 ^ 64 - 1; 23]
           (matrix 24 [one_hot 24 3; one_hot 24 23; one_hot 24 23])
           1 (2 ^ 64 - 1)).
  - vm_compute. reflexivity.
  - reflexivity.
Defined.

(** *** The cell "Extracting the Labels" *)

Module LabelFacts.

Lemma without_absent (name : string) (df : frame) :
  name ∉ df.*1 → without name df = df.
Proof.
  unfold without. induction df as [|[k v] df IH]; [done|].
  cbn [fmap list_fmap fst]. intros Hnot.
  apply not_elem_of_cons in Hnot as [Hk Hdf].
  rewrite filter_cons_True by (cbn; congruence).
  by rewrite IH.
Qed.

Lemma del_column_without (name : string) (df : frame) (v : list Z) :
  NoDup df.*1 → column df name = Some v →
  del_column df name = Some (without name df).
Proof.
  unfold without. induction df as [|[k w] df IH]; [done|].
  cbn [fmap list_fmap fst column del_column]. intros Hdup.
  apply NoDup_cons in Hdup as [Hk Hdup].
  destruct (String.eqb_spec k name) as [->|Hne].
  - intros _. rewrite filter_cons_False by (cbn; tauto).
    f_equal. symmetry. by apply without_absent.
  - intros Hcol. rewrite (IH Hdup Hcol).
    by rewrite filter_cons_True by done.
Qed.

Lemma column_without (name : string) (df : frame) :
  column (without name df) name = None.
Proof.
  unfold without. induction df as [|[k w] df IH]; [done|].
  destruct (decide (k = name)) as [->|Hne].
  - by rewrite filter_cons_False by (cbn; tauto).
  - rewrite filter_cons_True by done. cbn [column].
    by destruct (String.eqb_spec k name).
Qed.

Lemma column_without_other (name other : string) (df : frame) :
  other ≠ name → column (without name df) other = column df other.
Proof.
  intros Hother. unfold without.
  induction df as [|[k w] df IH]; [done|].
  destruct (decide (k = name)) as [->|Hne].
  - rewrite filter_cons_False by (cbn; tauto). cbn [column].
    by destruct (String.eqb_spec name other); [congruence|].
  - rewrite filter_cons_True by done. cbn [column]. by rewrite IH.
Qed.

Lemma length_without (name : string) (df : frame) (v : list Z) :
  NoDup df.*1 → column df name = Some v →
  S (length (without name df)) = length df.
Proof.
  unfold without. induction df as [|[k w] df IH]; [done|].
  cbn [fmap list_fmap fst column]. intros Hdup.
  apply NoDup_cons in Hdup as [Hk Hdup].
  destruct (String.eqb_spec k name) as [->|Hne].
  - intros _. rewrite filter_cons_False by (cbn; tauto).
    fold (without name df). by rewrite without_absent.
  - intros Hcol. rewrite filter_cons_True by done. cbn [length].
    by rewrite (IH Hdup Hcol).
Qed.

End LabelFacts.


